(** * Konstytucja: voting arithmetic and the three procedural state machines

    A shallow embedding of

    - [konstytucja/common/voting.py] (quorum and majority checks),
    - [konstytucja/legislative_process.py] (Art. 118-122),
    - [konstytucja/chapter_06_council_of_ministers.py], class
      [GovernmentFormation] (Art. 154-155),
    - [konstytucja/chapter_12_amendments.py] (Art. 235),

    together with the properties stated about them.

    Python integers are unbounded, so they are [Z].  A Python call either
    returns a value or raises; a method of a machine may in addition have
    mutated [self] before it raises.  Functions are therefore embedded in an
    error monad ([result]) and methods in a state-and-error monad ([action])
    whose final state is kept also when the call raises. *)

From Stdlib Require Import ZArith String Ascii List DecimalString.
From stdpp Require Import base decidable list strings gmap.

Local Open Scope Z_scope.

(** ** Values shared by all modules *)

(** Modelled from the spec: [common/types.py] is not part of the sources at
    hand.  [Chamber] has the two members the sources name. *)
Inductive Chamber : Type := SEJM | SENATE.

#[global] Instance Chamber_eq_dec : EqDecision Chamber.
Proof. solve_decision. Defined.

(** Modelled from the spec: the closed enumeration of majority kinds. *)
Inductive MajorityType : Type := SIMPLE | ABSOLUTE | TWO_THIRDS | THREE_FIFTHS.

(** Modelled from the spec: the vote tally.  The sources read the attributes
    [chamber], [votes_for], [votes_against], [votes_abstain], [members] and
    [total_present].  [members] is the statutory member count; it is kept as
    an attribute so that every result below holds for any chamber size. *)
Record VoteRecord : Type := {
  chamber : Chamber;
  votes_for : Z;
  votes_against : Z;
  votes_abstain : Z;
  members : Z
}.

(** Modelled from the spec: total-present = for + against + abstain. *)
Definition total_present (vote : VoteRecord) : Z :=
  votes_for vote + votes_against vote + votes_abstain vote.

(** Modelled from the spec: the chamber-specific statutory sizes used by the
    test-suite (a Sejm of 460 Deputies, a Senate of 100 Senators). *)
Definition statutory_members (c : Chamber) : Z :=
  match c with SEJM => 460 | SENATE => 100 end.

(** [VoteRecord(chamber=c, votes_for=f, votes_against=a, votes_abstain=b)] *)
Definition vote_record (c : Chamber) (f a b : Z) : VoteRecord :=
  {| chamber := c; votes_for := f; votes_against := a; votes_abstain := b;
     members := statutory_members c |}.

(** ** Exceptions *)

(** Modelled from the spec: [common/errors.py] is not part of the sources at
    hand.  Every domain error is raised as [Cls(message, article=...)]; the
    classes are taken as pairwise unrelated. *)
Inductive ErrorClass : Type :=
  | QuorumError
  | MajorityError
  | LegislativeProcessError
  | GovernmentFormationError
  | AmendmentError.

#[global] Instance ErrorClass_eq_dec : EqDecision ErrorClass.
Proof. solve_decision. Defined.

Inductive exn : Type :=
  | Raised (cls : ErrorClass) (message article : string)
  | AssertionError.

Definition is_instance (e : exn) (classes : list ErrorClass) : bool :=
  match e with
  | Raised cls _ _ => bool_decide (cls ∈ classes)
  | AssertionError => false
  end.

(** ** The error monad of plain functions *)

Inductive result (A : Type) : Type :=
  | Return (a : A)
  | Raise (e : exn).
Arguments Return {A} a.
Arguments Raise {A} e.

Definition rbind {A B} (r : result A) (k : A -> result B) : result B :=
  match r with
  | Return a => k a
  | Raise e => Raise e
  end.

(** ** The state-and-error monad of methods

    A method receives [self], may assign to its attributes, and returns or
    raises; the assignments made before a [raise] stay. *)

Definition action (St A : Type) : Type := St -> result A * St.

Definition aret {St A} (a : A) : action St A := fun self => (Return a, self).

Definition abind {St A B} (m : action St A) (k : A -> action St B)
  : action St B :=
  fun self =>
    match m self with
    | (Return a, self') => k a self'
    | (Raise e, self') => (Raise e, self')
    end.

Definition raise {St A} (e : exn) : action St A := fun self => (Raise e, self).

(** Calling a plain function from a method. *)
Definition call {St A} (r : result A) : action St A := fun self => (r, self).

(** [assert cond] *)
Definition assert {St} (cond : bool) : action St unit :=
  if cond then aret tt else raise AssertionError.

(** [try: body  except (classes): handler]; the handler receives the caught
    exception so that a bare [raise] can re-raise it. *)
Definition try_except {St A} (body : action St A) (classes : list ErrorClass)
    (handler : exn -> action St A) : action St A :=
  fun self =>
    match body self with
    | (Return a, self') => (Return a, self')
    | (Raise e, self') =>
        if is_instance e classes then handler e self' else (Raise e, self')
    end.

(** [try: body  except Exception: handler] *)
Definition try_except_Exception {St A} (body : action St A)
    (handler : exn -> action St A) : action St A :=
  fun self =>
    match body self with
    | (Return a, self') => (Return a, self')
    | (Raise e, self') => handler e self'
    end.

Declare Scope action_scope.
Delimit Scope action_scope with action.
Notation "m1 ;; m2" := (abind m1 (fun _ => m2))
  (at level 100, m2 at level 200, right associativity) : action_scope.

(** Running a sequence of calls on one object, stopping at the first that
    raises: the driver a caller writes as consecutive statements. *)
Fixpoint run {St} (calls : list (action St unit)) : action St unit :=
  match calls with
  | [] => aret tt
  | c :: rest => abind c (fun _ => run rest)
  end.

(** ** Text *)

(** [str(n)] for a Python integer. *)
Definition str_int (n : Z) : string := NilZero.string_of_int (Z.to_int n).

(** [sep.join(parts)] *)
Fixpoint join (sep : string) (parts : list string) : string :=
  match parts with
  | [] => ""
  | [p] => p
  | p :: rest => p +:+ sep +:+ join sep rest
  end.

(** [needle in hay] for strings. *)
Fixpoint contains (needle hay : string) : bool :=
  String.prefix needle hay ||
  match hay with
  | EmptyString => false
  | String _ rest => contains needle rest
  end.

(** ** [common/voting.py] *)

Module Voting.

Definition check_quorum (vote : VoteRecord) : result unit :=
  if total_present vote * 2 <? members vote then
    Raise (Raised QuorumError
      ("Quorum not met: " +:+ str_int (total_present vote) +:+ " present, "
       +:+ "need at least " +:+ str_int ((members vote + 1) / 2) +:+ " "
       +:+ "of " +:+ str_int (members vote) +:+ " statutory members")
      "120")
  else Return tt.

Definition check_majority (vote : VoteRecord) (majority_type : MajorityType)
  : result bool :=
  rbind
    match majority_type with
    | SIMPLE =>
        let passed := votes_for vote >? votes_against vote in
        if negb passed then
          Raise (Raised MajorityError
            ("Simple majority not reached: " +:+ str_int (votes_for vote)
             +:+ " for, " +:+ str_int (votes_against vote) +:+ " against")
            "120")
        else Return tt
    | ABSOLUTE =>
        let passed := votes_for vote * 2 >? members vote in
        if negb passed then
          Raise (Raised MajorityError
            ("Absolute majority not reached: " +:+ str_int (votes_for vote)
             +:+ " for, " +:+ "need more than " +:+ str_int (members vote / 2)
             +:+ " " +:+ "of " +:+ str_int (members vote)
             +:+ " statutory members")
            "120")
        else Return tt
    | TWO_THIRDS =>
        let passed := votes_for vote * 3 >=? total_present vote * 2 in
        if negb passed then
          Raise (Raised MajorityError
            ("Two-thirds majority not reached: " +:+ str_int (votes_for vote)
             +:+ " for " +:+ "of " +:+ str_int (total_present vote)
             +:+ " present")
            "235")
        else Return tt
    | THREE_FIFTHS =>
        let passed := votes_for vote * 5 >=? total_present vote * 3 in
        if negb passed then
          Raise (Raised MajorityError
            ("Three-fifths majority not reached: " +:+ str_int (votes_for vote)
             +:+ " for " +:+ "of " +:+ str_int (total_present vote)
             +:+ " present")
            "120")
        else Return tt
    end
    (fun _ => Return true).

Definition passes_vote (vote : VoteRecord) (majority_type : MajorityType)
    (require_quorum : bool) : result bool :=
  rbind (if require_quorum then check_quorum vote else Return tt)
        (fun _ => check_majority vote majority_type).

End Voting.

(** ** [legislative_process.py] *)

Module Legislative.

(** Modelled from the spec: [BillStage] of [common/types.py], with the
    members the machine names. *)
Inductive BillStage : Type :=
  | INITIATED
  | SEJM_DELIBERATION
  | SEJM_PASSED
  | SENATE_DELIBERATION
  | SENATE_PASSED
  | SENATE_AMENDED
  | SENATE_REJECTED
  | SEJM_OVERRIDE_VOTE
  | PRESIDENT_REVIEW
  | SIGNED
  | VETOED
  | REFERRED_TO_TRIBUNAL
  | PARTIALLY_UNCONSTITUTIONAL
  | VETO_OVERRIDDEN
  | ENACTED
  | REJECTED.

#[global] Instance BillStage_eq_dec : EqDecision BillStage.
Proof. solve_decision. Defined.

(** [stage.name] *)
Definition name (s : BillStage) : string :=
  match s with
  | INITIATED => "INITIATED"
  | SEJM_DELIBERATION => "SEJM_DELIBERATION"
  | SEJM_PASSED => "SEJM_PASSED"
  | SENATE_DELIBERATION => "SENATE_DELIBERATION"
  | SENATE_PASSED => "SENATE_PASSED"
  | SENATE_AMENDED => "SENATE_AMENDED"
  | SENATE_REJECTED => "SENATE_REJECTED"
  | SEJM_OVERRIDE_VOTE => "SEJM_OVERRIDE_VOTE"
  | PRESIDENT_REVIEW => "PRESIDENT_REVIEW"
  | SIGNED => "SIGNED"
  | VETOED => "VETOED"
  | REFERRED_TO_TRIBUNAL => "REFERRED_TO_TRIBUNAL"
  | PARTIALLY_UNCONSTITUTIONAL => "PARTIALLY_UNCONSTITUTIONAL"
  | VETO_OVERRIDDEN => "VETO_OVERRIDDEN"
  | ENACTED => "ENACTED"
  | REJECTED => "REJECTED"
  end.

(** Modelled from the spec: [Bill(title=..., sponsor=...)]. *)
Record Bill : Type := { title : string; sponsor : string }.

Record LegislativeProcess : Type := {
  bill : Bill;
  stage : BillStage;
  history : list string
}.

(** [LegislativeProcess(bill=b)]: the defaults of the dataclass. *)
Definition new (b : Bill) : LegislativeProcess :=
  {| bill := b; stage := INITIATED; history := [] |}.

Local Open Scope action_scope.

Definition _transition (new_stage : BillStage) (note : string)
  : action LegislativeProcess unit :=
  fun self =>
    (Return tt,
     {| bill := bill self;
        stage := new_stage;
        history := history self ++
          [name (stage self) +:+ " -> " +:+ name new_stage +:+ ": " +:+ note] |}).

Definition _require_stage (expected : list BillStage) (article : string)
  : action LegislativeProcess unit :=
  fun self =>
    if bool_decide (stage self ∉ expected) then
      let expected_names := join ", " (name <$> expected) in
      raise (Raised LegislativeProcessError
        ("Cannot proceed: bill is at " +:+ name (stage self) +:+ ", "
         +:+ "expected " +:+ expected_names)
        article) self
    else aret tt self.

Definition begin_sejm_deliberation : action LegislativeProcess unit :=
  _require_stage [INITIATED] "119" ;;
  _transition SEJM_DELIBERATION "Three readings begin".

Definition sejm_vote (vote : VoteRecord) : action LegislativeProcess unit :=
  _require_stage [SEJM_DELIBERATION] "120" ;;
  assert (bool_decide (chamber vote = SEJM)) ;;
  try_except (call (Voting.passes_vote vote SIMPLE true))
    [QuorumError; MajorityError]
    (fun e => _transition REJECTED "Sejm rejected" ;; raise e) ;;
  _transition SEJM_PASSED
    ("Passed " +:+ str_int (votes_for vote) +:+ "-"
     +:+ str_int (votes_against vote)).

Definition send_to_senate : action LegislativeProcess unit :=
  _require_stage [SEJM_PASSED] "121(1)" ;;
  _transition SENATE_DELIBERATION "Sent to Senate".

Definition senate_accepts : action LegislativeProcess unit :=
  _require_stage [SENATE_DELIBERATION] "121(2)" ;;
  _transition SENATE_PASSED "Senate accepted without changes".

Definition senate_amends (vote : VoteRecord) : action LegislativeProcess unit :=
  _require_stage [SENATE_DELIBERATION] "121(2)" ;;
  assert (bool_decide (chamber vote = SENATE)) ;;
  call (Voting.passes_vote vote SIMPLE true) ;;
  _transition SENATE_AMENDED "Senate proposed amendments".

Definition senate_rejects (vote : VoteRecord) : action LegislativeProcess unit :=
  _require_stage [SENATE_DELIBERATION] "121(2)" ;;
  assert (bool_decide (chamber vote = SENATE)) ;;
  call (Voting.passes_vote vote SIMPLE true) ;;
  _transition SENATE_REJECTED "Senate rejected".

Definition sejm_override_senate (vote : VoteRecord)
  : action LegislativeProcess unit :=
  _require_stage [SENATE_AMENDED; SENATE_REJECTED] "121(3)" ;;
  assert (bool_decide (chamber vote = SEJM)) ;;
  try_except (call (Voting.passes_vote vote ABSOLUTE true))
    [QuorumError; MajorityError]
    (fun e => _transition REJECTED "Sejm failed to override Senate" ;; raise e) ;;
  _transition SEJM_OVERRIDE_VOTE "Sejm overrode Senate".

Definition send_to_president : action LegislativeProcess unit :=
  _require_stage [SENATE_PASSED; SEJM_OVERRIDE_VOTE] "122" ;;
  _transition PRESIDENT_REVIEW "Sent to President".

Definition president_signs : action LegislativeProcess unit :=
  _require_stage [PRESIDENT_REVIEW] "122(2)" ;;
  _transition SIGNED "President signed".

Definition president_vetoes : action LegislativeProcess unit :=
  _require_stage [PRESIDENT_REVIEW] "122(5)" ;;
  _transition VETOED "President vetoed".

Definition president_refers_to_tribunal : action LegislativeProcess unit :=
  _require_stage [PRESIDENT_REVIEW] "122(3)" ;;
  _transition REFERRED_TO_TRIBUNAL "Referred to Tribunal".

Definition tribunal_rules_constitutional : action LegislativeProcess unit :=
  _require_stage [REFERRED_TO_TRIBUNAL] "122(4)" ;;
  _transition PRESIDENT_REVIEW
    "Tribunal: constitutional — returns to President".

Definition tribunal_rules_unconstitutional : action LegislativeProcess unit :=
  _require_stage [REFERRED_TO_TRIBUNAL] "122(4)" ;;
  _transition REJECTED
    "Tribunal: unconstitutional — President refuses signature".

Definition tribunal_rules_partially_unconstitutional
  : action LegislativeProcess unit :=
  _require_stage [REFERRED_TO_TRIBUNAL] "122(4)" ;;
  _transition PARTIALLY_UNCONSTITUTIONAL
    "Tribunal: partially unconstitutional — President decides".

Definition president_signs_with_exclusions : action LegislativeProcess unit :=
  _require_stage [PARTIALLY_UNCONSTITUTIONAL] "122(4)" ;;
  _transition SIGNED
    "President signed with exclusion of unconstitutional provisions".

Definition president_returns_to_sejm : action LegislativeProcess unit :=
  _require_stage [PARTIALLY_UNCONSTITUTIONAL] "122(4)" ;;
  _transition SEJM_DELIBERATION
    "Returned to Sejm for removal of unconstitutionality".

Definition sejm_override_veto (vote : VoteRecord)
  : action LegislativeProcess unit :=
  _require_stage [VETOED] "122(5)" ;;
  assert (bool_decide (chamber vote = SEJM)) ;;
  try_except (call (Voting.passes_vote vote THREE_FIFTHS true))
    [QuorumError; MajorityError]
    (fun e => _transition REJECTED "Veto override failed" ;; raise e) ;;
  _transition VETO_OVERRIDDEN "Veto overridden by 3/5 Sejm".

Definition enact : action LegislativeProcess unit :=
  _require_stage [SIGNED; VETO_OVERRIDDEN] "122" ;;
  _transition ENACTED "Published in Dziennik Ustaw".

(** The transition methods of the class, as data: one constructor per
    method, [perform] dispatching to it. *)
Inductive method : Type :=
  | m_begin_sejm_deliberation
  | m_sejm_vote (vote : VoteRecord)
  | m_send_to_senate
  | m_senate_accepts
  | m_senate_amends (vote : VoteRecord)
  | m_senate_rejects (vote : VoteRecord)
  | m_sejm_override_senate (vote : VoteRecord)
  | m_send_to_president
  | m_president_signs
  | m_president_vetoes
  | m_president_refers_to_tribunal
  | m_tribunal_rules_constitutional
  | m_tribunal_rules_unconstitutional
  | m_tribunal_rules_partially_unconstitutional
  | m_president_signs_with_exclusions
  | m_president_returns_to_sejm
  | m_sejm_override_veto (vote : VoteRecord)
  | m_enact.

Definition perform (m : method) : action LegislativeProcess unit :=
  match m with
  | m_begin_sejm_deliberation => begin_sejm_deliberation
  | m_sejm_vote vote => sejm_vote vote
  | m_send_to_senate => send_to_senate
  | m_senate_accepts => senate_accepts
  | m_senate_amends vote => senate_amends vote
  | m_senate_rejects vote => senate_rejects vote
  | m_sejm_override_senate vote => sejm_override_senate vote
  | m_send_to_president => send_to_president
  | m_president_signs => president_signs
  | m_president_vetoes => president_vetoes
  | m_president_refers_to_tribunal => president_refers_to_tribunal
  | m_tribunal_rules_constitutional => tribunal_rules_constitutional
  | m_tribunal_rules_unconstitutional => tribunal_rules_unconstitutional
  | m_tribunal_rules_partially_unconstitutional =>
      tribunal_rules_partially_unconstitutional
  | m_president_signs_with_exclusions => president_signs_with_exclusions
  | m_president_returns_to_sejm => president_returns_to_sejm
  | m_sejm_override_veto vote => sejm_override_veto vote
  | m_enact => enact
  end.

(** The stages each method passes to [_require_stage]. *)
Definition source_stages (m : method) : list BillStage :=
  match m with
  | m_begin_sejm_deliberation => [INITIATED]
  | m_sejm_vote _ => [SEJM_DELIBERATION]
  | m_send_to_senate => [SEJM_PASSED]
  | m_senate_accepts | m_senate_amends _ | m_senate_rejects _ =>
      [SENATE_DELIBERATION]
  | m_sejm_override_senate _ => [SENATE_AMENDED; SENATE_REJECTED]
  | m_send_to_president => [SENATE_PASSED; SEJM_OVERRIDE_VOTE]
  | m_president_signs | m_president_vetoes | m_president_refers_to_tribunal =>
      [PRESIDENT_REVIEW]
  | m_tribunal_rules_constitutional | m_tribunal_rules_unconstitutional
  | m_tribunal_rules_partially_unconstitutional => [REFERRED_TO_TRIBUNAL]
  | m_president_signs_with_exclusions | m_president_returns_to_sejm =>
      [PARTIALLY_UNCONSTITUTIONAL]
  | m_sejm_override_veto _ => [VETOED]
  | m_enact => [SIGNED; VETO_OVERRIDDEN]
  end.

End Legislative.

(** ** [chapter_06_council_of_ministers.py], class [GovernmentFormation] *)

Module Formation.

(** Modelled from the spec: [GovernmentFormationStage] of [common/types.py],
    with the members the machine names. *)
Inductive GovernmentFormationStage : Type :=
  | PRESIDENT_DESIGNATES
  | CONFIDENCE_VOTE
  | SEJM_ELECTS
  | PRESIDENT_APPOINTS_RETRY
  | APPOINTED
  | FAILED.

#[global] Instance GovernmentFormationStage_eq_dec
  : EqDecision GovernmentFormationStage.
Proof. solve_decision. Defined.

Definition name (s : GovernmentFormationStage) : string :=
  match s with
  | PRESIDENT_DESIGNATES => "PRESIDENT_DESIGNATES"
  | CONFIDENCE_VOTE => "CONFIDENCE_VOTE"
  | SEJM_ELECTS => "SEJM_ELECTS"
  | PRESIDENT_APPOINTS_RETRY => "PRESIDENT_APPOINTS_RETRY"
  | APPOINTED => "APPOINTED"
  | FAILED => "FAILED"
  end.

(** The dataclass has the single attribute [stage]. *)
Record GovernmentFormation : Type := { stage : GovernmentFormationStage }.

(** [GovernmentFormation()] *)
Definition new : GovernmentFormation := {| stage := PRESIDENT_DESIGNATES |}.

Local Open Scope action_scope.

(** [self.stage = s] *)
Definition set_stage (s : GovernmentFormationStage)
  : action GovernmentFormation unit :=
  fun _ => (Return tt, {| stage := s |}).

Definition _require_stage (expected : list GovernmentFormationStage)
    (article : string) : action GovernmentFormation unit :=
  fun self =>
    if bool_decide (stage self ∉ expected) then
      let expected_names := join ", " (name <$> expected) in
      raise (Raised GovernmentFormationError
        ("Cannot proceed: formation is at " +:+ name (stage self) +:+ ", "
         +:+ "expected " +:+ expected_names +:+ ".")
        article) self
    else aret tt self.

Definition president_designates : action GovernmentFormation unit :=
  _require_stage [PRESIDENT_DESIGNATES] "154(1)" ;;
  set_stage CONFIDENCE_VOTE.

Definition sejm_confidence_first_attempt (vote : VoteRecord)
  : action GovernmentFormation unit :=
  _require_stage [CONFIDENCE_VOTE] "154(2)" ;;
  try_except_Exception
    (call (Voting.passes_vote vote ABSOLUTE true) ;; set_stage APPOINTED)
    (fun _ => set_stage SEJM_ELECTS).

Definition sejm_elects_pm (vote : VoteRecord)
  : action GovernmentFormation unit :=
  _require_stage [SEJM_ELECTS] "155(1)" ;;
  try_except_Exception
    (call (Voting.passes_vote vote ABSOLUTE true) ;; set_stage APPOINTED)
    (fun _ => set_stage PRESIDENT_APPOINTS_RETRY).

Definition president_appoints_third_attempt (vote : VoteRecord)
  : action GovernmentFormation unit :=
  _require_stage [PRESIDENT_APPOINTS_RETRY] "155(2)" ;;
  try_except_Exception
    (call (Voting.passes_vote vote SIMPLE true) ;; set_stage APPOINTED)
    (fun _ => set_stage FAILED).

Inductive method : Type :=
  | m_president_designates
  | m_sejm_confidence_first_attempt (vote : VoteRecord)
  | m_sejm_elects_pm (vote : VoteRecord)
  | m_president_appoints_third_attempt (vote : VoteRecord).

Definition perform (m : method) : action GovernmentFormation unit :=
  match m with
  | m_president_designates => president_designates
  | m_sejm_confidence_first_attempt vote => sejm_confidence_first_attempt vote
  | m_sejm_elects_pm vote => sejm_elects_pm vote
  | m_president_appoints_third_attempt vote =>
      president_appoints_third_attempt vote
  end.

(** The stages each method passes to [_require_stage]. *)
Definition source_stages (m : method) : list GovernmentFormationStage :=
  match m with
  | m_president_designates => [PRESIDENT_DESIGNATES]
  | m_sejm_confidence_first_attempt _ => [CONFIDENCE_VOTE]
  | m_sejm_elects_pm _ => [SEJM_ELECTS]
  | m_president_appoints_third_attempt _ => [PRESIDENT_APPOINTS_RETRY]
  end.

End Formation.

(** ** [chapter_12_amendments.py] *)

Module Amendment.

(** Modelled from the spec: [AmendmentStage] of [common/types.py], with the
    members the machine names. *)
Inductive AmendmentStage : Type :=
  | INITIATED
  | FIRST_READING_SEJM
  | SEJM_PASSED
  | SENATE_PASSED
  | REFERENDUM_REQUESTED
  | REFERENDUM_PASSED
  | PRESIDENT_SIGNS
  | ADOPTED
  | REJECTED.

#[global] Instance AmendmentStage_eq_dec : EqDecision AmendmentStage.
Proof. solve_decision. Defined.

Definition name (s : AmendmentStage) : string :=
  match s with
  | INITIATED => "INITIATED"
  | FIRST_READING_SEJM => "FIRST_READING_SEJM"
  | SEJM_PASSED => "SEJM_PASSED"
  | SENATE_PASSED => "SENATE_PASSED"
  | REFERENDUM_REQUESTED => "REFERENDUM_REQUESTED"
  | REFERENDUM_PASSED => "REFERENDUM_PASSED"
  | PRESIDENT_SIGNS => "PRESIDENT_SIGNS"
  | ADOPTED => "ADOPTED"
  | REJECTED => "REJECTED"
  end.

Definition INITIATORS : list string :=
  ["1/5 Sejm deputies"; "Senate"; "President"].

Definition REFERENDUM_CHAPTERS : gset Z := {[ 1; 2; 12 ]}.

Record AmendmentProcess : Type := {
  title : string;
  initiator : string;
  affected_chapters : gset Z;
  stage : AmendmentStage;
  referendum_requested : bool
}.

(** [str(t)] for a tuple of plain strings (no quotes or escapes inside). *)
Definition str_tuple (t : list string) : string :=
  "(" +:+ join ", " ((fun x => "'" +:+ x +:+ "'") <$> t) +:+ ")".

(** [AmendmentProcess(title=t, initiator=i, affected_chapters=c)]: the
    defaults of the dataclass, then [__post_init__]. *)
Definition new (t i : string) (c : gset Z) : result AmendmentProcess :=
  let self := {| title := t; initiator := i; affected_chapters := c;
                 stage := INITIATED; referendum_requested := false |} in
  if bool_decide (i ∉ INITIATORS) then
    Raise (Raised AmendmentError
      ("Invalid initiator '" +:+ i +:+ "': "
       +:+ "must be one of " +:+ str_tuple INITIATORS)
      "235(1)")
  else Return self.

Definition touches_protected_chapters (self : AmendmentProcess) : bool :=
  bool_decide (affected_chapters self ∩ REFERENDUM_CHAPTERS ≠ ∅).

Local Open Scope action_scope.

(** [self.stage = s] *)
Definition set_stage (s : AmendmentStage) : action AmendmentProcess unit :=
  fun self =>
    (Return tt,
     {| title := title self; initiator := initiator self;
        affected_chapters := affected_chapters self;
        stage := s; referendum_requested := referendum_requested self |}).

(** [self.referendum_requested = b] *)
Definition set_referendum_requested (b : bool)
  : action AmendmentProcess unit :=
  fun self =>
    (Return tt,
     {| title := title self; initiator := initiator self;
        affected_chapters := affected_chapters self;
        stage := stage self; referendum_requested := b |}).

Definition first_reading : action AmendmentProcess unit :=
  fun self =>
    if bool_decide (stage self ≠ INITIATED) then
      raise (Raised AmendmentError
        ("Cannot start first reading from stage " +:+ name (stage self))
        "235(3)") self
    else set_stage FIRST_READING_SEJM self.

Definition sejm_vote (vote : VoteRecord) : action AmendmentProcess unit :=
  fun self =>
    if bool_decide (stage self ≠ FIRST_READING_SEJM) then
      raise (Raised AmendmentError
        ("Cannot hold Sejm vote from stage " +:+ name (stage self))
        "235(4)") self
    else
      (assert (bool_decide (chamber vote = SEJM)) ;;
       try_except (call (Voting.passes_vote vote TWO_THIRDS true))
         [QuorumError; MajorityError]
         (fun e => set_stage REJECTED ;; raise e) ;;
       set_stage SEJM_PASSED) self.

Definition senate_vote (vote : VoteRecord) : action AmendmentProcess unit :=
  fun self =>
    if bool_decide (stage self ≠ SEJM_PASSED) then
      raise (Raised AmendmentError
        ("Cannot hold Senate vote from stage " +:+ name (stage self))
        "235(4)") self
    else
      (assert (bool_decide (chamber vote = SENATE)) ;;
       try_except (call (Voting.passes_vote vote ABSOLUTE true))
         [QuorumError; MajorityError]
         (fun e => set_stage REJECTED ;; raise e) ;;
       set_stage SENATE_PASSED) self.

Definition request_referendum : action AmendmentProcess unit :=
  fun self =>
    if bool_decide (stage self ≠ SENATE_PASSED) then
      raise (Raised AmendmentError
        ("Cannot request referendum from stage " +:+ name (stage self))
        "235(6)") self
    else if negb (touches_protected_chapters self) then
      raise (Raised AmendmentError
        "Referendum only available for amendments to Chapters I, II, or XII"
        "235(6)") self
    else
      (set_referendum_requested true ;;
       set_stage REFERENDUM_REQUESTED) self.

Definition referendum_result (approved : bool)
  : action AmendmentProcess unit :=
  fun self =>
    if bool_decide (stage self ≠ REFERENDUM_REQUESTED) then
      raise (Raised AmendmentError
        ("Cannot record referendum result from stage " +:+ name (stage self))
        "235(6)") self
    else if approved then set_stage REFERENDUM_PASSED self
    else set_stage REJECTED self.

Definition president_sign : action AmendmentProcess unit :=
  fun self =>
    let allowed_stages := [SENATE_PASSED; REFERENDUM_PASSED] in
    if bool_decide (stage self ∉ allowed_stages) then
      raise (Raised AmendmentError
        ("Cannot sign from stage " +:+ name (stage self))
        "235(7)") self
    else set_stage PRESIDENT_SIGNS self.

Definition complete : action AmendmentProcess unit :=
  fun self =>
    if bool_decide (stage self ≠ PRESIDENT_SIGNS) then
      raise (Raised AmendmentError
        ("Cannot complete from stage " +:+ name (stage self))
        "235") self
    else set_stage ADOPTED self.

Inductive method : Type :=
  | m_first_reading
  | m_sejm_vote (vote : VoteRecord)
  | m_senate_vote (vote : VoteRecord)
  | m_request_referendum
  | m_referendum_result (approved : bool)
  | m_president_sign
  | m_complete.

Definition perform (m : method) : action AmendmentProcess unit :=
  match m with
  | m_first_reading => first_reading
  | m_sejm_vote vote => sejm_vote vote
  | m_senate_vote vote => senate_vote vote
  | m_request_referendum => request_referendum
  | m_referendum_result approved => referendum_result approved
  | m_president_sign => president_sign
  | m_complete => complete
  end.

(** The stages each method's first guard lets through. *)
Definition source_stages (m : method) : list AmendmentStage :=
  match m with
  | m_first_reading => [INITIATED]
  | m_sejm_vote _ => [FIRST_READING_SEJM]
  | m_senate_vote _ => [SEJM_PASSED]
  | m_request_referendum => [SENATE_PASSED]
  | m_referendum_result _ => [REFERENDUM_REQUESTED]
  | m_president_sign => [SENATE_PASSED; REFERENDUM_PASSED]
  | m_complete => [PRESIDENT_SIGNS]
  end.

End Amendment.

(** ** The properties, in the words of the specification *)

(** The quorum rule: at least half the statutory members are present. *)
Definition quorum_inequality (vote : VoteRecord) : Prop :=
  total_present vote * 2 >= members vote.

(** The kind-specific integer inequality of each majority kind. *)
Definition majority_inequality (vote : VoteRecord) (kind : MajorityType)
  : Prop :=
  match kind with
  | SIMPLE => votes_for vote > votes_against vote
  | ABSOLUTE => votes_for vote * 2 > members vote
  | TWO_THIRDS => votes_for vote * 3 >= total_present vote * 2
  | THREE_FIFTHS => votes_for vote * 5 >= total_present vote * 3
  end.

(** A vote that passes a full check: quorum, then the majority of [kind]. *)
Definition passing (vote : VoteRecord) (kind : MajorityType) : Prop :=
  quorum_inequality vote /\ majority_inequality vote kind.

(** The exception is a vote-arithmetic failure. *)
Definition vote_failure (e : exn) : Prop :=
  exists msg article,
    e = Raised QuorumError msg article \/ e = Raised MajorityError msg article.

(** A vote-bearing method [m] of the legislative machine, called in one of
    its source stages with a tally of the right chamber: a failed check
    moves the bill to REJECTED and the caller sees the error of the check. *)
Definition failed_vote_rejects (sources : list Legislative.BillStage)
    (house : Chamber) (kind : MajorityType)
    (m : VoteRecord -> action Legislative.LegislativeProcess unit) : Prop :=
  forall self vote e,
    Legislative.stage self ∈ sources ->
    chamber vote = house ->
    Voting.passes_vote vote kind true = Raise e ->
    fst (m vote self) = Raise e
    /\ Legislative.stage (snd (m vote self)) = Legislative.REJECTED.

(** The same call, when the method does not catch the error: the caller sees
    the error of the check and the machine is as it was. *)
Definition failed_vote_propagates (sources : list Legislative.BillStage)
    (house : Chamber) (kind : MajorityType)
    (m : VoteRecord -> action Legislative.LegislativeProcess unit) : Prop :=
  forall self vote e,
    Legislative.stage self ∈ sources ->
    chamber vote = house ->
    Voting.passes_vote vote kind true = Raise e ->
    m vote self = (Raise e, self).

(** Calling [m] outside its source stages raises an error of class [cls]
    whose message names the actual stage, and changes nothing. *)
Definition illegal_call_raises {St Stage : Type} (stage_of : St -> Stage)
    (name_of : Stage -> string) (cls : ErrorClass) (sources : list Stage)
    (m : action St unit) : Prop :=
  forall self,
    stage_of self ∉ sources ->
    exists msg article,
      m self = (Raise (Raised cls msg article), self)
      /\ contains (name_of (stage_of self)) msg = true.

(** The error raised by [m] outside its source stages names every one of
    them. *)
Definition illegal_call_names_expected {St Stage : Type} (stage_of : St -> Stage)
    (name_of : Stage -> string) (sources : list Stage) (m : action St unit)
  : Prop :=
  forall self cls msg article,
    stage_of self ∉ sources ->
    fst (m self) = Raise (Raised cls msg article) ->
    forall s, s ∈ sources -> contains (name_of s) msg = true.

(** A caller driving a machine: the calls are made one after the other,
    whatever each of them returns or raises. *)
Definition drive {St Call : Type} (perform : Call -> action St unit)
    (calls : list Call) (self : St) : St :=
  foldl (fun s c => snd (perform c s)) self calls.

(** A call that took the machine from [self] to a different stage. *)
Definition moved {St Call Stage : Type} (perform : Call -> action St unit)
    (stage_of : St -> Stage) (self self' : St) : Prop :=
  exists c, snd (perform c self) = self' /\ stage_of self' <> stage_of self.

(** [log] reads an append-only history off the machine: every call that
    changes the stage adds exactly one entry at the end. *)
Definition append_only_log {St Call Stage : Type}
    (perform : Call -> action St unit) (stage_of : St -> Stage)
    (log : St -> list string) : Prop :=
  forall self self',
    moved perform stage_of self self' ->
    exists entry, log self' = (log self ++ [entry])%list.

(** What one call may do to the legislative machine besides nothing: one
    move to another stage, with its one entry "FROM -> TO: note" at the end
    of the history. *)
Definition logged_move (self self' : Legislative.LegislativeProcess) : Prop :=
  Legislative.stage self' ≠ Legislative.stage self
  /\ Legislative.bill self' = Legislative.bill self
  /\ exists note,
       Legislative.history self'
       = Legislative.history self ++
           [Legislative.name (Legislative.stage self) +:+ " -> "
            +:+ Legislative.name (Legislative.stage self') +:+ ": " +:+ note].

(** ** Tallies and processes used as examples *)

Definition sejm_pass_vote : VoteRecord := vote_record SEJM 250 180 0.
Definition sejm_fail_vote : VoteRecord := vote_record SEJM 150 200 80.
Definition sejm_no_quorum : VoteRecord := vote_record SEJM 100 50 5.
Definition senate_fail_vote : VoteRecord := vote_record SENATE 40 55 5.
Definition sejm_two_thirds : VoteRecord := vote_record SEJM 310 80 10.
Definition senate_absolute_majority : VoteRecord := vote_record SENATE 51 30 10.
Definition sejm_200_for : VoteRecord := vote_record SEJM 200 230 0.

Definition sample_bill : Legislative.Bill :=
  {| Legislative.title := "Ustawa o podatkach";
     Legislative.sponsor := "Council of Ministers" |}.

(** The sample bill, under deliberation in the Sejm. *)
Definition bill_in_sejm : Legislative.LegislativeProcess :=
  snd (Legislative.begin_sejm_deliberation (Legislative.new sample_bill)).

(** The sample bill, passed by the Sejm and sent to the Senate. *)
Definition bill_in_senate : Legislative.LegislativeProcess :=
  snd (run [Legislative.begin_sejm_deliberation;
            Legislative.sejm_vote sejm_pass_vote;
            Legislative.send_to_senate]
           (Legislative.new sample_bill)).

(** ** [chapter_06_council_of_ministers.py]: the validators of votes *)

Module Council.

(** Modelled from the spec: [NoConfidenceError] of [common/errors.py], raised
    like the other domain errors as [NoConfidenceError(message, article=...)].
    The validators raise it besides the exceptions of the voting engine. *)
Inductive council_exn : Type :=
  | Engine (e : exn)
  | NoConfidenceError (message article : string).

Inductive council_result (A : Type) : Type :=
  | Returned (a : A)
  | Thrown (e : council_exn).
Arguments Returned {A} a.
Arguments Thrown {A} e.

Definition MIN_DEPUTIES_FOR_MINISTER_NO_CONFIDENCE : Z := 69.

Section Validators.

(** [str(e)] of a caught exception, as the f-strings of the validators
    interpolate it; [common/errors.py] decides it, so it is left open. *)
Variable str_exn : exn -> string.

Definition validate_confidence_vote (vote : VoteRecord) : result bool :=
  match Voting.passes_vote vote ABSOLUTE true with
  | Return b => Return b
  | Raise e =>
      Raise (Raised GovernmentFormationError
               ("Confidence vote failed: " +:+ str_exn e) "154")
  end.

(** [s.strip()]: Python strips the white space of Unicode; which characters
    those are plays no part below, so the function is left open. *)
Variable strip : string -> string.

(** [not s] for a string: it is empty. *)
Definition is_empty (s : string) : bool :=
  match s with
  | EmptyString => true
  | String _ _ => false
  end.

Definition validate_constructive_no_confidence (vote : VoteRecord)
    (successor : string) : council_result bool :=
  if is_empty successor || is_empty (strip successor) then
    Thrown (NoConfidenceError
      ("A constructive no-confidence motion must name a successor "
       +:+ "candidate for Prime Minister (Art. 158 requires the motion "
       +:+ "to identify the candidate by name).")
      "158")
  else
    match Voting.passes_vote vote ABSOLUTE true with
    | Return b => Returned b
    | Raise e =>
        Thrown (NoConfidenceError
          ("Constructive no-confidence vote failed: " +:+ str_exn e) "158")
    end.

Definition validate_confidence_request (vote : VoteRecord)
  : council_result bool :=
  match Voting.passes_vote vote SIMPLE true with
  | Return b => Returned b
  | Raise e =>
      Thrown (NoConfidenceError
                ("Confidence request failed: " +:+ str_exn e) "160")
  end.

Definition validate_minister_liability (vote : VoteRecord)
  : council_result bool :=
  match Voting.check_quorum vote with
  | Raise e => Thrown (Engine e)
  | Return _ =>
      let required := members vote * 3 in
      let actual := votes_for vote * 5 in
      if actual <? required then
        Thrown (NoConfidenceError
          ("State Tribunal referral requires 3/5 of statutory members "
           +:+ "(" +:+ str_int (members vote) +:+ "): need "
           +:+ str_int ((members vote * 3 + 4) / 5) +:+ " votes, "
           +:+ "got " +:+ str_int (votes_for vote) +:+ ".")
          "156")
      else Returned true
  end.

Definition validate_individual_minister_no_confidence (vote : VoteRecord)
    (signatories : Z) : council_result bool :=
  if signatories <? MIN_DEPUTIES_FOR_MINISTER_NO_CONFIDENCE then
    Thrown (NoConfidenceError
      ("A motion of no confidence in a minister requires at least "
       +:+ str_int MIN_DEPUTIES_FOR_MINISTER_NO_CONFIDENCE
       +:+ " Deputies' signatures, "
       +:+ "got " +:+ str_int signatories +:+ ".")
      "159")
  else
    match Voting.passes_vote vote SIMPLE true with
    | Return b => Returned b
    | Raise e =>
        Thrown (NoConfidenceError
          ("Individual minister no-confidence vote failed: " +:+ str_exn e)
          "159")
    end.

End Validators.

End Council.

(** The tally [vote] with [k] more votes in favour. *)
Definition with_more_votes_for (k : Z) (vote : VoteRecord) : VoteRecord :=
  {| chamber := chamber vote; votes_for := votes_for vote + k;
     votes_against := votes_against vote; votes_abstain := votes_abstain vote;
     members := members vote |}.

(** The tally of a sitting in which nobody voted. *)
Definition empty_tally (c : Chamber) (m : Z) : VoteRecord :=
  {| chamber := c; votes_for := 0; votes_against := 0; votes_abstain := 0;
     members := m |}.

(** [str(e)] when an exception prints as its message: used for examples. *)
Definition message_of (e : exn) : string :=
  match e with
  | Raised _ message _ => message
  | AssertionError => ""
  end.

(** ** The moves of the legislative machine

    [legislative_step m from to]: the call [m], made at stage [from], takes
    the bill to stage [to].  One rule per assignment to [self.stage] in
    [legislative_process.py], with the guard, the assertion and the outcome
    of the vote under which it is reached. *)
Inductive legislative_step
  : Legislative.method -> Legislative.BillStage -> Legislative.BillStage -> Prop :=
  | step_begin_sejm_deliberation :
      legislative_step Legislative.m_begin_sejm_deliberation
        Legislative.INITIATED Legislative.SEJM_DELIBERATION
  | step_sejm_vote_passed vote :
      chamber vote = SEJM -> passing vote SIMPLE ->
      legislative_step (Legislative.m_sejm_vote vote)
        Legislative.SEJM_DELIBERATION Legislative.SEJM_PASSED
  | step_sejm_vote_failed vote :
      chamber vote = SEJM -> ~ passing vote SIMPLE ->
      legislative_step (Legislative.m_sejm_vote vote)
        Legislative.SEJM_DELIBERATION Legislative.REJECTED
  | step_send_to_senate :
      legislative_step Legislative.m_send_to_senate
        Legislative.SEJM_PASSED Legislative.SENATE_DELIBERATION
  | step_senate_accepts :
      legislative_step Legislative.m_senate_accepts
        Legislative.SENATE_DELIBERATION Legislative.SENATE_PASSED
  | step_senate_amends vote :
      chamber vote = SENATE -> passing vote SIMPLE ->
      legislative_step (Legislative.m_senate_amends vote)
        Legislative.SENATE_DELIBERATION Legislative.SENATE_AMENDED
  | step_senate_rejects vote :
      chamber vote = SENATE -> passing vote SIMPLE ->
      legislative_step (Legislative.m_senate_rejects vote)
        Legislative.SENATE_DELIBERATION Legislative.SENATE_REJECTED
  | step_sejm_override_senate_passed vote from :
      from = Legislative.SENATE_AMENDED \/ from = Legislative.SENATE_REJECTED ->
      chamber vote = SEJM -> passing vote ABSOLUTE ->
      legislative_step (Legislative.m_sejm_override_senate vote)
        from Legislative.SEJM_OVERRIDE_VOTE
  | step_sejm_override_senate_failed vote from :
      from = Legislative.SENATE_AMENDED \/ from = Legislative.SENATE_REJECTED ->
      chamber vote = SEJM -> ~ passing vote ABSOLUTE ->
      legislative_step (Legislative.m_sejm_override_senate vote)
        from Legislative.REJECTED
  | step_send_to_president from :
      from = Legislative.SENATE_PASSED \/ from = Legislative.SEJM_OVERRIDE_VOTE ->
      legislative_step Legislative.m_send_to_president
        from Legislative.PRESIDENT_REVIEW
  | step_president_signs :
      legislative_step Legislative.m_president_signs
        Legislative.PRESIDENT_REVIEW Legislative.SIGNED
  | step_president_vetoes :
      legislative_step Legislative.m_president_vetoes
        Legislative.PRESIDENT_REVIEW Legislative.VETOED
  | step_president_refers_to_tribunal :
      legislative_step Legislative.m_president_refers_to_tribunal
        Legislative.PRESIDENT_REVIEW Legislative.REFERRED_TO_TRIBUNAL
  | step_tribunal_rules_constitutional :
      legislative_step Legislative.m_tribunal_rules_constitutional
        Legislative.REFERRED_TO_TRIBUNAL Legislative.PRESIDENT_REVIEW
  | step_tribunal_rules_unconstitutional :
      legislative_step Legislative.m_tribunal_rules_unconstitutional
        Legislative.REFERRED_TO_TRIBUNAL Legislative.REJECTED
  | step_tribunal_rules_partially_unconstitutional :
      legislative_step Legislative.m_tribunal_rules_partially_unconstitutional
        Legislative.REFERRED_TO_TRIBUNAL Legislative.PARTIALLY_UNCONSTITUTIONAL
  | step_president_signs_with_exclusions :
      legislative_step Legislative.m_president_signs_with_exclusions
        Legislative.PARTIALLY_UNCONSTITUTIONAL Legislative.SIGNED
  | step_president_returns_to_sejm :
      legislative_step Legislative.m_president_returns_to_sejm
        Legislative.PARTIALLY_UNCONSTITUTIONAL Legislative.SEJM_DELIBERATION
  | step_sejm_override_veto_passed vote :
      chamber vote = SEJM -> passing vote THREE_FIFTHS ->
      legislative_step (Legislative.m_sejm_override_veto vote)
        Legislative.VETOED Legislative.VETO_OVERRIDDEN
  | step_sejm_override_veto_failed vote :
      chamber vote = SEJM -> ~ passing vote THREE_FIFTHS ->
      legislative_step (Legislative.m_sejm_override_veto vote)
        Legislative.VETOED Legislative.REJECTED
  | step_enact from :
      from = Legislative.SIGNED \/ from = Legislative.VETO_OVERRIDDEN ->
      legislative_step Legislative.m_enact from Legislative.ENACTED.

(** The history entries of a walk that starts at [from] and visits the stages
    of [steps] in turn, each with its note. *)
Fixpoint render (from : Legislative.BillStage)
    (steps : list (Legislative.BillStage * string)) : list string :=
  match steps with
  | [] => []
  | (to, note) :: rest =>
      (Legislative.name from +:+ " -> " +:+ Legislative.name to +:+ ": "
       +:+ note) :: render to rest
  end.

(** Where that walk ends. *)
Fixpoint arrival (from : Legislative.BillStage)
    (steps : list (Legislative.BillStage * string)) : Legislative.BillStage :=
  match steps with
  | [] => from
  | (to, _) :: rest => arrival to rest
  end.

(** The walk only makes moves of the machine. *)
Fixpoint walk (from : Legislative.BillStage)
    (steps : list (Legislative.BillStage * string)) : Prop :=
  match steps with
  | [] => True
  | (to, _) :: rest => (exists m, legislative_step m from to) /\ walk to rest
  end.

(** The stages a bill can only be at after the Sejm has passed it. *)
Definition passed_by_sejm (s : Legislative.BillStage) : Prop :=
  match s with
  | Legislative.INITIATED | Legislative.SEJM_DELIBERATION
  | Legislative.REJECTED => False
  | _ => True
  end.

(** The stages a bill can only be at after the Senate has dealt with it. *)
Definition past_senate (s : Legislative.BillStage) : Prop :=
  match s with
  | Legislative.INITIATED | Legislative.SEJM_DELIBERATION
  | Legislative.SEJM_PASSED | Legislative.SENATE_DELIBERATION
  | Legislative.REJECTED => False
  | _ => True
  end.

(** The stages from which a bill becomes law. *)
Definition ready_to_enact (s : Legislative.BillStage) : Prop :=
  match s with
  | Legislative.SIGNED | Legislative.VETO_OVERRIDDEN
  | Legislative.ENACTED => True
  | _ => False
  end.

(** ** The moves of the amendment machine

    [amendment_step chapters m from to]: the call [m], made at stage [from]
    on an amendment that affects [chapters], takes it to stage [to].  One
    rule per assignment to [self.stage] in [chapter_12_amendments.py]. *)
Inductive amendment_step (chapters : gset Z)
  : Amendment.method -> Amendment.AmendmentStage -> Amendment.AmendmentStage
    -> Prop :=
  | step_first_reading :
      amendment_step chapters Amendment.m_first_reading
        Amendment.INITIATED Amendment.FIRST_READING_SEJM
  | step_amendment_sejm_passed vote :
      chamber vote = SEJM -> passing vote TWO_THIRDS ->
      amendment_step chapters (Amendment.m_sejm_vote vote)
        Amendment.FIRST_READING_SEJM Amendment.SEJM_PASSED
  | step_amendment_sejm_failed vote :
      chamber vote = SEJM -> ~ passing vote TWO_THIRDS ->
      amendment_step chapters (Amendment.m_sejm_vote vote)
        Amendment.FIRST_READING_SEJM Amendment.REJECTED
  | step_amendment_senate_passed vote :
      chamber vote = SENATE -> passing vote ABSOLUTE ->
      amendment_step chapters (Amendment.m_senate_vote vote)
        Amendment.SEJM_PASSED Amendment.SENATE_PASSED
  | step_amendment_senate_failed vote :
      chamber vote = SENATE -> ~ passing vote ABSOLUTE ->
      amendment_step chapters (Amendment.m_senate_vote vote)
        Amendment.SEJM_PASSED Amendment.REJECTED
  | step_request_referendum :
      chapters ∩ Amendment.REFERENDUM_CHAPTERS ≠ ∅ ->
      amendment_step chapters Amendment.m_request_referendum
        Amendment.SENATE_PASSED Amendment.REFERENDUM_REQUESTED
  | step_referendum_approved :
      amendment_step chapters (Amendment.m_referendum_result true)
        Amendment.REFERENDUM_REQUESTED Amendment.REFERENDUM_PASSED
  | step_referendum_refused :
      amendment_step chapters (Amendment.m_referendum_result false)
        Amendment.REFERENDUM_REQUESTED Amendment.REJECTED
  | step_president_sign from :
      from = Amendment.SENATE_PASSED \/ from = Amendment.REFERENDUM_PASSED ->
      amendment_step chapters Amendment.m_president_sign
        from Amendment.PRESIDENT_SIGNS
  | step_complete :
      amendment_step chapters Amendment.m_complete
        Amendment.PRESIDENT_SIGNS Amendment.ADOPTED.

(** The amendment [self] after the move made by [m] to stage [to]: the stage
    is assigned, [request_referendum] also sets its flag, the rest stays. *)
Definition amended (self : Amendment.AmendmentProcess) (m : Amendment.method)
    (to : Amendment.AmendmentStage) : Amendment.AmendmentProcess :=
  {| Amendment.title := Amendment.title self;
     Amendment.initiator := Amendment.initiator self;
     Amendment.affected_chapters := Amendment.affected_chapters self;
     Amendment.stage := to;
     Amendment.referendum_requested :=
       match m with
       | Amendment.m_request_referendum => true
       | _ => Amendment.referendum_requested self
       end |}.

(** How far an amendment has come: the stages in the order of the
    procedure, the rejection last. *)
Definition amendment_rank (s : Amendment.AmendmentStage) : nat :=
  match s with
  | Amendment.INITIATED => 0
  | Amendment.FIRST_READING_SEJM => 1
  | Amendment.SEJM_PASSED => 2
  | Amendment.SENATE_PASSED => 3
  | Amendment.REFERENDUM_REQUESTED => 4
  | Amendment.REFERENDUM_PASSED => 5
  | Amendment.PRESIDENT_SIGNS => 6
  | Amendment.ADOPTED => 7
  | Amendment.REJECTED => 8
  end.

(** The stages an amendment can only be at after the Sejm has passed it. *)
Definition amendment_passed_by_sejm (s : Amendment.AmendmentStage) : Prop :=
  match s with
  | Amendment.INITIATED | Amendment.FIRST_READING_SEJM
  | Amendment.REJECTED => False
  | _ => True
  end.

(** The stages an amendment can only be at after the Senate has passed it. *)
Definition amendment_passed_by_senate (s : Amendment.AmendmentStage) : Prop :=
  match s with
  | Amendment.INITIATED | Amendment.FIRST_READING_SEJM
  | Amendment.SEJM_PASSED | Amendment.REJECTED => False
  | _ => True
  end.

(** The stages at which a referendum is pending or has been won. *)
Definition in_referendum (s : Amendment.AmendmentStage) : Prop :=
  s = Amendment.REFERENDUM_REQUESTED \/ s = Amendment.REFERENDUM_PASSED.

(** The stages before any referendum can have been requested. *)
Definition before_referendum (s : Amendment.AmendmentStage) : Prop :=
  match s with
  | Amendment.INITIATED | Amendment.FIRST_READING_SEJM
  | Amendment.SEJM_PASSED | Amendment.SENATE_PASSED => True
  | _ => False
  end.

(** ** The moves of the formation machine

    [formation_step m from to]: the call [m], made at stage [from], takes the
    formation to stage [to].  One rule per assignment to [self.stage] in the
    class [GovernmentFormation]; no rule looks at the chamber of the tally,
    as no method does. *)
Inductive formation_step
  : Formation.method -> Formation.GovernmentFormationStage
    -> Formation.GovernmentFormationStage -> Prop :=
  | step_president_designates :
      formation_step Formation.m_president_designates
        Formation.PRESIDENT_DESIGNATES Formation.CONFIDENCE_VOTE
  | step_first_attempt_passed vote :
      passing vote ABSOLUTE ->
      formation_step (Formation.m_sejm_confidence_first_attempt vote)
        Formation.CONFIDENCE_VOTE Formation.APPOINTED
  | step_first_attempt_failed vote :
      ~ passing vote ABSOLUTE ->
      formation_step (Formation.m_sejm_confidence_first_attempt vote)
        Formation.CONFIDENCE_VOTE Formation.SEJM_ELECTS
  | step_sejm_elects_passed vote :
      passing vote ABSOLUTE ->
      formation_step (Formation.m_sejm_elects_pm vote)
        Formation.SEJM_ELECTS Formation.APPOINTED
  | step_sejm_elects_failed vote :
      ~ passing vote ABSOLUTE ->
      formation_step (Formation.m_sejm_elects_pm vote)
        Formation.SEJM_ELECTS Formation.PRESIDENT_APPOINTS_RETRY
  | step_third_attempt_passed vote :
      passing vote SIMPLE ->
      formation_step (Formation.m_president_appoints_third_attempt vote)
        Formation.PRESIDENT_APPOINTS_RETRY Formation.APPOINTED
  | step_third_attempt_failed vote :
      ~ passing vote SIMPLE ->
      formation_step (Formation.m_president_appoints_third_attempt vote)
        Formation.PRESIDENT_APPOINTS_RETRY Formation.FAILED.

(** How far a formation has come: the attempts in order, then the two
    outcomes. *)
Definition formation_rank (s : Formation.GovernmentFormationStage) : nat :=
  match s with
  | Formation.PRESIDENT_DESIGNATES => 0
  | Formation.CONFIDENCE_VOTE => 1
  | Formation.SEJM_ELECTS => 2
  | Formation.PRESIDENT_APPOINTS_RETRY => 3
  | Formation.APPOINTED => 4
  | Formation.FAILED => 5
  end.

(** * Proofs *)

(** ** Arithmetic of the voting engine *)

Ltac zcompare :=
  repeat match goal with
  | |- context [?a <? ?b] => destruct (Z.ltb_spec a b)
  | |- context [?a >? ?b] => rewrite (Z.gtb_ltb a b)
  | |- context [?a >=? ?b] => rewrite (Z.geb_leb a b)
  | |- context [?a <=? ?b] => destruct (Z.leb_spec a b)
  end.

Lemma check_quorum_passes vote :
  quorum_inequality vote -> Voting.check_quorum vote = Return tt.
Proof.
  unfold quorum_inequality, Voting.check_quorum. intros H.
  zcompare; [lia | reflexivity].
Qed.

Lemma check_quorum_raises vote :
  ~ quorum_inequality vote ->
  exists msg article,
    Voting.check_quorum vote = Raise (Raised QuorumError msg article).
Proof.
  unfold quorum_inequality, Voting.check_quorum. intros H.
  zcompare; [eauto | lia].
Qed.

Lemma check_majority_passes vote kind :
  majority_inequality vote kind -> Voting.check_majority vote kind = Return true.
Proof.
  unfold Voting.check_majority.
  destruct kind; simpl; intros H; zcompare; simpl; (reflexivity || lia).
Qed.

Lemma check_majority_raises vote kind :
  ~ majority_inequality vote kind ->
  exists msg article,
    Voting.check_majority vote kind = Raise (Raised MajorityError msg article).
Proof.
  unfold Voting.check_majority.
  destruct kind; simpl; intros H; zcompare; simpl; (eauto || lia).
Qed.

Lemma quorum_inequality_dec vote :
  quorum_inequality vote \/ ~ quorum_inequality vote.
Proof. unfold quorum_inequality. lia. Qed.

Lemma majority_inequality_dec vote kind :
  majority_inequality vote kind \/ ~ majority_inequality vote kind.
Proof. destruct kind; simpl; lia. Qed.

Lemma passing_dec vote kind : passing vote kind \/ ~ passing vote kind.
Proof.
  unfold passing.
  destruct (quorum_inequality_dec vote), (majority_inequality_dec vote kind);
    tauto.
Qed.

Lemma passes_vote_passing vote kind :
  passing vote kind -> Voting.passes_vote vote kind true = Return true.
Proof.
  intros [Hq Hm]. unfold Voting.passes_vote.
  rewrite (check_quorum_passes _ Hq). simpl. now apply check_majority_passes.
Qed.

Lemma passes_vote_failing vote kind :
  ~ passing vote kind ->
  exists e, Voting.passes_vote vote kind true = Raise e /\ vote_failure e
            /\ is_instance e [QuorumError; MajorityError] = true.
Proof.
  intros Hn. unfold Voting.passes_vote.
  destruct (quorum_inequality_dec vote) as [Hq | Hq].
  - rewrite (check_quorum_passes _ Hq). simpl.
    destruct (check_majority_raises vote kind) as (msg & art & ->).
    + unfold passing in Hn. tauto.
    + eexists. split; [reflexivity |]. split; [| reflexivity].
      exists msg, art. now right.
  - destruct (check_quorum_raises _ Hq) as (msg & art & ->). simpl.
    eexists. split; [reflexivity |]. split; [| reflexivity].
    exists msg, art. now left.
Qed.

(** C1. [check_majority] succeeds exactly when the inequality of the
    requested kind holds -- SIMPLE: for > against (abstentions play no part),
    ABSOLUTE: for * 2 > members, TWO_THIRDS: for * 3 >= present * 2,
    THREE_FIFTHS: for * 5 >= present * 3 -- and raises [MajorityError]
    otherwise; 100 for, 99 against, 231 abstaining passes SIMPLE. *)
Theorem check_majority_iff_inequality (vote : VoteRecord) (kind : MajorityType) :
  (Voting.check_majority vote kind = Return true
     <-> majority_inequality vote kind)
  /\ ((exists msg article,
         Voting.check_majority vote kind = Raise (Raised MajorityError msg article))
     <-> ~ majority_inequality vote kind)
  /\ (majority_inequality vote SIMPLE <-> votes_for vote > votes_against vote)
  /\ (majority_inequality vote ABSOLUTE <-> votes_for vote * 2 > members vote)
  /\ (majority_inequality vote TWO_THIRDS
        <-> votes_for vote * 3 >= total_present vote * 2)
  /\ (majority_inequality vote THREE_FIFTHS
        <-> votes_for vote * 5 >= total_present vote * 3)
  /\ Voting.check_majority (vote_record SEJM 100 99 231) SIMPLE = Return true.
Proof.
  repeat split; try (simpl; tauto); try reflexivity.
  - intros Hc. destruct (majority_inequality_dec vote kind) as [H | H]; [exact H |].
    destruct (check_majority_raises _ _ H) as (msg & art & Hr). congruence.
  - apply check_majority_passes.
  - intros (msg & art & Hr) H.
    rewrite (check_majority_passes _ _ H) in Hr. discriminate.
  - apply check_majority_raises.
Qed.

(** C2. [check_quorum] succeeds exactly when present * 2 >= members and
    raises [QuorumError] otherwise; in a chamber of 460, 230 present pass and
    229 do not. *)
Theorem check_quorum_iff_half_present (vote : VoteRecord) :
  (Voting.check_quorum vote = Return tt
     <-> total_present vote * 2 >= members vote)
  /\ ((exists msg article,
         Voting.check_quorum vote = Raise (Raised QuorumError msg article))
     <-> ~ total_present vote * 2 >= members vote)
  /\ Voting.check_quorum (vote_record SEJM 200 30 0) = Return tt
  /\ (exists msg article,
        Voting.check_quorum (vote_record SEJM 200 29 0)
        = Raise (Raised QuorumError msg article)).
Proof.
  repeat split; try reflexivity.
  - intros Hc. destruct (quorum_inequality_dec vote) as [H | H]; [exact H |].
    destruct (check_quorum_raises _ H) as (msg & art & Hr). congruence.
  - apply check_quorum_passes.
  - intros (msg & art & Hr) H.
    rewrite (check_quorum_passes vote H) in Hr. discriminate.
  - apply check_quorum_raises.
  - vm_compute. eauto.
Qed.

(** C7. [passes_vote] checks the quorum first when it is required and the
    majority second: a missed quorum raises the [QuorumError] of
    [check_quorum] whatever the majority check would say, a met quorum hands
    over to [check_majority], and without [require_quorum] only
    [check_majority] runs (10 for and 5 against in a Sejm of 460 then
    passes). *)
Theorem passes_vote_quorum_first (vote : VoteRecord) (kind : MajorityType) :
  (~ quorum_inequality vote ->
     exists msg article,
       Voting.check_quorum vote = Raise (Raised QuorumError msg article)
       /\ Voting.passes_vote vote kind true
          = Raise (Raised QuorumError msg article))
  /\ (quorum_inequality vote ->
        Voting.passes_vote vote kind true = Voting.check_majority vote kind)
  /\ Voting.passes_vote vote kind false = Voting.check_majority vote kind
  /\ (exists msg article,
        Voting.passes_vote (vote_record SEJM 50 100 5) SIMPLE true
        = Raise (Raised QuorumError msg article)
        /\ ~ majority_inequality (vote_record SEJM 50 100 5) SIMPLE)
  /\ (~ quorum_inequality (vote_record SEJM 10 5 0)
      /\ Voting.passes_vote (vote_record SEJM 10 5 0) SIMPLE false
         = Return true).
Proof.
  split; [| split; [| split; [| split]]].
  - intros Hq. destruct (check_quorum_raises _ Hq) as (msg & art & Hr).
    exists msg, art. split; [exact Hr |].
    unfold Voting.passes_vote. now rewrite Hr.
  - intros Hq. unfold Voting.passes_vote.
    now rewrite (check_quorum_passes _ Hq).
  - reflexivity.
  - do 2 eexists. split; [vm_compute; reflexivity |]. simpl. lia.
  - split; [| reflexivity]. unfold quorum_inequality. vm_compute.
    intros H. now apply H.
Qed.

(** A tally of 155 present misses the quorum of 460; one of 440 meets it. *)
Lemma passes_vote_quorum_first_witness :
  ~ quorum_inequality (vote_record SEJM 100 50 5)
  /\ quorum_inequality (vote_record SEJM 250 180 10)
  /\ (exists msg article,
        Voting.passes_vote (vote_record SEJM 100 50 5) TWO_THIRDS true
        = Raise (Raised QuorumError msg article))
  /\ Voting.passes_vote (vote_record SEJM 250 180 10) SIMPLE true
     = Voting.check_majority (vote_record SEJM 250 180 10) SIMPLE.
Proof.
  assert (Hn : ~ quorum_inequality (vote_record SEJM 100 50 5))
    by (unfold quorum_inequality; vm_compute; intros H; now apply H).
  assert (Hq : quorum_inequality (vote_record SEJM 250 180 10))
    by (unfold quorum_inequality; vm_compute; discriminate).
  split; [exact Hn |]. split; [exact Hq |]. split.
  - destruct (passes_vote_quorum_first (vote_record SEJM 100 50 5) TWO_THIRDS)
      as (H & _).
    destruct (H Hn) as (msg & art & _ & Hr). now exists msg, art.
  - destruct (passes_vote_quorum_first (vote_record SEJM 250 180 10) SIMPLE)
      as (_ & H & _).
    exact (H Hq).
Defined.

(** C10. [check_majority] and [passes_vote] never return [False]: whenever
    either returns, the value is [True]. *)
Theorem vote_checks_return_only_true (vote : VoteRecord) (kind : MajorityType)
    (require_quorum b : bool) :
  (Voting.check_majority vote kind = Return b -> b = true)
  /\ (Voting.passes_vote vote kind require_quorum = Return b -> b = true).
Proof.
  assert (Hm : Voting.check_majority vote kind = Return b -> b = true).
  { intros H. destruct (majority_inequality_dec vote kind) as [Hi | Hi].
    - rewrite (check_majority_passes _ _ Hi) in H. congruence.
    - destruct (check_majority_raises _ _ Hi) as (msg & art & Hr). congruence. }
  split; [exact Hm |].
  unfold Voting.passes_vote.
  destruct require_quorum; [| exact Hm].
  destruct (Voting.check_quorum vote) as [[] | e]; simpl; [exact Hm | discriminate].
Qed.

(** The 250-180-10 tally returns, and what it returns is [True]. *)
Lemma vote_checks_return_only_true_witness :
  Voting.check_majority (vote_record SEJM 250 180 10) SIMPLE = Return true
  /\ Voting.passes_vote (vote_record SEJM 250 180 10) SIMPLE true = Return true
  /\ true = true.
Proof.
  split; [reflexivity |]. split; [reflexivity |].
  apply (vote_checks_return_only_true (vote_record SEJM 250 180 10) SIMPLE
           true true).
  reflexivity.
Defined.

(** ** Text *)

Lemma prefix_append (a b : string) : String.prefix a (a +:+ b) = true.
Proof.
  induction a as [| c a IH]; simpl.
  - now destruct b.
  - destruct (ascii_dec c c); [exact IH | congruence].
Qed.

Lemma contains_prefix (needle hay : string) :
  String.prefix needle hay = true -> contains needle hay = true.
Proof. destruct hay; simpl; intros ->; reflexivity. Qed.

Lemma contains_here (needle rest : string) :
  contains needle (needle +:+ rest) = true.
Proof. apply contains_prefix, prefix_append. Qed.

Lemma append_empty_r (a : string) : a +:+ "" = a.
Proof.
  induction a as [| c a IH]; [reflexivity |].
  change (String c a +:+ "") with (String c (a +:+ "")). now f_equal.
Qed.

Lemma contains_refl (needle : string) : contains needle needle = true.
Proof.
  pose proof (contains_here needle "") as H. now rewrite append_empty_r in H.
Qed.

Lemma contains_skip (needle skipped hay : string) :
  contains needle hay = true -> contains needle (skipped +:+ hay) = true.
Proof.
  intros H. induction skipped as [| c skipped IH]; [exact H |].
  change (String c skipped +:+ hay) with (String c (skipped +:+ hay)).
  simpl. rewrite IH. apply orb_true_r.
Qed.

Lemma contains_before (needle hay rest : string) :
  contains needle hay = true -> contains needle (hay +:+ rest) = true.
Proof.
  revert needle. induction hay as [| c hay IH]; intros needle.
  - destruct needle; simpl; [intros _; now destruct rest | discriminate].
  - change (String c hay +:+ rest) with (String c (hay +:+ rest)).
    simpl. intros [Hp | Hc]%orb_true_iff; apply orb_true_iff.
    + left. destruct needle as [| d needle]; [reflexivity |].
      destruct (ascii_dec d c); [| discriminate].
      assert (Hpre : forall a b, String.prefix a b = true ->
                                 String.prefix a (b +:+ rest) = true).
      { clear. induction a as [| x a IHa]; intros [| y b]; simpl;
          try discriminate; try reflexivity.
        - now destruct rest.
        - change (String y b +:+ rest) with (String y (b +:+ rest)).
          destruct (ascii_dec x y); [apply IHa | discriminate]. }
      now apply Hpre.
    + right. now apply IH.
Qed.

Lemma contains_join {A} (f : A -> string) (sep : string) (x : A) (l : list A) :
  x ∈ l -> contains (f x) (join sep (f <$> l)) = true.
Proof.
  induction l as [| y l IH]; intros Hin.
  - inversion Hin.
  - change (f <$> y :: l) with (f y :: (f <$> l)).
    apply elem_of_cons in Hin as [-> | Hin].
    + destruct (f <$> l); simpl.
      * apply contains_refl.
      * apply contains_here.
    + specialize (IH Hin).
      destruct (f <$> l) eqn:E; [inversion Hin; subst; discriminate |].
      change (join sep (f y :: s :: l0))
        with (f y +:+ sep +:+ join sep (s :: l0)).
      now do 2 apply contains_skip.
Qed.

(** ** The legislative machine *)

Section LegislativeFacts.
Import Legislative.
Local Open Scope action_scope.

Lemma require_stage_in expected article self :
  stage self ∈ expected ->
  _require_stage expected article self = (Return tt, self).
Proof.
  intros Hin. unfold _require_stage.
  rewrite bool_decide_eq_false_2; [reflexivity |].
  intros Hn. exact (Hn Hin).
Qed.

Lemma require_stage_notin expected article self :
  stage self ∉ expected ->
  _require_stage expected article self
  = (Raise (Raised LegislativeProcessError
       ("Cannot proceed: bill is at " +:+ name (stage self) +:+ ", "
        +:+ "expected " +:+ join ", " (name <$> expected))
       article), self).
Proof.
  intros Hn. unfold _require_stage.
  rewrite bool_decide_eq_true_2; [reflexivity | exact Hn].
Qed.

Lemma guarded_in expected article (k : action LegislativeProcess unit) self :
  stage self ∈ expected ->
  (_require_stage expected article ;; k) self = k self.
Proof. intros Hin. unfold abind. now rewrite require_stage_in. Qed.

Lemma guarded_notin expected article (k : action LegislativeProcess unit) self :
  stage self ∉ expected ->
  (_require_stage expected article ;; k) self
  = (Raise (Raised LegislativeProcessError
       ("Cannot proceed: bill is at " +:+ name (stage self) +:+ ", "
        +:+ "expected " +:+ join ", " (name <$> expected))
       article), self).
Proof. intros Hn. unfold abind. now rewrite require_stage_notin. Qed.

(** Every method opens with [_require_stage] on its source stages. *)
Lemma perform_guarded m :
  exists article k,
    perform m = (_require_stage (source_stages m) article ;; k).
Proof. destruct m; do 2 eexists; reflexivity. Qed.

Lemma illegal_message_names_actual (s : BillStage) (expected : list BillStage) :
  contains (name s)
    ("Cannot proceed: bill is at " +:+ name s +:+ ", "
     +:+ "expected " +:+ join ", " (name <$> expected)) = true.
Proof. apply contains_skip, contains_here. Qed.

Lemma illegal_message_names_expected (s e : BillStage) (expected : list BillStage) :
  e ∈ expected ->
  contains (name e)
    ("Cannot proceed: bill is at " +:+ name s +:+ ", "
     +:+ "expected " +:+ join ", " (name <$> expected)) = true.
Proof.
  intros Hin. do 4 apply contains_skip. now apply contains_join.
Qed.

Lemma legislative_illegal_call m :
  illegal_call_raises stage name LegislativeProcessError (source_stages m)
    (perform m)
  /\ illegal_call_names_expected stage name (source_stages m) (perform m).
Proof.
  destruct (perform_guarded m) as (article & k & ->). split.
  - intros self Hn. rewrite (guarded_notin _ _ _ _ Hn).
    do 2 eexists. split; [reflexivity |]. apply illegal_message_names_actual.
  - intros self cls msg art Hn. rewrite (guarded_notin _ _ _ _ Hn). simpl.
    intros [= <- <- <-] s Hs. now apply illegal_message_names_expected.
Qed.

(** A vote-bearing method that catches the failure of its check. *)
Lemma caught_failure vote kind note (k : action LegislativeProcess unit) e self :
  Voting.passes_vote vote kind true = Raise e ->
  (try_except (call (Voting.passes_vote vote kind true))
     [QuorumError; MajorityError]
     (fun e => _transition REJECTED note ;; raise e) ;; k) self
  = (Raise e,
     {| bill := bill self; stage := REJECTED;
        history := history self ++
          [name (stage self) +:+ " -> " +:+ name REJECTED +:+ ": " +:+ note] |}).
Proof.
  intros Hr.
  destruct (passing_dec vote kind) as [Hp | Hp].
  - rewrite (passes_vote_passing _ _ Hp) in Hr. discriminate.
  - destruct (passes_vote_failing _ _ Hp) as (e' & Hr' & _ & Hi).
    assert (e' = e) by congruence. subst e'.
    unfold abind, try_except, call. rewrite Hr, Hi. reflexivity.
Qed.

Lemma passed_check vote kind note (k : action LegislativeProcess unit) self :
  passing vote kind ->
  (try_except (call (Voting.passes_vote vote kind true))
     [QuorumError; MajorityError]
     (fun e => _transition REJECTED note ;; raise e) ;; k) self
  = k self.
Proof.
  intros Hp. unfold abind, try_except, call.
  now rewrite (passes_vote_passing _ _ Hp).
Qed.

Lemma asserted (cond : bool) (k : action LegislativeProcess unit) self :
  cond = true -> (assert cond ;; k) self = k self.
Proof. intros ->. reflexivity. Qed.

Lemma chamber_is vote house : chamber vote = house ->
  bool_decide (chamber vote = house) = true.
Proof. intros H. now apply bool_decide_eq_true_2. Qed.

Lemma sejm_vote_failure :
  failed_vote_rejects [SEJM_DELIBERATION] SEJM SIMPLE sejm_vote.
Proof.
  intros self vote e Hs Hc Hr. unfold sejm_vote.
  rewrite (guarded_in _ _ _ _ Hs), (asserted _ _ _ (chamber_is _ _ Hc)).
  rewrite (caught_failure _ _ _ _ _ _ Hr). split; reflexivity.
Qed.

Lemma sejm_override_senate_failure :
  failed_vote_rejects [SENATE_AMENDED; SENATE_REJECTED] SEJM ABSOLUTE
    sejm_override_senate.
Proof.
  intros self vote e Hs Hc Hr. unfold sejm_override_senate.
  rewrite (guarded_in _ _ _ _ Hs), (asserted _ _ _ (chamber_is _ _ Hc)).
  rewrite (caught_failure _ _ _ _ _ _ Hr). split; reflexivity.
Qed.

Lemma sejm_override_veto_failure :
  failed_vote_rejects [VETOED] SEJM THREE_FIFTHS sejm_override_veto.
Proof.
  intros self vote e Hs Hc Hr. unfold sejm_override_veto.
  rewrite (guarded_in _ _ _ _ Hs), (asserted _ _ _ (chamber_is _ _ Hc)).
  rewrite (caught_failure _ _ _ _ _ _ Hr). split; reflexivity.
Qed.

Lemma uncaught_failure {A} (r : result A) (k : action LegislativeProcess unit)
    e self :
  r = Raise e -> (call r ;; k) self = (Raise e, self).
Proof. intros ->. reflexivity. Qed.

Lemma senate_amends_failure :
  failed_vote_propagates [SENATE_DELIBERATION] SENATE SIMPLE senate_amends.
Proof.
  intros self vote e Hs Hc Hr. unfold senate_amends.
  rewrite (guarded_in _ _ _ _ Hs), (asserted _ _ _ (chamber_is _ _ Hc)).
  now apply uncaught_failure.
Qed.

Lemma senate_rejects_failure :
  failed_vote_propagates [SENATE_DELIBERATION] SENATE SIMPLE senate_rejects.
Proof.
  intros self vote e Hs Hc Hr. unfold senate_rejects.
  rewrite (guarded_in _ _ _ _ Hs), (asserted _ _ _ (chamber_is _ _ Hc)).
  now apply uncaught_failure.
Qed.

Lemma raised_is_vote_failure vote kind e :
  Voting.passes_vote vote kind true = Raise e -> vote_failure e.
Proof.
  intros Hr. destruct (passing_dec vote kind) as [Hp | Hp].
  - rewrite (passes_vote_passing _ _ Hp) in Hr. discriminate.
  - destruct (passes_vote_failing _ _ Hp) as (e' & Hr' & Hf & _). congruence.
Qed.

End LegislativeFacts.

(** ** The government-formation machine *)

Section FormationFacts.
Import Formation.
Local Open Scope action_scope.

Lemma formation_guarded_in expected article
    (k : action GovernmentFormation unit) self :
  stage self ∈ expected ->
  (_require_stage expected article ;; k) self = k self.
Proof.
  intros Hin. unfold abind, _require_stage.
  rewrite bool_decide_eq_false_2; [reflexivity |].
  intros Hn. exact (Hn Hin).
Qed.

Lemma formation_guarded_notin expected article
    (k : action GovernmentFormation unit) self :
  stage self ∉ expected ->
  (_require_stage expected article ;; k) self
  = (Raise (Raised GovernmentFormationError
       ("Cannot proceed: formation is at " +:+ name (stage self) +:+ ", "
        +:+ "expected " +:+ join ", " (name <$> expected) +:+ ".")
       article), self).
Proof.
  intros Hn. unfold abind, _require_stage.
  rewrite bool_decide_eq_true_2; [reflexivity | exact Hn].
Qed.

Lemma formation_perform_guarded m :
  exists article k,
    perform m = (_require_stage (source_stages m) article ;; k).
Proof. destruct m; do 2 eexists; reflexivity. Qed.

Lemma formation_illegal_call m :
  illegal_call_raises stage name GovernmentFormationError (source_stages m)
    (perform m)
  /\ illegal_call_names_expected stage name (source_stages m) (perform m).
Proof.
  destruct (formation_perform_guarded m) as (article & k & ->). split.
  - intros self Hn. rewrite (formation_guarded_notin _ _ _ _ Hn).
    do 2 eexists. split; [reflexivity |]. apply contains_skip, contains_here.
  - intros self cls msg art Hn. rewrite (formation_guarded_notin _ _ _ _ Hn).
    simpl. intros [= <- <- <-] s Hs.
    do 4 apply contains_skip. apply contains_before. now apply contains_join.
Qed.

(** A confidence vote: success appoints, any failure is the other branch. *)
Lemma confidence_vote_passing vote kind other self :
  passing vote kind ->
  try_except_Exception
    (call (Voting.passes_vote vote kind true) ;; set_stage APPOINTED)
    (fun _ => set_stage other) self
  = (Return tt, {| stage := APPOINTED |}).
Proof.
  intros Hp. unfold try_except_Exception, abind, call.
  now rewrite (passes_vote_passing _ _ Hp).
Qed.

Lemma confidence_vote_failing vote kind other self :
  ~ passing vote kind ->
  try_except_Exception
    (call (Voting.passes_vote vote kind true) ;; set_stage APPOINTED)
    (fun _ => set_stage other) self
  = (Return tt, {| stage := other |}).
Proof.
  intros Hp. unfold try_except_Exception, abind, call.
  destruct (passes_vote_failing _ _ Hp) as (e & -> & _). reflexivity.
Qed.

End FormationFacts.

(** ** The amendment machine *)

Section AmendmentFacts.
Import Amendment.
Local Open Scope action_scope.

Lemma not_in_singleton (s x : AmendmentStage) : s ∉ [x] -> s ≠ x.
Proof. intros Hn ->. apply Hn. constructor. Qed.

Lemma amendment_illegal_call m :
  illegal_call_raises stage name AmendmentError (source_stages m) (perform m).
Proof.
  intros self Hn.
  destruct m; simpl in Hn; try (apply not_in_singleton in Hn);
    unfold perform;
    [ unfold first_reading | unfold sejm_vote | unfold senate_vote
    | unfold request_referendum | unfold referendum_result
    | unfold president_sign | unfold complete ];
    (rewrite bool_decide_eq_true_2 by exact Hn);
    do 2 eexists; (split; [reflexivity |]);
    apply contains_skip, contains_refl.
Qed.

End AmendmentFacts.

(** ** Failed votes in the legislative machine *)

(** C3, as the code has it.  In [sejm_vote], [sejm_override_senate] and
    [sejm_override_veto], called in a source stage with a tally of the Sejm,
    a failed quorum or majority check moves the bill to REJECTED and the
    [QuorumError] or [MajorityError] of the check reaches the caller.  In
    [senate_amends] and [senate_rejects] the error of the check reaches the
    caller and the machine stays as it was, at SENATE_DELIBERATION. *)
Theorem failed_vote_rejects_in_sejm_only :
  failed_vote_rejects [Legislative.SEJM_DELIBERATION] SEJM SIMPLE
    Legislative.sejm_vote
  /\ failed_vote_rejects
       [Legislative.SENATE_AMENDED; Legislative.SENATE_REJECTED] SEJM ABSOLUTE
       Legislative.sejm_override_senate
  /\ failed_vote_rejects [Legislative.VETOED] SEJM THREE_FIFTHS
       Legislative.sejm_override_veto
  /\ failed_vote_propagates [Legislative.SENATE_DELIBERATION] SENATE SIMPLE
       Legislative.senate_amends
  /\ failed_vote_propagates [Legislative.SENATE_DELIBERATION] SENATE SIMPLE
       Legislative.senate_rejects
  /\ (forall vote kind e,
        Voting.passes_vote vote kind true = Raise e -> vote_failure e).
Proof.
  exact (conj sejm_vote_failure
        (conj sejm_override_senate_failure
        (conj sejm_override_veto_failure
        (conj senate_amends_failure
        (conj senate_rejects_failure raised_is_vote_failure))))).
Qed.

(** A Sejm vote lost 150 to 200 rejects the sample bill. *)
Lemma failed_vote_rejects_in_sejm_only_witness :
  Legislative.stage bill_in_sejm = Legislative.SEJM_DELIBERATION
  /\ fst (Legislative.sejm_vote sejm_fail_vote bill_in_sejm)
     = Raise (Raised MajorityError
                "Simple majority not reached: 150 for, 200 against" "120")
  /\ Legislative.stage (snd (Legislative.sejm_vote sejm_fail_vote bill_in_sejm))
     = Legislative.REJECTED.
Proof.
  split; [reflexivity |].
  destruct failed_vote_rejects_in_sejm_only as (H & _).
  apply (H bill_in_sejm sejm_fail_vote).
  - left.
  - reflexivity.
  - reflexivity.
Defined.

(** C3 fails for the two Senate votes: a Senate tally that misses the simple
    majority makes [senate_amends] and [senate_rejects] raise, yet the bill
    stays at SENATE_DELIBERATION and no history entry is written. *)
Lemma senate_vote_failure_keeps_stage :
  Legislative.stage bill_in_senate = Legislative.SENATE_DELIBERATION
  /\ Voting.passes_vote senate_fail_vote SIMPLE true
     = Raise (Raised MajorityError
                "Simple majority not reached: 40 for, 55 against" "120")
  /\ Legislative.senate_amends senate_fail_vote bill_in_senate
     = (Raise (Raised MajorityError
                 "Simple majority not reached: 40 for, 55 against" "120"),
        bill_in_senate)
  /\ Legislative.senate_rejects senate_fail_vote bill_in_senate
     = (Raise (Raised MajorityError
                 "Simple majority not reached: 40 for, 55 against" "120"),
        bill_in_senate)
  /\ ~ failed_vote_rejects [Legislative.SENATE_DELIBERATION] SENATE SIMPLE
         Legislative.senate_amends
  /\ ~ failed_vote_rejects [Legislative.SENATE_DELIBERATION] SENATE SIMPLE
         Legislative.senate_rejects.
Proof.
  split; [reflexivity |]. split; [reflexivity |].
  split; [reflexivity |]. split; [reflexivity |].
  split; intros H;
    destruct (H bill_in_senate senate_fail_vote _
                ltac:(left) eq_refl eq_refl) as (_ & Hs);
    discriminate Hs.
Qed.

(** ** Calls outside the source stages *)

(** C6, as the code has it.  In each of the three machines, a method called
    while the machine is in none of its source stages raises the machine's
    process error with a message naming the actual stage, and leaves the
    machine unchanged.  The message of the legislative and of the formation
    machine also lists every expected stage; that of the amendment machine
    does not.  In particular [president_signs] on a fresh bill raises and
    leaves it at INITIATED. *)
Theorem illegal_call_raises_and_keeps_stage :
  (forall m,
     illegal_call_raises Legislative.stage Legislative.name
       LegislativeProcessError (Legislative.source_stages m)
       (Legislative.perform m)
     /\ illegal_call_names_expected Legislative.stage Legislative.name
          (Legislative.source_stages m) (Legislative.perform m))
  /\ (forall m,
        illegal_call_raises Formation.stage Formation.name
          GovernmentFormationError (Formation.source_stages m)
          (Formation.perform m)
        /\ illegal_call_names_expected Formation.stage Formation.name
             (Formation.source_stages m) (Formation.perform m))
  /\ (forall m,
        illegal_call_raises Amendment.stage Amendment.name AmendmentError
          (Amendment.source_stages m) (Amendment.perform m))
  /\ Legislative.president_signs (Legislative.new sample_bill)
     = (Raise (Raised LegislativeProcessError
          "Cannot proceed: bill is at INITIATED, expected PRESIDENT_REVIEW"
          "122(2)"),
        Legislative.new sample_bill).
Proof.
  split; [exact legislative_illegal_call |].
  split; [exact formation_illegal_call |].
  split; [exact amendment_illegal_call |].
  reflexivity.
Qed.

(** Signing a fresh bill: the error names INITIATED and PRESIDENT_REVIEW. *)
Lemma illegal_call_raises_and_keeps_stage_witness :
  (Legislative.stage (Legislative.new sample_bill)
     ∉ Legislative.source_stages Legislative.m_president_signs)
  /\ (exists msg article,
        Legislative.president_signs (Legislative.new sample_bill)
        = (Raise (Raised LegislativeProcessError msg article),
           Legislative.new sample_bill)
        /\ contains "INITIATED" msg = true
        /\ contains "PRESIDENT_REVIEW" msg = true).
Proof.
  assert (Hn : Legislative.stage (Legislative.new sample_bill)
                 ∉ Legislative.source_stages Legislative.m_president_signs).
  { intros Hin. apply list_elem_of_singleton in Hin. discriminate Hin. }
  split; [exact Hn |].
  destruct illegal_call_raises_and_keeps_stage as (H & _).
  destruct (H Legislative.m_president_signs) as (Hr & He).
  destruct (Hr _ Hn) as (msg & article & Hcall & Hactual).
  exists msg, article. split; [exact Hcall |]. split; [exact Hactual |].
  refine (He (Legislative.new sample_bill) LegislativeProcessError msg article
             Hn _ Legislative.PRESIDENT_REVIEW _).
  - now rewrite Hcall.
  - left.
Defined.

(** C6 fails for the amendment machine: its errors name the actual stage
    only.  [complete] on a fresh amendment raises "Cannot complete from stage
    INITIATED", which does not name the expected PRESIDENT_SIGNS. *)
Lemma amendment_error_omits_expected_stage :
  (exists self,
     Amendment.new "Zmiana art. 100" "Senate" {[ 4 ]} = Return self
     /\ (Amendment.stage self ∉ Amendment.source_stages Amendment.m_complete)
     /\ Amendment.complete self
        = (Raise (Raised AmendmentError
                    "Cannot complete from stage INITIATED" "235"), self)
     /\ contains (Amendment.name Amendment.PRESIDENT_SIGNS)
          "Cannot complete from stage INITIATED" = false)
  /\ ~ illegal_call_names_expected Amendment.stage Amendment.name
         (Amendment.source_stages Amendment.m_complete)
         (Amendment.perform Amendment.m_complete).
Proof.
  assert (Hn : forall self, Amendment.stage self = Amendment.INITIATED ->
                 Amendment.stage self
                   ∉ Amendment.source_stages Amendment.m_complete).
  { intros self Hs Hin. apply list_elem_of_singleton in Hin.
    rewrite Hs in Hin. discriminate Hin. }
  split.
  - eexists. split; [reflexivity |].
    split; [now apply Hn |]. split; reflexivity.
  - intros H.
    pose (self := {| Amendment.title := "Zmiana art. 100";
                     Amendment.initiator := "Senate";
                     Amendment.affected_chapters := {[ 4 ]};
                     Amendment.stage := Amendment.INITIATED;
                     Amendment.referendum_requested := false |}).
    specialize (H self AmendmentError
                  "Cannot complete from stage INITIATED" "235"
                  (Hn self eq_refl) eq_refl
                  Amendment.PRESIDENT_SIGNS ltac:(left)).
    vm_compute in H. discriminate H.
Qed.

(** ** The three attempts at forming a government *)

(** C4. From PRESIDENT_DESIGNATES the machine goes to CONFIDENCE_VOTE; the
    first and second attempts are decided by a full vote with ABSOLUTE
    majority, the third with SIMPLE majority; a passing vote appoints, a
    failing one leads to SEJM_ELECTS, PRESIDENT_APPOINTS_RETRY and FAILED in
    turn, and none of the votes raises.  Three failing votes (200 for, in a
    Sejm of 460) walk PRESIDENT_DESIGNATES, CONFIDENCE_VOTE, SEJM_ELECTS,
    PRESIDENT_APPOINTS_RETRY, FAILED. *)
Theorem formation_three_attempts (v1 v2 v3 : VoteRecord) :
  Formation.stage Formation.new = Formation.PRESIDENT_DESIGNATES
  /\ Formation.president_designates Formation.new
     = (Return tt, {| Formation.stage := Formation.CONFIDENCE_VOTE |})
  /\ (passing v1 ABSOLUTE ->
      Formation.sejm_confidence_first_attempt v1
        {| Formation.stage := Formation.CONFIDENCE_VOTE |}
      = (Return tt, {| Formation.stage := Formation.APPOINTED |}))
  /\ (~ passing v1 ABSOLUTE ->
      Formation.sejm_confidence_first_attempt v1
        {| Formation.stage := Formation.CONFIDENCE_VOTE |}
      = (Return tt, {| Formation.stage := Formation.SEJM_ELECTS |}))
  /\ (passing v2 ABSOLUTE ->
      Formation.sejm_elects_pm v2 {| Formation.stage := Formation.SEJM_ELECTS |}
      = (Return tt, {| Formation.stage := Formation.APPOINTED |}))
  /\ (~ passing v2 ABSOLUTE ->
      Formation.sejm_elects_pm v2 {| Formation.stage := Formation.SEJM_ELECTS |}
      = (Return tt,
         {| Formation.stage := Formation.PRESIDENT_APPOINTS_RETRY |}))
  /\ (passing v3 SIMPLE ->
      Formation.president_appoints_third_attempt v3
        {| Formation.stage := Formation.PRESIDENT_APPOINTS_RETRY |}
      = (Return tt, {| Formation.stage := Formation.APPOINTED |}))
  /\ (~ passing v3 SIMPLE ->
      Formation.president_appoints_third_attempt v3
        {| Formation.stage := Formation.PRESIDENT_APPOINTS_RETRY |}
      = (Return tt, {| Formation.stage := Formation.FAILED |}))
  /\ (~ passing v1 ABSOLUTE -> ~ passing v2 ABSOLUTE -> ~ passing v3 SIMPLE ->
      run [Formation.president_designates;
           Formation.sejm_confidence_first_attempt v1] Formation.new
      = (Return tt, {| Formation.stage := Formation.SEJM_ELECTS |})
      /\ run [Formation.president_designates;
              Formation.sejm_confidence_first_attempt v1;
              Formation.sejm_elects_pm v2] Formation.new
         = (Return tt,
            {| Formation.stage := Formation.PRESIDENT_APPOINTS_RETRY |})
      /\ run [Formation.president_designates;
              Formation.sejm_confidence_first_attempt v1;
              Formation.sejm_elects_pm v2;
              Formation.president_appoints_third_attempt v3] Formation.new
         = (Return tt, {| Formation.stage := Formation.FAILED |}))
  /\ run [Formation.president_designates;
          Formation.sejm_confidence_first_attempt sejm_200_for;
          Formation.sejm_elects_pm sejm_200_for;
          Formation.president_appoints_third_attempt sejm_200_for]
         Formation.new
     = (Return tt, {| Formation.stage := Formation.FAILED |}).
Proof.
  assert (H1p : passing v1 ABSOLUTE ->
                Formation.sejm_confidence_first_attempt v1
                  {| Formation.stage := Formation.CONFIDENCE_VOTE |}
                = (Return tt, {| Formation.stage := Formation.APPOINTED |})).
  { intros Hp. unfold Formation.sejm_confidence_first_attempt.
    rewrite formation_guarded_in by left.
    now apply confidence_vote_passing. }
  assert (H1f : ~ passing v1 ABSOLUTE ->
                Formation.sejm_confidence_first_attempt v1
                  {| Formation.stage := Formation.CONFIDENCE_VOTE |}
                = (Return tt, {| Formation.stage := Formation.SEJM_ELECTS |})).
  { intros Hp. unfold Formation.sejm_confidence_first_attempt.
    rewrite formation_guarded_in by left.
    now apply confidence_vote_failing. }
  assert (H2p : passing v2 ABSOLUTE ->
                Formation.sejm_elects_pm v2
                  {| Formation.stage := Formation.SEJM_ELECTS |}
                = (Return tt, {| Formation.stage := Formation.APPOINTED |})).
  { intros Hp. unfold Formation.sejm_elects_pm.
    rewrite formation_guarded_in by left.
    now apply confidence_vote_passing. }
  assert (H2f : ~ passing v2 ABSOLUTE ->
                Formation.sejm_elects_pm v2
                  {| Formation.stage := Formation.SEJM_ELECTS |}
                = (Return tt,
                   {| Formation.stage := Formation.PRESIDENT_APPOINTS_RETRY |})).
  { intros Hp. unfold Formation.sejm_elects_pm.
    rewrite formation_guarded_in by left.
    now apply confidence_vote_failing. }
  assert (H3p : passing v3 SIMPLE ->
                Formation.president_appoints_third_attempt v3
                  {| Formation.stage := Formation.PRESIDENT_APPOINTS_RETRY |}
                = (Return tt, {| Formation.stage := Formation.APPOINTED |})).
  { intros Hp. unfold Formation.president_appoints_third_attempt.
    rewrite formation_guarded_in by left.
    now apply confidence_vote_passing. }
  assert (H3f : ~ passing v3 SIMPLE ->
                Formation.president_appoints_third_attempt v3
                  {| Formation.stage := Formation.PRESIDENT_APPOINTS_RETRY |}
                = (Return tt, {| Formation.stage := Formation.FAILED |})).
  { intros Hp. unfold Formation.president_appoints_third_attempt.
    rewrite formation_guarded_in by left.
    now apply confidence_vote_failing. }
  split; [reflexivity |]. split; [reflexivity |].
  split; [exact H1p |]. split; [exact H1f |].
  split; [exact H2p |]. split; [exact H2f |].
  split; [exact H3p |]. split; [exact H3f |].
  split; [| reflexivity].
  intros F1 F2 F3.
  specialize (H1f F1). specialize (H2f F2). specialize (H3f F3).
  unfold run, abind.
  change (Formation.president_designates Formation.new)
    with (Return tt, {| Formation.stage := Formation.CONFIDENCE_VOTE |}).
  cbv iota beta. rewrite H1f. cbv iota beta.
  split; [reflexivity |].
  rewrite H2f. cbv iota beta.
  split; [reflexivity |].
  rewrite H3f. reflexivity.
Qed.

(** 231 for appoints at the first attempt; 200 for, three times, fails. *)
Lemma formation_three_attempts_witness :
  ~ passing sejm_200_for ABSOLUTE
  /\ ~ passing sejm_200_for SIMPLE
  /\ passing (vote_record SEJM 231 200 10) ABSOLUTE
  /\ Formation.sejm_confidence_first_attempt (vote_record SEJM 231 200 10)
       {| Formation.stage := Formation.CONFIDENCE_VOTE |}
     = (Return tt, {| Formation.stage := Formation.APPOINTED |})
  /\ run [Formation.president_designates;
          Formation.sejm_confidence_first_attempt sejm_200_for;
          Formation.sejm_elects_pm sejm_200_for;
          Formation.president_appoints_third_attempt sejm_200_for]
         Formation.new
     = (Return tt, {| Formation.stage := Formation.FAILED |}).
Proof.
  assert (Ha : ~ passing sejm_200_for ABSOLUTE).
  { intros [_ H]. vm_compute in H. discriminate H. }
  assert (Hs : ~ passing sejm_200_for SIMPLE).
  { intros [_ H]. vm_compute in H. discriminate H. }
  assert (Hp : passing (vote_record SEJM 231 200 10) ABSOLUTE).
  { split; vm_compute; [discriminate | reflexivity]. }
  split; [exact Ha |]. split; [exact Hs |]. split; [exact Hp |].
  destruct (formation_three_attempts (vote_record SEJM 231 200 10)
              sejm_200_for sejm_200_for)
    as (_ & _ & H1 & _ & _ & _ & _ & _ & _ & _).
  destruct (formation_three_attempts sejm_200_for sejm_200_for sejm_200_for)
    as (_ & _ & _ & _ & _ & _ & _ & _ & H3 & _).
  split; [exact (H1 Hp) |].
  destruct (H3 Ha Ha Hs) as (_ & _ & Hrun). exact Hrun.
Defined.

(** ** The confirmatory referendum *)

Section ReferendumFacts.
Import Amendment.

Lemma touches_protected_true self :
  affected_chapters self ∩ REFERENDUM_CHAPTERS ≠ ∅ ->
  touches_protected_chapters self = true.
Proof. intros H. unfold touches_protected_chapters. now apply bool_decide_eq_true_2. Qed.

Lemma touches_protected_false self :
  ~ affected_chapters self ∩ REFERENDUM_CHAPTERS ≠ ∅ ->
  touches_protected_chapters self = false.
Proof. intros H. unfold touches_protected_chapters. now apply bool_decide_eq_false_2. Qed.

Lemma request_referendum_succeeds self :
  stage self = SENATE_PASSED ->
  affected_chapters self ∩ REFERENDUM_CHAPTERS ≠ ∅ ->
  request_referendum self
  = (Return tt,
     {| title := title self; initiator := initiator self;
        affected_chapters := affected_chapters self;
        stage := REFERENDUM_REQUESTED; referendum_requested := true |}).
Proof.
  intros Hs Ht. unfold request_referendum.
  rewrite bool_decide_eq_false_2 by (intros Hn; exact (Hn Hs)).
  rewrite (touches_protected_true _ Ht). reflexivity.
Qed.

Lemma request_referendum_raises self :
  ~ (stage self = SENATE_PASSED
     /\ affected_chapters self ∩ REFERENDUM_CHAPTERS ≠ ∅) ->
  exists msg article,
    request_referendum self = (Raise (Raised AmendmentError msg article), self).
Proof.
  intros Hn. unfold request_referendum.
  destruct (decide (stage self = SENATE_PASSED)) as [Hs | Hs].
  - rewrite bool_decide_eq_false_2 by (intros H; exact (H Hs)).
    rewrite touches_protected_false by tauto. simpl. eauto.
  - rewrite bool_decide_eq_true_2 by exact Hs. eauto.
Qed.

End ReferendumFacts.

(** C8. [request_referendum] succeeds, taking the amendment from
    SENATE_PASSED to REFERENDUM_REQUESTED, exactly when the amendment is at
    SENATE_PASSED and its affected chapters meet {1, 2, 12}; otherwise it
    raises and changes nothing, also for an amendment to chapter 4 that both
    chambers have passed.  An amendment that meets the protected chapters
    reaches ADOPTED from SENATE_PASSED both through the referendum and by
    direct signature. *)
Theorem request_referendum_iff_protected (self : Amendment.AmendmentProcess) :
  (fst (Amendment.request_referendum self) = Return tt
     <-> Amendment.stage self = Amendment.SENATE_PASSED
         /\ Amendment.affected_chapters self ∩ Amendment.REFERENDUM_CHAPTERS ≠ ∅)
  /\ (Amendment.stage self = Amendment.SENATE_PASSED ->
      Amendment.affected_chapters self ∩ Amendment.REFERENDUM_CHAPTERS ≠ ∅ ->
      Amendment.stage (snd (Amendment.request_referendum self))
      = Amendment.REFERENDUM_REQUESTED
      /\ (exists adopted,
            run [Amendment.request_referendum;
                 Amendment.referendum_result true;
                 Amendment.president_sign;
                 Amendment.complete] self = (Return tt, adopted)
            /\ Amendment.stage adopted = Amendment.ADOPTED)
      /\ (exists adopted,
            run [Amendment.president_sign; Amendment.complete] self
            = (Return tt, adopted)
            /\ Amendment.stage adopted = Amendment.ADOPTED))
  /\ (~ (Amendment.stage self = Amendment.SENATE_PASSED
         /\ Amendment.affected_chapters self
              ∩ Amendment.REFERENDUM_CHAPTERS ≠ ∅) ->
      exists msg article,
        Amendment.request_referendum self
        = (Raise (Raised AmendmentError msg article), self))
  /\ (exists fresh passed,
        Amendment.new "Zmiana art. 100" "Senate" {[ 4 ]} = Return fresh
        /\ run [Amendment.first_reading;
                Amendment.sejm_vote sejm_two_thirds;
                Amendment.senate_vote senate_absolute_majority] fresh
           = (Return tt, passed)
        /\ Amendment.stage passed = Amendment.SENATE_PASSED
        /\ Amendment.request_referendum passed
           = (Raise (Raised AmendmentError
                "Referendum only available for amendments to Chapters I, II, or XII"
                "235(6)"), passed)).
Proof.
  split; [| split; [| split]].
  - split.
    + intros Hr.
      destruct (decide (Amendment.stage self = Amendment.SENATE_PASSED
                        /\ Amendment.affected_chapters self
                             ∩ Amendment.REFERENDUM_CHAPTERS ≠ ∅))
        as [H | H]; [exact H |].
      destruct (request_referendum_raises self H) as (msg & art & Hx).
      rewrite Hx in Hr. discriminate Hr.
    + intros [Hs Ht]. now rewrite request_referendum_succeeds.
  - intros Hs Ht. split; [now rewrite request_referendum_succeeds |]. split.
    + eexists. unfold run, abind.
      rewrite (request_referendum_succeeds self Hs Ht).
      split; reflexivity.
    + eexists. unfold run, abind, Amendment.president_sign.
      rewrite Hs. split; reflexivity.
  - apply request_referendum_raises.
  - do 2 eexists. split; [reflexivity |]. split; [vm_compute; reflexivity |].
    split; [reflexivity |]. vm_compute. reflexivity.
Qed.

(** An amendment to chapter 1, passed by both chambers, adopted by referendum. *)
Lemma request_referendum_iff_protected_witness :
  exists fresh passed adopted,
    Amendment.new "Zmiana art. 1" "President" {[ 1 ]} = Return fresh
    /\ run [Amendment.first_reading;
            Amendment.sejm_vote sejm_two_thirds;
            Amendment.senate_vote senate_absolute_majority] fresh
       = (Return tt, passed)
    /\ Amendment.stage passed = Amendment.SENATE_PASSED
    /\ Amendment.affected_chapters passed ∩ Amendment.REFERENDUM_CHAPTERS ≠ ∅
    /\ Amendment.stage (snd (Amendment.request_referendum passed))
       = Amendment.REFERENDUM_REQUESTED
    /\ run [Amendment.request_referendum;
            Amendment.referendum_result true;
            Amendment.president_sign;
            Amendment.complete] passed = (Return tt, adopted)
    /\ Amendment.stage adopted = Amendment.ADOPTED.
Proof.
  pose (passed := {| Amendment.title := "Zmiana art. 1";
                     Amendment.initiator := "President";
                     Amendment.affected_chapters := {[ 1 ]};
                     Amendment.stage := Amendment.SENATE_PASSED;
                     Amendment.referendum_requested := false |}).
  assert (Ht : Amendment.affected_chapters passed
                 ∩ Amendment.REFERENDUM_CHAPTERS ≠ ∅).
  { intros He. assert (Hin : (1 : Z) ∈ (∅ : gset Z)); [| set_solver].
    rewrite <- He. unfold Amendment.REFERENDUM_CHAPTERS. simpl. set_solver. }
  destruct (request_referendum_iff_protected passed) as (_ & H & _).
  destruct (H eq_refl Ht) as (Hreq & (adopted & Hrun & Had) & _).
  exists {| Amendment.title := "Zmiana art. 1";
            Amendment.initiator := "President";
            Amendment.affected_chapters := {[ 1 ]};
            Amendment.stage := Amendment.INITIATED;
            Amendment.referendum_requested := false |}, passed, adopted.
  split; [reflexivity |]. split; [vm_compute; reflexivity |].
  split; [reflexivity |]. split; [exact Ht |].
  split; [exact Hreq |]. split; [exact Hrun | exact Had].
Defined.

(** ** The happy path of a bill *)

(** C9. A fresh bill driven through begin-deliberation, a passing Sejm
    vote, send-to-Senate, Senate-accepts, send-to-President,
    President-signs and enact ends at ENACTED with exactly seven history
    entries, one per call. *)
Theorem happy_path_enacted (b : Legislative.Bill) (vote : VoteRecord) :
  chamber vote = SEJM ->
  passing vote SIMPLE ->
  exists enacted,
    run [Legislative.begin_sejm_deliberation;
         Legislative.sejm_vote vote;
         Legislative.send_to_senate;
         Legislative.senate_accepts;
         Legislative.send_to_president;
         Legislative.president_signs;
         Legislative.enact] (Legislative.new b)
    = (Return tt, enacted)
    /\ Legislative.stage enacted = Legislative.ENACTED
    /\ length (Legislative.history enacted) = 7%nat
    /\ Legislative.history enacted
       = [ "INITIATED -> SEJM_DELIBERATION: Three readings begin";
           "SEJM_DELIBERATION -> SEJM_PASSED: Passed "
             +:+ str_int (votes_for vote) +:+ "-"
             +:+ str_int (votes_against vote);
           "SEJM_PASSED -> SENATE_DELIBERATION: Sent to Senate";
           "SENATE_DELIBERATION -> SENATE_PASSED: Senate accepted without changes";
           "SENATE_PASSED -> PRESIDENT_REVIEW: Sent to President";
           "PRESIDENT_REVIEW -> SIGNED: President signed";
           "SIGNED -> ENACTED: Published in Dziennik Ustaw" ].
Proof.
  intros Hc Hp. unfold run, abind at 1.
  change (Legislative.begin_sejm_deliberation (Legislative.new b))
    with (Return tt,
          {| Legislative.bill := b;
             Legislative.stage := Legislative.SEJM_DELIBERATION;
             Legislative.history :=
               ["INITIATED -> SEJM_DELIBERATION: Three readings begin"] |}).
  cbv iota beta. unfold abind at 1. unfold Legislative.sejm_vote.
  rewrite guarded_in by left.
  rewrite asserted by (now apply chamber_is).
  rewrite passed_check by exact Hp.
  eexists. split; [reflexivity |]. split; [reflexivity |].
  split; reflexivity.
Qed.

(** The sample bill with the 250-180 Sejm vote. *)
Lemma happy_path_enacted_witness :
  chamber sejm_pass_vote = SEJM
  /\ passing sejm_pass_vote SIMPLE
  /\ exists enacted,
       run [Legislative.begin_sejm_deliberation;
            Legislative.sejm_vote sejm_pass_vote;
            Legislative.send_to_senate;
            Legislative.senate_accepts;
            Legislative.send_to_president;
            Legislative.president_signs;
            Legislative.enact] (Legislative.new sample_bill)
       = (Return tt, enacted)
       /\ Legislative.stage enacted = Legislative.ENACTED
       /\ length (Legislative.history enacted) = 7%nat.
Proof.
  assert (Hp : passing sejm_pass_vote SIMPLE).
  { split; vm_compute; [discriminate | reflexivity]. }
  split; [reflexivity |]. split; [exact Hp |].
  destruct (happy_path_enacted sample_bill sejm_pass_vote eq_refl Hp)
    as (enacted & Hrun & Hs & Hl & _).
  exists enacted. split; [exact Hrun |]. split; [exact Hs | exact Hl].
Defined.

(** ** The history of a machine *)

Section HistoryFacts.
Import Legislative.
Local Open Scope action_scope.

Lemma transition_logs (sources : list BillStage) to note self :
  stage self ∈ sources -> to ∉ sources ->
  logged_move self (snd (_transition to note self)).
Proof.
  intros Hin Hout. unfold logged_move. simpl. split.
  - intros Heq. apply Hout. now rewrite Heq.
  - split; [reflexivity |]. now exists note.
Qed.

Ltac other_stage :=
  let H := fresh in
  intros H; repeat (apply elem_of_cons in H as [H | H]; [discriminate H |]);
  inversion H.

Lemma plain_method_logs (sources : list BillStage) article to note self :
  stage self ∈ sources -> to ∉ sources ->
  logged_move self
    (snd ((_require_stage sources article ;; _transition to note) self)).
Proof.
  intros Hin Hout. rewrite guarded_in by exact Hin.
  now apply (transition_logs sources).
Qed.

Lemma caught_vote_logs (sources : list BillStage) article house vote kind
    failure to note self :
  stage self ∈ sources -> to ∉ sources -> REJECTED ∉ sources ->
  let m := _require_stage sources article ;;
           assert (bool_decide (chamber vote = house)) ;;
           try_except (call (Voting.passes_vote vote kind true))
             [QuorumError; MajorityError]
             (fun e => _transition REJECTED failure ;; raise e) ;;
           _transition to note in
  snd (m self) = self \/ logged_move self (snd (m self)).
Proof.
  intros Hin Hout Hrej m. subst m. rewrite guarded_in by exact Hin.
  destruct (decide (chamber vote = house)) as [Hc | Hc].
  - rewrite asserted by (now apply chamber_is). right.
    destruct (passing_dec vote kind) as [Hp | Hp].
    + rewrite passed_check by exact Hp. now apply (transition_logs sources).
    + destruct (passes_vote_failing _ _ Hp) as (e & Hr & _).
      rewrite (caught_failure _ _ _ _ _ _ Hr).
      exact (transition_logs sources REJECTED failure self Hin Hrej).
  - left. unfold abind at 1, assert.
    rewrite bool_decide_eq_false_2 by exact Hc. reflexivity.
Qed.

Lemma uncaught_vote_logs (sources : list BillStage) article house vote kind
    to note self :
  stage self ∈ sources -> to ∉ sources ->
  let m := _require_stage sources article ;;
           assert (bool_decide (chamber vote = house)) ;;
           call (Voting.passes_vote vote kind true) ;;
           _transition to note in
  snd (m self) = self \/ logged_move self (snd (m self)).
Proof.
  intros Hin Hout m. subst m. rewrite guarded_in by exact Hin.
  destruct (decide (chamber vote = house)) as [Hc | Hc].
  - rewrite asserted by (now apply chamber_is).
    destruct (passing_dec vote kind) as [Hp | Hp].
    + right. unfold abind, call. rewrite (passes_vote_passing _ _ Hp).
      now apply (transition_logs sources).
    + left. destruct (passes_vote_failing _ _ Hp) as (e & Hr & _).
      now rewrite (uncaught_failure _ _ e self Hr).
  - left. unfold abind at 1, assert.
    rewrite bool_decide_eq_false_2 by exact Hc. reflexivity.
Qed.

Lemma legislative_call_logs m self :
  snd (perform m self) = self \/ logged_move self (snd (perform m self)).
Proof.
  destruct (decide (stage self ∈ source_stages m)) as [Hin | Hn].
  - destruct m; simpl in Hin;
      first
        [ right; apply plain_method_logs; [exact Hin | other_stage]
        | apply caught_vote_logs; [exact Hin | other_stage | other_stage]
        | apply uncaught_vote_logs; [exact Hin | other_stage] ].
  - left. destruct (legislative_illegal_call m) as [Hr _].
    destruct (Hr self Hn) as (msg & art & Hcall & _). now rewrite Hcall.
Qed.

Lemma legislative_history_is_log :
  append_only_log perform stage history.
Proof.
  intros self self' (c & <- & Hmoved).
  destruct (legislative_call_logs c self) as [Hsame | (_ & _ & note & Hh)].
  - rewrite Hsame in Hmoved. now destruct Hmoved.
  - eexists. exact Hh.
Qed.

Lemma drive_extends_history calls self :
  history self `prefix_of` history (drive perform calls self).
Proof.
  revert self. induction calls as [| c calls IH]; intros self.
  - reflexivity.
  - simpl. etransitivity; [| apply IH].
    destruct (legislative_call_logs c self) as [-> | (_ & _ & note & ->)].
    + reflexivity.
    + now apply prefix_app_r.
Qed.

End HistoryFacts.

Lemma formation_has_no_log (log : Formation.GovernmentFormation -> list string) :
  ~ append_only_log Formation.perform Formation.stage log.
Proof.
  intros Hlog.
  set (confidence := {| Formation.stage := Formation.CONFIDENCE_VOTE |}).
  set (elects := {| Formation.stage := Formation.SEJM_ELECTS |}).
  set (appointed := {| Formation.stage := Formation.APPOINTED |}).
  set (pass := vote_record SEJM 231 200 10).
  destruct (Hlog confidence appointed) as (e1 & H1).
  { exists (Formation.m_sejm_confidence_first_attempt pass).
    split; [reflexivity | discriminate]. }
  destruct (Hlog confidence elects) as (e2 & H2).
  { exists (Formation.m_sejm_confidence_first_attempt sejm_200_for).
    split; [reflexivity | discriminate]. }
  destruct (Hlog elects appointed) as (e3 & H3).
  { exists (Formation.m_sejm_elects_pm pass).
    split; [reflexivity | discriminate]. }
  apply (f_equal length) in H1, H2, H3.
  rewrite length_app in H1, H2, H3. simpl in H1, H2, H3. lia.
Qed.

Lemma amendment_has_no_log (log : Amendment.AmendmentProcess -> list string) :
  ~ append_only_log Amendment.perform Amendment.stage log.
Proof.
  intros Hlog.
  pose (at_stage s := {| Amendment.title := "Zmiana art. 100";
                         Amendment.initiator := "Senate";
                         Amendment.affected_chapters := {[ 4 ]};
                         Amendment.stage := s;
                         Amendment.referendum_requested := false |}).
  destruct (Hlog (at_stage Amendment.FIRST_READING_SEJM)
                 (at_stage Amendment.REJECTED)) as (e1 & H1).
  { exists (Amendment.m_sejm_vote sejm_fail_vote).
    split; [reflexivity | discriminate]. }
  destruct (Hlog (at_stage Amendment.FIRST_READING_SEJM)
                 (at_stage Amendment.SEJM_PASSED)) as (e2 & H2).
  { exists (Amendment.m_sejm_vote sejm_two_thirds).
    split; [reflexivity | discriminate]. }
  destruct (Hlog (at_stage Amendment.SEJM_PASSED)
                 (at_stage Amendment.REJECTED)) as (e3 & H3).
  { exists (Amendment.m_senate_vote senate_fail_vote).
    split; [reflexivity | discriminate]. }
  apply (f_equal length) in H1, H2, H3.
  rewrite length_app in H1, H2, H3. simpl in H1, H2, H3. lia.
Qed.

(** C5, as the code has it.  Only the legislative machine keeps a history.
    It starts empty; each of its calls either leaves the machine as it was
    or moves it to another stage and appends the one entry
    "FROM -> TO: note" at the end, so that whatever calls are made the old
    history remains a prefix of the new one.  The government-formation and
    the amendment machine keep no history, and none can be read off their
    state. *)
Theorem history_is_log_of_legislative_machine_only :
  (forall b, Legislative.history (Legislative.new b) = [])
  /\ append_only_log Legislative.perform Legislative.stage Legislative.history
  /\ (forall m self,
        snd (Legislative.perform m self) = self
        \/ logged_move self (snd (Legislative.perform m self)))
  /\ (forall calls self,
        Legislative.history self
          `prefix_of` Legislative.history (drive Legislative.perform calls self))
  /\ (forall log, ~ append_only_log Formation.perform Formation.stage log)
  /\ (forall log, ~ append_only_log Amendment.perform Amendment.stage log).
Proof.
  split; [reflexivity |].
  split; [exact legislative_history_is_log |].
  split; [exact legislative_call_logs |].
  split; [exact drive_extends_history |].
  split; [exact formation_has_no_log | exact amendment_has_no_log].
Qed.

(** Sending the passed sample bill to the Senate adds one entry. *)
Lemma history_is_log_of_legislative_machine_only_witness :
  Legislative.stage (snd (Legislative.perform Legislative.m_send_to_senate
                            (snd (Legislative.sejm_vote sejm_pass_vote
                                    bill_in_sejm))))
    ≠ Legislative.stage (snd (Legislative.sejm_vote sejm_pass_vote bill_in_sejm))
  /\ (exists entry,
        Legislative.history bill_in_senate
        = Legislative.history
            (snd (Legislative.sejm_vote sejm_pass_vote bill_in_sejm))
          ++ [entry]).
Proof.
  assert (Hmove :
    Legislative.stage (snd (Legislative.perform Legislative.m_send_to_senate
                              (snd (Legislative.sejm_vote sejm_pass_vote
                                      bill_in_sejm))))
    ≠ Legislative.stage
        (snd (Legislative.sejm_vote sejm_pass_vote bill_in_sejm)))
    by discriminate.
  split; [exact Hmove |].
  destruct history_is_log_of_legislative_machine_only as (_ & Hlog & _).
  apply (Hlog (snd (Legislative.sejm_vote sejm_pass_vote bill_in_sejm))
              bill_in_senate).
  exists Legislative.m_send_to_senate. split; [reflexivity | exact Hmove].
Defined.

(** C5 fails for two of the three machines: [GovernmentFormation] has the
    single attribute [stage] and [AmendmentProcess] has no history either.
    A formation appointed at the first attempt and one appointed at the
    second are the same object state after two and after three calls, so no
    accessor can return a log with one entry per transition. *)
Lemma formation_and_amendment_keep_no_history :
  snd (run [Formation.president_designates;
            Formation.sejm_confidence_first_attempt
              (vote_record SEJM 231 200 10)] Formation.new)
  = snd (run [Formation.president_designates;
              Formation.sejm_confidence_first_attempt sejm_200_for;
              Formation.sejm_elects_pm (vote_record SEJM 231 200 10)]
             Formation.new)
  /\ ~ (exists log, append_only_log Formation.perform Formation.stage log)
  /\ ~ (exists log, append_only_log Amendment.perform Amendment.stage log).
Proof.
  split; [reflexivity |]. split.
  - intros (log & Hlog). exact (formation_has_no_log log Hlog).
  - intros (log & Hlog). exact (amendment_has_no_log log Hlog).
Qed.

(** * Further properties of the code *)

(** ** The voting engine *)

Lemma passes_vote_true_iff vote kind :
  Voting.passes_vote vote kind true = Return true <-> passing vote kind.
Proof.
  split.
  - intros Hr. destruct (passing_dec vote kind) as [Hp | Hp]; [exact Hp |].
    destruct (passes_vote_failing _ _ Hp) as (e & He & _). congruence.
  - apply passes_vote_passing.
Qed.

Lemma check_majority_true_iff vote kind :
  Voting.check_majority vote kind = Return true <-> majority_inequality vote kind.
Proof.
  split.
  - intros Hr. destruct (majority_inequality_dec vote kind) as [Hp | Hp]; [exact Hp |].
    destruct (check_majority_raises _ _ Hp) as (msg & art & He). congruence.
  - apply check_majority_passes.
Qed.

(** X1. The numbers quoted in the error messages are the exact thresholds:
    [check_quorum] returns exactly when at least [(members + 1) // 2] are
    present, the "need at least" of its message, and the ABSOLUTE check
    returns exactly when the votes in favour exceed [members // 2], the
    "need more than" of its message. *)
Theorem quoted_thresholds_are_exact (vote : VoteRecord) :
  (Voting.check_quorum vote = Return tt
     <-> total_present vote >= (members vote + 1) / 2)
  /\ (Voting.check_quorum vote
      = Raise (Raised QuorumError
          ("Quorum not met: " +:+ str_int (total_present vote) +:+ " present, "
           +:+ "need at least " +:+ str_int ((members vote + 1) / 2) +:+ " "
           +:+ "of " +:+ str_int (members vote) +:+ " statutory members")
          "120")
      <-> total_present vote < (members vote + 1) / 2)
  /\ (Voting.check_majority vote ABSOLUTE = Return true
      <-> votes_for vote > members vote / 2)
  /\ (Voting.check_majority vote ABSOLUTE
      = Raise (Raised MajorityError
          ("Absolute majority not reached: " +:+ str_int (votes_for vote)
           +:+ " for, " +:+ "need more than " +:+ str_int (members vote / 2)
           +:+ " " +:+ "of " +:+ str_int (members vote)
           +:+ " statutory members")
          "120")
      <-> votes_for vote <= members vote / 2).
Proof.
  unfold Voting.check_quorum, Voting.check_majority. simpl.
  rewrite (Z.gtb_ltb (votes_for vote * 2) (members vote)).
  destruct (Z.ltb_spec (total_present vote * 2) (members vote));
    destruct (Z.ltb_spec (members vote) (votes_for vote * 2)); simpl;
    repeat split; intros; try discriminate; try reflexivity;
    Z.div_mod_to_equations; lia.
Qed.

(** X2. More votes in favour never turn a vote that passes into one that
    fails: if [passes_vote] returns for a tally, it returns for the same
    tally with [k >= 0] further votes in favour, for every majority kind and
    with or without the quorum check. *)
Theorem more_votes_for_still_pass (vote : VoteRecord) (kind : MajorityType)
    (require_quorum : bool) (k : Z) :
  0 <= k ->
  Voting.passes_vote vote kind require_quorum = Return true ->
  Voting.passes_vote (with_more_votes_for k vote) kind require_quorum
  = Return true.
Proof.
  intros Hk. destruct require_quorum.
  - rewrite !passes_vote_true_iff. unfold passing, quorum_inequality.
    destruct kind;
      unfold majority_inequality, total_present, with_more_votes_for; simpl; lia.
  - unfold Voting.passes_vote, rbind. rewrite !check_majority_true_iff.
    destruct kind;
      unfold majority_inequality, total_present, with_more_votes_for; simpl; lia.
Qed.

(** Ten more votes in favour of a tally exactly at three fifths. *)
Lemma more_votes_for_still_pass_witness :
  0 <= 10
  /\ Voting.passes_vote (vote_record SEJM 276 184 0) THREE_FIFTHS true
     = Return true
  /\ Voting.passes_vote (with_more_votes_for 10 (vote_record SEJM 276 184 0))
        THREE_FIFTHS true
     = Return true.
Proof.
  assert (Hk : 0 <= 10) by lia.
  split; [exact Hk |]. split; [reflexivity |].
  exact (more_votes_for_still_pass (vote_record SEJM 276 184 0)
           THREE_FIFTHS true 10 Hk eq_refl).
Defined.

(** X3. For a tally without negative counts an absolute majority already
    implies the quorum, so the full ABSOLUTE vote passes as soon as
    [check_majority] does; and when no more than the statutory number are
    present it implies the simple majority as well. *)
Theorem absolute_majority_implies_quorum_and_simple (vote : VoteRecord) :
  0 <= votes_against vote ->
  0 <= votes_abstain vote ->
  Voting.check_majority vote ABSOLUTE = Return true ->
  Voting.check_quorum vote = Return tt
  /\ Voting.passes_vote vote ABSOLUTE true = Return true
  /\ (total_present vote <= members vote ->
      Voting.passes_vote vote SIMPLE true = Return true).
Proof.
  intros Ha Hb Hm. apply check_majority_true_iff in Hm. simpl in Hm.
  assert (Hq : quorum_inequality vote).
  { unfold quorum_inequality, total_present. lia. }
  split; [now apply check_quorum_passes |].
  split; [now apply passes_vote_passing |].
  intros Hp. apply passes_vote_passing. split; [exact Hq |].
  unfold total_present in Hp. simpl. lia.
Qed.

(** 231 for in a Sejm of 460. *)
Lemma absolute_majority_implies_quorum_and_simple_witness :
  Voting.check_quorum (vote_record SEJM 231 100 50) = Return tt
  /\ Voting.passes_vote (vote_record SEJM 231 100 50) ABSOLUTE true
     = Return true
  /\ (total_present (vote_record SEJM 231 100 50)
        <= members (vote_record SEJM 231 100 50) ->
      Voting.passes_vote (vote_record SEJM 231 100 50) SIMPLE true
      = Return true).
Proof.
  apply (absolute_majority_implies_quorum_and_simple
           (vote_record SEJM 231 100 50)); [simpl; lia | simpl; lia | reflexivity].
Defined.

(** X4. A sitting in which nobody voted: the TWO_THIRDS and THREE_FIFTHS
    checks are met (0 >= 0), so without the quorum check such a vote passes;
    the SIMPLE check is not met; and in a chamber with members the quorum
    check is what stops the qualified majorities. *)
Theorem empty_tally_passes_qualified_majorities (c : Chamber) (m : Z) :
  Voting.check_majority (empty_tally c m) TWO_THIRDS = Return true
  /\ Voting.check_majority (empty_tally c m) THREE_FIFTHS = Return true
  /\ Voting.passes_vote (empty_tally c m) TWO_THIRDS false = Return true
  /\ Voting.passes_vote (empty_tally c m) THREE_FIFTHS false = Return true
  /\ (exists msg article,
        Voting.check_majority (empty_tally c m) SIMPLE
        = Raise (Raised MajorityError msg article))
  /\ ((exists msg article,
         Voting.passes_vote (empty_tally c m) TWO_THIRDS true
         = Raise (Raised QuorumError msg article))
      <-> 0 < m)
  /\ (Voting.passes_vote (empty_tally c m) TWO_THIRDS true = Return true
      <-> m <= 0).
Proof.
  split; [reflexivity |]. split; [reflexivity |].
  split; [reflexivity |]. split; [reflexivity |].
  split; [do 2 eexists; reflexivity |].
  assert (Hq : quorum_inequality (empty_tally c m) <-> m <= 0).
  { unfold quorum_inequality, total_present, empty_tally.
    cbn [votes_for votes_against votes_abstain members]. lia. }
  assert (Hpass : m <= 0 ->
            Voting.passes_vote (empty_tally c m) TWO_THIRDS true = Return true).
  { intros Hm. apply passes_vote_passing. split; [now apply Hq |].
    unfold majority_inequality, total_present, empty_tally.
    cbn [votes_for votes_against votes_abstain members]. lia. }
  assert (Hfail : 0 < m ->
            exists msg article,
              Voting.passes_vote (empty_tally c m) TWO_THIRDS true
              = Raise (Raised QuorumError msg article)).
  { intros Hm.
    destruct (check_quorum_raises (empty_tally c m)) as (msg & art & Hr);
      [rewrite Hq; lia |].
    exists msg, art. unfold Voting.passes_vote. now rewrite Hr. }
  split; split.
  - intros (msg & art & Hr). destruct (Z.ltb_spec 0 m) as [Hm | Hm]; [exact Hm |].
    rewrite (Hpass Hm) in Hr. discriminate Hr.
  - exact Hfail.
  - intros Hr. destruct (Z.ltb_spec 0 m) as [Hm | Hm]; [| exact Hm].
    destruct (Hfail Hm) as (msg & art & Hr'). rewrite Hr' in Hr. discriminate Hr.
  - exact Hpass.
Qed.

(** ** The validators of the Council of Ministers *)

(** X5. [validate_confidence_vote] and [validate_confidence_request] return
    [True] exactly when the full vote passes (quorum, then ABSOLUTE and
    SIMPLE majority).  A failure of the engine never reaches the caller as
    a [QuorumError] or [MajorityError]: it is wrapped, message included, in
    a [GovernmentFormationError] of article 154 and in a
    [NoConfidenceError] of article 160. *)
Theorem confidence_validators_wrap_engine_errors
    (str_exn : exn -> string) (vote : VoteRecord) :
  (Council.validate_confidence_vote str_exn vote = Return true
     <-> passing vote ABSOLUTE)
  /\ (Council.validate_confidence_request str_exn vote = Council.Returned true
      <-> passing vote SIMPLE)
  /\ ((exists e,
         Voting.passes_vote vote ABSOLUTE true = Raise e
         /\ vote_failure e
         /\ Council.validate_confidence_vote str_exn vote
            = Raise (Raised GovernmentFormationError
                       ("Confidence vote failed: " +:+ str_exn e) "154"))
      <-> ~ passing vote ABSOLUTE)
  /\ ((exists e,
         Voting.passes_vote vote SIMPLE true = Raise e
         /\ vote_failure e
         /\ Council.validate_confidence_request str_exn vote
            = Council.Thrown
                (Council.NoConfidenceError
                   ("Confidence request failed: " +:+ str_exn e) "160"))
      <-> ~ passing vote SIMPLE).
Proof.
  unfold Council.validate_confidence_vote, Council.validate_confidence_request.
  destruct (passing_dec vote ABSOLUTE) as [Ha | Ha];
    destruct (passing_dec vote SIMPLE) as [Hs | Hs];
    try rewrite (passes_vote_passing _ _ Ha);
    try rewrite (passes_vote_passing _ _ Hs);
    try (destruct (passes_vote_failing _ _ Ha) as (ea & Hea & Hfa & _);
         rewrite Hea);
    try (destruct (passes_vote_failing _ _ Hs) as (es & Hes & Hfs & _);
         rewrite Hes);
    repeat match goal with |- _ /\ _ => split | |- _ <-> _ => split end;
    try tauto; try discriminate;
    try (intros (e & He & _); discriminate He);
    try (intros _; eexists; split; [reflexivity | split; [eassumption | reflexivity]]).
Qed.

Lemma minister_liability_cases (vote : VoteRecord) :
  (Council.validate_minister_liability vote = Council.Returned true
     <-> total_present vote * 2 >= members vote
         /\ votes_for vote >= (members vote * 3 + 4) / 5)
  /\ (votes_for vote >= (members vote * 3 + 4) / 5
      <-> votes_for vote * 5 >= members vote * 3)
  /\ ((exists msg article,
         Voting.check_quorum vote = Raise (Raised QuorumError msg article)
         /\ Council.validate_minister_liability vote
            = Council.Thrown (Council.Engine (Raised QuorumError msg article)))
      <-> ~ total_present vote * 2 >= members vote)
  /\ ((exists msg,
         Council.validate_minister_liability vote
         = Council.Thrown (Council.NoConfidenceError msg "156"))
      <-> total_present vote * 2 >= members vote
          /\ votes_for vote < (members vote * 3 + 4) / 5).
Proof.
  assert (Hceil : votes_for vote >= (members vote * 3 + 4) / 5
                  <-> votes_for vote * 5 >= members vote * 3)
    by (Z.div_mod_to_equations; lia).
  unfold Council.validate_minister_liability.
  destruct (quorum_inequality_dec vote) as [Hq | Hq].
  - rewrite (check_quorum_passes _ Hq). unfold quorum_inequality in Hq.
    cbv zeta.
    destruct (Z.ltb_spec (votes_for vote * 5) (members vote * 3)) as [Hl | Hl].
    + split; [split; [discriminate | lia] |]. split; [exact Hceil |].
      split; [split; [intros (msg & art & Hr & _); discriminate Hr | lia] |].
      split; [intros _; lia | intros _; eexists; reflexivity].
    + split; [split; [intros _; lia | reflexivity] |]. split; [exact Hceil |].
      split; [split; [intros (msg & art & Hr & _); discriminate Hr | lia] |].
      split; [intros (msg & Hr); discriminate Hr | lia].
  - destruct (check_quorum_raises _ Hq) as (msg & art & Hr). rewrite Hr.
    unfold quorum_inequality in Hq.
    split; [split; [discriminate | tauto] |]. split; [exact Hceil |].
    split; [split; [intros _; exact Hq | intros _; exists msg, art; tauto] |].
    split; [intros (msg' & Hr'); discriminate Hr' | tauto].
Qed.

(** X6. [validate_minister_liability] returns [True] exactly when the
    quorum is met and the votes in favour reach three fifths of the
    statutory members, that is [(members * 3 + 4) // 5] votes, the number its
    message quotes.  A missed quorum reaches the caller as the
    [QuorumError] of [check_quorum], not as a [NoConfidenceError]; a met
    quorum with too few votes raises the [NoConfidenceError] of article
    156. *)
Theorem minister_liability_needs_three_fifths_of_members (vote : VoteRecord) :
  (Council.validate_minister_liability vote = Council.Returned true
     <-> total_present vote * 2 >= members vote
         /\ votes_for vote >= (members vote * 3 + 4) / 5)
  /\ (votes_for vote >= (members vote * 3 + 4) / 5
      <-> votes_for vote * 5 >= members vote * 3)
  /\ ((exists msg article,
         Voting.check_quorum vote = Raise (Raised QuorumError msg article)
         /\ Council.validate_minister_liability vote
            = Council.Thrown (Council.Engine (Raised QuorumError msg article)))
      <-> ~ total_present vote * 2 >= members vote)
  /\ ((exists msg,
         Council.validate_minister_liability vote
         = Council.Thrown (Council.NoConfidenceError msg "156"))
      <-> total_present vote * 2 >= members vote
          /\ votes_for vote < (members vote * 3 + 4) / 5).
Proof. exact (minister_liability_cases vote). Qed.

(** X7. The referral threshold is at least as strict as a THREE_FIFTHS
    vote: whenever [validate_minister_liability] returns for a tally with no
    more present than the statutory number, the full THREE_FIFTHS vote
    passes too. *)
Theorem minister_liability_implies_three_fifths_vote (vote : VoteRecord) :
  total_present vote <= members vote ->
  Council.validate_minister_liability vote = Council.Returned true ->
  Voting.passes_vote vote THREE_FIFTHS true = Return true.
Proof.
  intros Hp Hr.
  destruct (minister_liability_cases vote) as (Hiff & Hceil & _).
  apply Hiff in Hr as [Hq Hv]. apply Hceil in Hv.
  apply passes_vote_passing. split; [exact Hq |]. simpl. lia.
Qed.

(** 276 of 460 in favour. *)
Lemma minister_liability_implies_three_fifths_vote_witness :
  total_present (vote_record SEJM 276 150 34)
    <= members (vote_record SEJM 276 150 34)
  /\ Council.validate_minister_liability (vote_record SEJM 276 150 34)
     = Council.Returned true
  /\ Voting.passes_vote (vote_record SEJM 276 150 34) THREE_FIFTHS true
     = Return true.
Proof.
  assert (Hp : total_present (vote_record SEJM 276 150 34)
                 <= members (vote_record SEJM 276 150 34))
    by (vm_compute; discriminate).
  split; [exact Hp |]. split; [reflexivity |].
  exact (minister_liability_implies_three_fifths_vote
           (vote_record SEJM 276 150 34) Hp eq_refl).
Defined.

(** X8. [validate_individual_minister_no_confidence] looks at the
    signatures first: with fewer than 69 it raises the [NoConfidenceError]
    of article 159 whatever the tally; with 69 or more it returns [True]
    exactly when the full SIMPLE vote passes, and otherwise wraps the
    failure of the engine in a [NoConfidenceError] of article 159. *)
Theorem minister_no_confidence_needs_69_signatures
    (str_exn : exn -> string) (vote : VoteRecord) (signatories : Z) :
  (Council.validate_individual_minister_no_confidence str_exn vote signatories
   = Council.Returned true
     <-> 69 <= signatories /\ passing vote SIMPLE)
  /\ (signatories < 69 ->
      Council.validate_individual_minister_no_confidence str_exn vote
        signatories
      = Council.Thrown
          (Council.NoConfidenceError
             ("A motion of no confidence in a minister requires at least "
              +:+ "69 Deputies' signatures, "
              +:+ "got " +:+ str_int signatories +:+ ".")
             "159"))
  /\ (69 <= signatories -> ~ passing vote SIMPLE ->
      exists e,
        Voting.passes_vote vote SIMPLE true = Raise e
        /\ vote_failure e
        /\ Council.validate_individual_minister_no_confidence str_exn vote
             signatories
           = Council.Thrown
               (Council.NoConfidenceError
                  ("Individual minister no-confidence vote failed: "
                   +:+ str_exn e)
                  "159")).
Proof.
  unfold Council.validate_individual_minister_no_confidence,
    Council.MIN_DEPUTIES_FOR_MINISTER_NO_CONFIDENCE.
  destruct (Z.ltb_spec signatories 69) as [Hs | Hs].
  - split; [split; [discriminate | lia] |].
    split; [intros _; reflexivity | lia].
  - split; [| split; [lia |]].
    + destruct (passing_dec vote SIMPLE) as [Hp | Hp].
      * rewrite (passes_vote_passing _ _ Hp). tauto.
      * destruct (passes_vote_failing _ _ Hp) as (e & -> & _).
        split; [discriminate | tauto].
    + intros _ Hp. destruct (passes_vote_failing _ _ Hp) as (e & He & Hf & _).
      exists e. rewrite He. tauto.
Qed.

(** 68 signatures under a passing tally; 69 under a tied one. *)
Lemma minister_no_confidence_needs_69_signatures_witness :
  (exists msg,
     Council.validate_individual_minister_no_confidence message_of
       (vote_record SEJM 250 180 10) 68
     = Council.Thrown (Council.NoConfidenceError msg "159"))
  /\ Council.validate_individual_minister_no_confidence message_of
       (vote_record SEJM 200 210 30) 69
     = Council.Thrown
         (Council.NoConfidenceError
            "Individual minister no-confidence vote failed: Simple majority not reached: 200 for, 210 against"
            "159").
Proof.
  destruct (minister_no_confidence_needs_69_signatures message_of
              (vote_record SEJM 250 180 10) 68) as (_ & Hfew & _).
  destruct (minister_no_confidence_needs_69_signatures message_of
              (vote_record SEJM 200 210 30) 69) as (_ & _ & Hvote).
  split.
  - eexists. apply Hfew. lia.
  - destruct Hvote as (e & He & _ & Hr).
    + lia.
    + intros [_ Hm]. vm_compute in Hm. discriminate Hm.
    + rewrite Hr. vm_compute in He. injection He as <-. reflexivity.
Defined.

(** X23. [validate_constructive_no_confidence] looks at the successor
    first: a motion whose successor is empty, or empty once stripped, raises
    the [NoConfidenceError] of article 158 whatever the tally; with a named
    successor it returns [True] exactly when the full ABSOLUTE vote passes,
    and otherwise wraps the failure of the engine in a [NoConfidenceError]
    of article 158. *)
Theorem constructive_no_confidence_needs_a_successor
    (str_exn : exn -> string) (strip : string -> string)
    (vote : VoteRecord) (successor : string) :
  (Council.validate_constructive_no_confidence str_exn strip vote successor
   = Council.Returned true
     <-> successor <> "" /\ strip successor <> "" /\ passing vote ABSOLUTE)
  /\ (successor = "" \/ strip successor = "" ->
      exists msg,
        Council.validate_constructive_no_confidence str_exn strip vote successor
        = Council.Thrown (Council.NoConfidenceError msg "158"))
  /\ (successor <> "" -> strip successor <> "" -> ~ passing vote ABSOLUTE ->
      exists e,
        Voting.passes_vote vote ABSOLUTE true = Raise e
        /\ vote_failure e
        /\ Council.validate_constructive_no_confidence str_exn strip vote
             successor
           = Council.Thrown
               (Council.NoConfidenceError
                  ("Constructive no-confidence vote failed: " +:+ str_exn e)
                  "158")).
Proof.
  assert (Hempty : forall s, Council.is_empty s = true <-> s = "").
  { intros [| c s]; simpl; split; try reflexivity; discriminate. }
  unfold Council.validate_constructive_no_confidence.
  destruct (Council.is_empty successor) eqn:E1;
    [| destruct (Council.is_empty (strip successor)) eqn:E2]; simpl.
  - apply Hempty in E1.
    split; [split; [discriminate | tauto] |].
    split; [intros _; eexists; reflexivity | tauto].
  - apply Hempty in E2.
    split; [split; [discriminate | tauto] |].
    split; [intros _; eexists; reflexivity | tauto].
  - assert (H1 : successor <> "") by (intros H; apply Hempty in H; congruence).
    assert (H2 : strip successor <> "")
      by (intros H; apply Hempty in H; congruence).
    destruct (passing_dec vote ABSOLUTE) as [Hp | Hp].
    + rewrite (passes_vote_passing _ _ Hp).
      split; [tauto |]. split; [tauto | tauto].
    + destruct (passes_vote_failing _ _ Hp) as (e & He & Hf & _). rewrite He.
      split; [split; [discriminate | tauto] |]. split; [tauto |].
      intros _ _ _. exists e. tauto.
Qed.

(** A passing tally with no successor named. *)
Lemma constructive_no_confidence_needs_a_successor_witness :
  exists msg,
    Council.validate_constructive_no_confidence message_of (fun s => s)
      (vote_record SEJM 231 100 50) ""
    = Council.Thrown (Council.NoConfidenceError msg "158").
Proof.
  destruct (constructive_no_confidence_needs_a_successor message_of
              (fun s => s) (vote_record SEJM 231 100 50) "") as (_ & H & _).
  apply H. now left.
Defined.

(** ** The legislative machine, move by move *)

Section LegislativeMoves.
Import Legislative.
Local Open Scope action_scope.

Lemma plain_cases (sources : list BillStage) article to note self :
  ((stage self ∉ sources)
   /\ snd ((_require_stage sources article ;; _transition to note) self) = self)
  \/ (stage self ∈ sources
      /\ (_require_stage sources article ;; _transition to note) self
         = _transition to note self).
Proof.
  destruct (decide (stage self ∈ sources)) as [Hin | Hn].
  - right. split; [exact Hin |]. now apply guarded_in.
  - left. split; [exact Hn |]. now rewrite guarded_notin.
Qed.

Lemma caught_cases (sources : list BillStage) article house vote kind failure
    to note self :
  let m := _require_stage sources article ;;
           assert (bool_decide (chamber vote = house)) ;;
           try_except (call (Voting.passes_vote vote kind true))
             [QuorumError; MajorityError]
             (fun e => _transition REJECTED failure ;; raise e) ;;
           _transition to note in
  ((stage self ∉ sources) /\ snd (m self) = self)
  \/ (stage self ∈ sources /\ chamber vote ≠ house
      /\ m self = (Raise AssertionError, self))
  \/ (stage self ∈ sources /\ chamber vote = house /\ passing vote kind
      /\ m self = _transition to note self)
  \/ (stage self ∈ sources /\ chamber vote = house /\ ~ passing vote kind
      /\ exists e, vote_failure e
           /\ m self = (Raise e, snd (_transition REJECTED failure self))).
Proof.
  intros m. subst m.
  destruct (decide (stage self ∈ sources)) as [Hin | Hn].
  2: { left. split; [exact Hn |]. now rewrite guarded_notin. }
  right. rewrite guarded_in by exact Hin.
  destruct (decide (chamber vote = house)) as [Hc | Hc].
  2: { left. split; [exact Hin |]. split; [exact Hc |].
       unfold abind at 1, assert.
       rewrite bool_decide_eq_false_2 by exact Hc. reflexivity. }
  right. rewrite asserted by (now apply chamber_is).
  destruct (passing_dec vote kind) as [Hp | Hp].
  - left. rewrite passed_check by exact Hp. tauto.
  - right. destruct (passes_vote_failing _ _ Hp) as (e & Hr & Hf & _).
    rewrite (caught_failure _ _ _ _ _ _ Hr).
    split; [exact Hin |]. split; [exact Hc |]. split; [exact Hp |].
    exists e. split; [exact Hf | reflexivity].
Qed.

Lemma uncaught_cases (sources : list BillStage) article house vote kind
    to note self :
  let m := _require_stage sources article ;;
           assert (bool_decide (chamber vote = house)) ;;
           call (Voting.passes_vote vote kind true) ;;
           _transition to note in
  ((stage self ∉ sources) /\ snd (m self) = self)
  \/ (stage self ∈ sources /\ chamber vote ≠ house
      /\ m self = (Raise AssertionError, self))
  \/ (stage self ∈ sources /\ chamber vote = house /\ passing vote kind
      /\ m self = _transition to note self)
  \/ (stage self ∈ sources /\ chamber vote = house /\ ~ passing vote kind
      /\ exists e, vote_failure e /\ m self = (Raise e, self)).
Proof.
  intros m. subst m.
  destruct (decide (stage self ∈ sources)) as [Hin | Hn].
  2: { left. split; [exact Hn |]. now rewrite guarded_notin. }
  right. rewrite guarded_in by exact Hin.
  destruct (decide (chamber vote = house)) as [Hc | Hc].
  2: { left. split; [exact Hin |]. split; [exact Hc |].
       unfold abind at 1, assert.
       rewrite bool_decide_eq_false_2 by exact Hc. reflexivity. }
  right. rewrite asserted by (now apply chamber_is).
  destruct (passing_dec vote kind) as [Hp | Hp].
  - left. unfold abind, call. rewrite (passes_vote_passing _ _ Hp). tauto.
  - right. destruct (passes_vote_failing _ _ Hp) as (e & Hr & Hf & _).
    rewrite (uncaught_failure _ _ e self Hr).
    split; [exact Hin |]. split; [exact Hc |]. split; [exact Hp |].
    exists e. split; [exact Hf | reflexivity].
Qed.

Ltac at_source H :=
  repeat (apply elem_of_cons in H as [H | H]);
  [ .. | apply elem_of_nil in H; contradiction ].

Lemma legislative_call_follows_step m self :
  snd (perform m self) = self
  \/ exists to note,
       legislative_step m (stage self) to
       /\ snd (perform m self) = snd (_transition to note self).
Proof.
  destruct m; unfold perform.
  all: match goal with
       | |- context [sejm_vote ?v] =>
           unfold sejm_vote;
           destruct (caught_cases [SEJM_DELIBERATION] "120" SEJM v SIMPLE
                       "Sejm rejected" SEJM_PASSED
                       ("Passed " +:+ str_int (votes_for v) +:+ "-"
                        +:+ str_int (votes_against v)) self)
             as [[_ H] | [(_ & _ & H) | [(Hin & Hc & Hp & H)
                                        | (Hin & Hc & Hp & e & _ & H)]]]
       | |- context [sejm_override_senate ?v] =>
           unfold sejm_override_senate;
           destruct (caught_cases [SENATE_AMENDED; SENATE_REJECTED] "121(3)"
                       SEJM v ABSOLUTE "Sejm failed to override Senate"
                       SEJM_OVERRIDE_VOTE "Sejm overrode Senate" self)
             as [[_ H] | [(_ & _ & H) | [(Hin & Hc & Hp & H)
                                        | (Hin & Hc & Hp & e & _ & H)]]]
       | |- context [sejm_override_veto ?v] =>
           unfold sejm_override_veto;
           destruct (caught_cases [VETOED] "122(5)" SEJM v THREE_FIFTHS
                       "Veto override failed" VETO_OVERRIDDEN
                       "Veto overridden by 3/5 Sejm" self)
             as [[_ H] | [(_ & _ & H) | [(Hin & Hc & Hp & H)
                                        | (Hin & Hc & Hp & e & _ & H)]]]
       | |- context [senate_amends ?v] =>
           unfold senate_amends;
           destruct (uncaught_cases [SENATE_DELIBERATION] "121(2)" SENATE v
                       SIMPLE SENATE_AMENDED "Senate proposed amendments" self)
             as [[_ H] | [(_ & _ & H) | [(Hin & Hc & Hp & H)
                                        | (_ & _ & _ & e & _ & H)]]]
       | |- context [senate_rejects ?v] =>
           unfold senate_rejects;
           destruct (uncaught_cases [SENATE_DELIBERATION] "121(2)" SENATE v
                       SIMPLE SENATE_REJECTED "Senate rejected" self)
             as [[_ H] | [(_ & _ & H) | [(Hin & Hc & Hp & H)
                                        | (_ & _ & _ & e & _ & H)]]]
       | |- snd (?f ?x) = ?x \/ _ =>
           unfold f;
           match goal with
           | |- context [(_require_stage ?s ?a ;; _transition ?t ?n) x] =>
               destruct (plain_cases s a t n x) as [[_ H] | [Hin H]]
           end
       end.
  all: rewrite H; try (left; reflexivity).
  all: right; do 2 eexists; (split; [| reflexivity]).
  all: at_source Hin; rewrite Hin; try (now constructor);
       try (constructor; tauto).
Qed.

Lemma legislative_step_is_made m self to :
  legislative_step m (stage self) to ->
  exists note,
    snd (perform m self) = snd (_transition to note self)
    /\ (fst (perform m self) = Return tt
        \/ exists e, vote_failure e /\ fst (perform m self) = Raise e
                     /\ to = REJECTED).
Proof.
  intros Hs. remember (stage self) as from eqn:Hfrom.
  destruct Hs; unfold perform.
  all: try match goal with H : _ \/ _ |- _ => destruct H as [-> | ->] end.
  all: match goal with
       | |- context [snd (?f ?v ?x)] => unfold f
       | |- context [snd (?f ?x)] => unfold f
       end.
  all: rewrite guarded_in by (rewrite <- Hfrom; first [left | right; left]).
  all: try rewrite asserted by (now apply chamber_is).
  all: try rewrite passed_check by assumption.
  all: try match goal with
           | Hp : ~ passing _ _ |- _ =>
               destruct (passes_vote_failing _ _ Hp) as (e & Hr & Hf & _);
               rewrite (caught_failure _ _ _ _ _ _ Hr)
           end.
  all: try match goal with
           | Hp : passing _ _ |- context [call _] =>
               unfold abind, call; rewrite (passes_vote_passing _ _ Hp)
           end.
  all: eexists; (split; [reflexivity |]).
  all: first [ left; reflexivity
             | right; eexists; split; [eassumption | split; reflexivity] ].
Qed.

End LegislativeMoves.

(** X9. The legislative machine makes exactly the moves of
    [legislative_step].  A call either leaves the machine as it was, or it
    makes a move of the relation from the current stage and records it as
    one history entry; and every move the relation allows from the current
    stage is made by the call, which returns normally unless the move is the
    rejection after a failed vote, when it raises the error of the vote. *)
Theorem legislative_machine_follows_step_relation
    (m : Legislative.method) (self : Legislative.LegislativeProcess) :
  (snd (Legislative.perform m self) = self
   \/ exists to note,
        legislative_step m (Legislative.stage self) to
        /\ snd (Legislative.perform m self)
           = snd (Legislative._transition to note self))
  /\ (forall to,
        legislative_step m (Legislative.stage self) to ->
        exists note,
          snd (Legislative.perform m self)
          = snd (Legislative._transition to note self)
          /\ (fst (Legislative.perform m self) = Return tt
              \/ exists e, vote_failure e
                   /\ fst (Legislative.perform m self) = Raise e
                   /\ to = Legislative.REJECTED)).
Proof.
  split.
  - apply legislative_call_follows_step.
  - intros to. apply legislative_step_is_made.
Qed.

(** The Sejm override of a Senate amendment, passed by 231 votes. *)
Lemma legislative_machine_follows_step_relation_witness :
  exists note,
    snd (Legislative.sejm_override_senate (vote_record SEJM 231 100 50)
           {| Legislative.bill := sample_bill;
              Legislative.stage := Legislative.SENATE_AMENDED;
              Legislative.history := [] |})
    = {| Legislative.bill := sample_bill;
         Legislative.stage := Legislative.SEJM_OVERRIDE_VOTE;
         Legislative.history :=
           ["SENATE_AMENDED -> SEJM_OVERRIDE_VOTE: " +:+ note] |}.
Proof.
  destruct (legislative_machine_follows_step_relation
              (Legislative.m_sejm_override_senate (vote_record SEJM 231 100 50))
              {| Legislative.bill := sample_bill;
                 Legislative.stage := Legislative.SENATE_AMENDED;
                 Legislative.history := [] |}) as (_ & Hmade).
  destruct (Hmade Legislative.SEJM_OVERRIDE_VOTE) as (note & Hr & _).
  - apply step_sejm_override_senate_passed.
    + now left.
    + reflexivity.
    + split; vm_compute; [discriminate | reflexivity].
  - exists note. exact Hr.
Defined.

Ltac not_a_source :=
  let H := fresh in
  intros H; repeat (apply elem_of_cons in H as [H | H]; [discriminate H |]);
  apply elem_of_nil in H; contradiction.

Lemma drive_fixed {St Call} (perform : Call -> action St unit) (self : St) :
  (forall c, snd (perform c self) = self) ->
  forall calls, drive perform calls self = self.
Proof.
  intros Hfix calls. induction calls as [| c calls IH]; [reflexivity |].
  simpl. rewrite Hfix. exact IH.
Qed.

(** X10. ENACTED and REJECTED are terminal in the legislative machine: there
    every method raises [LegislativeProcessError] and leaves the machine as
    it was, so no sequence of calls changes an enacted or rejected bill or
    its history. *)
Theorem legislative_terminal_stages (self : Legislative.LegislativeProcess) :
  Legislative.stage self = Legislative.ENACTED
  \/ Legislative.stage self = Legislative.REJECTED ->
  (forall m, exists msg article,
     Legislative.perform m self
     = (Raise (Raised LegislativeProcessError msg article), self))
  /\ (forall calls, drive Legislative.perform calls self = self).
Proof.
  intros Hterminal.
  assert (Hraise : forall m, exists msg article,
            Legislative.perform m self
            = (Raise (Raised LegislativeProcessError msg article), self)).
  { intros m. destruct (legislative_illegal_call m) as [Hr _].
    destruct (Hr self) as (msg & art & Hcall & _).
    - destruct Hterminal as [-> | ->]; destruct m; simpl; not_a_source.
    - now exists msg, art. }
  split; [exact Hraise |].
  apply drive_fixed. intros m. destruct (Hraise m) as (msg & art & ->).
  reflexivity.
Qed.

(** The sample bill, rejected by the Sejm, cannot be enacted. *)
Lemma legislative_terminal_stages_witness :
  Legislative.stage (snd (Legislative.sejm_vote sejm_fail_vote bill_in_sejm))
  = Legislative.REJECTED
  /\ drive Legislative.perform
       [Legislative.m_sejm_vote sejm_pass_vote; Legislative.m_enact]
       (snd (Legislative.sejm_vote sejm_fail_vote bill_in_sejm))
     = snd (Legislative.sejm_vote sejm_fail_vote bill_in_sejm).
Proof.
  split; [reflexivity |].
  destruct (legislative_terminal_stages
              (snd (Legislative.sejm_vote sejm_fail_vote bill_in_sejm)))
    as (_ & Hdrive).
  - right. reflexivity.
  - apply Hdrive.
Defined.

(** X11. A tally of the wrong chamber is refused before it is counted: each
    of the five vote-bearing methods, called in one of its source stages
    with a tally of the other chamber, raises [AssertionError] and leaves
    the machine as it was, whether the tally would pass or fail. *)
Theorem legislative_wrong_chamber_is_refused
    (self : Legislative.LegislativeProcess) (vote : VoteRecord) :
  (Legislative.stage self = Legislative.SEJM_DELIBERATION ->
   chamber vote = SENATE ->
   Legislative.sejm_vote vote self = (Raise AssertionError, self))
  /\ (Legislative.stage self = Legislative.SENATE_DELIBERATION ->
      chamber vote = SEJM ->
      Legislative.senate_amends vote self = (Raise AssertionError, self)
      /\ Legislative.senate_rejects vote self = (Raise AssertionError, self))
  /\ (Legislative.stage self = Legislative.SENATE_AMENDED
      \/ Legislative.stage self = Legislative.SENATE_REJECTED ->
      chamber vote = SENATE ->
      Legislative.sejm_override_senate vote self = (Raise AssertionError, self))
  /\ (Legislative.stage self = Legislative.VETOED ->
      chamber vote = SENATE ->
      Legislative.sejm_override_veto vote self = (Raise AssertionError, self)).
Proof.
  assert (Hne : SENATE ≠ SEJM) by discriminate.
  assert (Hne' : SEJM ≠ SENATE) by discriminate.
  split; [| split; [| split]]; [intros Hs Hc | intros Hs Hc; split | intros Hs Hc | intros Hs Hc].
  - destruct (caught_cases [Legislative.SEJM_DELIBERATION] "120" SEJM vote
                SIMPLE "Sejm rejected" Legislative.SEJM_PASSED
                ("Passed " +:+ str_int (votes_for vote) +:+ "-"
                 +:+ str_int (votes_against vote)) self)
      as [[Hn _] | [(_ & _ & H) | [(_ & Hc' & _) | (_ & Hc' & _)]]];
      [ exfalso; apply Hn; rewrite Hs; left | exact H | congruence | congruence ].
  - destruct (uncaught_cases [Legislative.SENATE_DELIBERATION] "121(2)" SENATE
                vote SIMPLE Legislative.SENATE_AMENDED
                "Senate proposed amendments" self)
      as [[Hn _] | [(_ & _ & H) | [(_ & Hc' & _) | (_ & Hc' & _)]]];
      [ exfalso; apply Hn; rewrite Hs; left | exact H | congruence | congruence ].
  - destruct (uncaught_cases [Legislative.SENATE_DELIBERATION] "121(2)" SENATE
                vote SIMPLE Legislative.SENATE_REJECTED "Senate rejected" self)
      as [[Hn _] | [(_ & _ & H) | [(_ & Hc' & _) | (_ & Hc' & _)]]];
      [ exfalso; apply Hn; rewrite Hs; left | exact H | congruence | congruence ].
  - destruct (caught_cases
                [Legislative.SENATE_AMENDED; Legislative.SENATE_REJECTED]
                "121(3)" SEJM vote ABSOLUTE "Sejm failed to override Senate"
                Legislative.SEJM_OVERRIDE_VOTE "Sejm overrode Senate" self)
      as [[Hn _] | [(_ & _ & H) | [(_ & Hc' & _) | (_ & Hc' & _)]]];
      [ exfalso; apply Hn; destruct Hs as [-> | ->]; [left | right; left]
      | exact H | congruence | congruence ].
  - destruct (caught_cases [Legislative.VETOED] "122(5)" SEJM vote THREE_FIFTHS
                "Veto override failed" Legislative.VETO_OVERRIDDEN
                "Veto overridden by 3/5 Sejm" self)
      as [[Hn _] | [(_ & _ & H) | [(_ & Hc' & _) | (_ & Hc' & _)]]];
      [ exfalso; apply Hn; rewrite Hs; left | exact H | congruence | congruence ].
Qed.

(** A winning Senate tally handed to the Sejm vote. *)
Lemma legislative_wrong_chamber_is_refused_witness :
  Legislative.sejm_vote (vote_record SENATE 55 40 5) bill_in_sejm
  = (Raise AssertionError, bill_in_sejm).
Proof.
  destruct (legislative_wrong_chamber_is_refused bill_in_sejm
              (vote_record SENATE 55 40 5)) as (H & _).
  apply H; reflexivity.
Defined.

(** ** The history as a record of the stages *)

Lemma render_snoc from steps to note :
  render from (steps ++ [(to, note)])
  = render from steps ++
      [Legislative.name (arrival from steps) +:+ " -> "
       +:+ Legislative.name to +:+ ": " +:+ note].
Proof.
  revert from. induction steps as [| [s n] steps IH]; intros from.
  - reflexivity.
  - simpl. now rewrite IH.
Qed.

Lemma arrival_snoc from steps to note :
  arrival from (steps ++ [(to, note)]) = to.
Proof.
  revert from. induction steps as [| [s n] steps IH]; intros from.
  - reflexivity.
  - simpl. apply IH.
Qed.

Lemma walk_snoc from steps to note :
  walk from steps ->
  (exists m, legislative_step m (arrival from steps) to) ->
  walk from (steps ++ [(to, note)]).
Proof.
  revert from. induction steps as [| [s n] steps IH]; intros from Hw Hm.
  - simpl. tauto.
  - simpl in *. destruct Hw as [Hfirst Hrest]. split; [exact Hfirst |].
    now apply IH.
Qed.

Lemma length_render from steps : length (render from steps) = length steps.
Proof.
  revert from. induction steps as [| [s n] steps IH]; intros from.
  - reflexivity.
  - simpl. now rewrite IH.
Qed.

Lemma drive_keeps_walk calls self steps :
  walk Legislative.INITIATED steps ->
  Legislative.history self = render Legislative.INITIATED steps ->
  Legislative.stage self = arrival Legislative.INITIATED steps ->
  exists steps',
    walk Legislative.INITIATED steps'
    /\ Legislative.history (drive Legislative.perform calls self)
       = render Legislative.INITIATED steps'
    /\ Legislative.stage (drive Legislative.perform calls self)
       = arrival Legislative.INITIATED steps'.
Proof.
  revert self steps. induction calls as [| c calls IH]; intros self steps Hw Hh Hs.
  - exists steps. tauto.
  - simpl.
    destruct (legislative_call_follows_step c self)
      as [-> | (to & note & Hstep & ->)].
    + now apply (IH self steps).
    + apply (IH _ (steps ++ [(to, note)])).
      * apply walk_snoc; [exact Hw |]. exists c. now rewrite <- Hs.
      * simpl. now rewrite render_snoc, Hh, Hs.
      * simpl. now rewrite arrival_snoc.
Qed.

(** X12. The history replays the stages.  Whatever calls are made on a fresh
    bill, succeeding or raising, its history is the record of a walk that
    starts at INITIATED, makes only moves of the machine, writes the entry
    "FROM -> TO: note" for each move, and ends at the current stage; the
    number of entries is the number of moves. *)
Theorem history_replays_the_stages
    (b : Legislative.Bill) (calls : list Legislative.method) :
  exists steps,
    walk Legislative.INITIATED steps
    /\ Legislative.history (drive Legislative.perform calls (Legislative.new b))
       = render Legislative.INITIATED steps
    /\ Legislative.stage (drive Legislative.perform calls (Legislative.new b))
       = arrival Legislative.INITIATED steps
    /\ length (Legislative.history
                 (drive Legislative.perform calls (Legislative.new b)))
       = length steps.
Proof.
  destruct (drive_keeps_walk calls (Legislative.new b) [])
    as (steps & Hw & Hh & Hs); try reflexivity.
  exists steps. split; [exact Hw |]. split; [exact Hh |]. split; [exact Hs |].
  rewrite Hh. apply length_render.
Qed.

(** ** What enactment takes *)

Lemma entering_takes_a_call (P : Legislative.BillStage -> Prop)
    (Q : Legislative.method -> Prop) :
  (forall m a b, legislative_step m a b -> P b -> P a \/ Q m) ->
  forall calls self,
    P (Legislative.stage (drive Legislative.perform calls self)) ->
    P (Legislative.stage self) \/ exists m, m ∈ calls /\ Q m.
Proof.
  intros Hstep calls. induction calls as [| c calls IH]; intros self HP.
  - now left.
  - simpl in HP. destruct (IH _ HP) as [HP' | (m & Hin & HQ)].
    + destruct (legislative_call_follows_step c self)
        as [Hsame | (to & note & Hs & Hr)].
      * left. now rewrite Hsame in HP'.
      * rewrite Hr in HP'. simpl in HP'.
        destruct (Hstep _ _ _ Hs HP') as [Ha | Hq]; [now left |].
        right. exists c. split; [left | exact Hq].
    + right. exists m. split; [now right | exact HQ].
Qed.

(** X13. No bill becomes law without its votes.  If any sequence of calls
    takes a fresh bill to ENACTED, then among the calls there are a Sejm
    vote with a passing Sejm tally (quorum and simple majority); the Senate
    accepting the bill or voting amendments or rejection with a passing
    Senate tally; the President signing (with or without exclusions) or a
    veto override with a Sejm tally passing THREE_FIFTHS; and [enact]. *)
Theorem enactment_takes_the_votes
    (b : Legislative.Bill) (calls : list Legislative.method) :
  Legislative.stage (drive Legislative.perform calls (Legislative.new b))
  = Legislative.ENACTED ->
  (exists vote,
     Legislative.m_sejm_vote vote ∈ calls
     /\ chamber vote = SEJM /\ passing vote SIMPLE)
  /\ (Legislative.m_senate_accepts ∈ calls
      \/ exists vote,
           (Legislative.m_senate_amends vote ∈ calls
            \/ Legislative.m_senate_rejects vote ∈ calls)
           /\ chamber vote = SENATE /\ passing vote SIMPLE)
  /\ (Legislative.m_president_signs ∈ calls
      \/ Legislative.m_president_signs_with_exclusions ∈ calls
      \/ exists vote,
           Legislative.m_sejm_override_veto vote ∈ calls
           /\ chamber vote = SEJM /\ passing vote THREE_FIFTHS)
  /\ Legislative.m_enact ∈ calls.
Proof.
  intros Henacted.
  split; [| split; [| split]].
  - destruct (entering_takes_a_call passed_by_sejm
                (fun m => exists vote, m = Legislative.m_sejm_vote vote
                            /\ chamber vote = SEJM /\ passing vote SIMPLE))
      with (calls := calls) (self := Legislative.new b)
      as [[] | (m & Hin & vote & -> & Hv)].
    + intros m a c Hs HP.
      destruct Hs;
        repeat match goal with H : _ \/ _ |- _ => destruct H as [-> | ->] end;
        simpl in *; eauto.
    + now rewrite Henacted.
    + now exists vote.
  - destruct (entering_takes_a_call past_senate
                (fun m => m = Legislative.m_senate_accepts
                          \/ exists vote,
                               (m = Legislative.m_senate_amends vote
                                \/ m = Legislative.m_senate_rejects vote)
                               /\ chamber vote = SENATE /\ passing vote SIMPLE))
      with (calls := calls) (self := Legislative.new b)
      as [[] | (m & Hin & [-> | (vote & [-> | ->] & Hv)])].
    + intros m a c Hs HP.
      destruct Hs;
        repeat match goal with H : _ \/ _ |- _ => destruct H as [-> | ->] end;
        simpl in *; eauto 10.
    + now rewrite Henacted.
    + now left.
    + right. exists vote. tauto.
    + right. exists vote. tauto.
  - destruct (entering_takes_a_call ready_to_enact
                (fun m => m = Legislative.m_president_signs
                          \/ m = Legislative.m_president_signs_with_exclusions
                          \/ exists vote,
                               m = Legislative.m_sejm_override_veto vote
                               /\ chamber vote = SEJM
                               /\ passing vote THREE_FIFTHS))
      with (calls := calls) (self := Legislative.new b)
      as [[] | (m & Hin & [-> | [-> | (vote & -> & Hv)]])].
    + intros m a c Hs HP.
      destruct Hs;
        repeat match goal with H : _ \/ _ |- _ => destruct H as [-> | ->] end;
        simpl in *; eauto 10.
    + now rewrite Henacted.
    + now left.
    + right. now left.
    + right. right. now exists vote.
  - destruct (entering_takes_a_call (fun s => s = Legislative.ENACTED)
                (fun m => m = Legislative.m_enact))
      with (calls := calls) (self := Legislative.new b)
      as [Hnew | (m & Hin & ->)].
    + intros m a c Hs HP. destruct Hs; try discriminate HP. now right.
    + exact Henacted.
    + discriminate Hnew.
    + exact Hin.
Qed.

(** The happy path, as a list of calls. *)
Lemma enactment_takes_the_votes_witness :
  Legislative.stage
    (drive Legislative.perform
       [Legislative.m_begin_sejm_deliberation;
        Legislative.m_sejm_vote sejm_pass_vote;
        Legislative.m_send_to_senate;
        Legislative.m_senate_accepts;
        Legislative.m_send_to_president;
        Legislative.m_president_signs;
        Legislative.m_enact] (Legislative.new sample_bill))
  = Legislative.ENACTED
  /\ exists vote, chamber vote = SEJM /\ passing vote SIMPLE.
Proof.
  split; [reflexivity |].
  destruct (enactment_takes_the_votes sample_bill
              [Legislative.m_begin_sejm_deliberation;
               Legislative.m_sejm_vote sejm_pass_vote;
               Legislative.m_send_to_senate;
               Legislative.m_senate_accepts;
               Legislative.m_send_to_president;
               Legislative.m_president_signs;
               Legislative.m_enact] eq_refl) as ((vote & _ & Hv) & _).
  now exists vote.
Defined.

(** ** Routes after the President's review *)

(** X14. The machine is re-entrant.  From PARTIALLY_UNCONSTITUTIONAL the
    President can return the bill to the Sejm, and the whole procedure runs
    a second time: with a passing Sejm vote the bill goes through the
    Senate and the President again and is enacted, its earlier history kept
    and seven entries added. *)
Theorem returned_bill_runs_a_second_pass
    (self : Legislative.LegislativeProcess) (vote : VoteRecord) :
  Legislative.stage self = Legislative.PARTIALLY_UNCONSTITUTIONAL ->
  chamber vote = SEJM ->
  passing vote SIMPLE ->
  Legislative.stage (snd (Legislative.president_returns_to_sejm self))
  = Legislative.SEJM_DELIBERATION
  /\ exists enacted,
       run [Legislative.president_returns_to_sejm;
            Legislative.sejm_vote vote;
            Legislative.send_to_senate;
            Legislative.senate_accepts;
            Legislative.send_to_president;
            Legislative.president_signs;
            Legislative.enact] self
       = (Return tt, enacted)
       /\ Legislative.stage enacted = Legislative.ENACTED
       /\ Legislative.history self `prefix_of` Legislative.history enacted
       /\ length (Legislative.history enacted)
          = (length (Legislative.history self) + 7)%nat.
Proof.
  intros Hs Hc Hp. destruct self as [b s h]. simpl in Hs. subst s.
  split; [reflexivity |].
  unfold run. unfold abind at 1.
  change (Legislative.president_returns_to_sejm
            {| Legislative.bill := b;
               Legislative.stage := Legislative.PARTIALLY_UNCONSTITUTIONAL;
               Legislative.history := h |})
    with (Return tt,
          {| Legislative.bill := b;
             Legislative.stage := Legislative.SEJM_DELIBERATION;
             Legislative.history :=
               h ++ ["PARTIALLY_UNCONSTITUTIONAL -> SEJM_DELIBERATION: Returned to Sejm for removal of unconstitutionality"] |}).
  cbv iota beta. unfold abind at 1. unfold Legislative.sejm_vote.
  rewrite guarded_in by left.
  rewrite asserted by (now apply chamber_is).
  rewrite passed_check by exact Hp.
  eexists. split; [reflexivity |]. split; [reflexivity |]. simpl. split.
  - repeat rewrite <- app_assoc. now apply prefix_app_r.
  - repeat rewrite length_app. simpl. lia.
Qed.

(** A bill found partially unconstitutional, returned and passed again. *)
Lemma returned_bill_runs_a_second_pass_witness :
  exists enacted,
    run [Legislative.president_returns_to_sejm;
         Legislative.sejm_vote sejm_pass_vote;
         Legislative.send_to_senate;
         Legislative.senate_accepts;
         Legislative.send_to_president;
         Legislative.president_signs;
         Legislative.enact]
        {| Legislative.bill := sample_bill;
           Legislative.stage := Legislative.PARTIALLY_UNCONSTITUTIONAL;
           Legislative.history := [] |}
    = (Return tt, enacted)
    /\ Legislative.stage enacted = Legislative.ENACTED.
Proof.
  destruct (returned_bill_runs_a_second_pass
              {| Legislative.bill := sample_bill;
                 Legislative.stage := Legislative.PARTIALLY_UNCONSTITUTIONAL;
                 Legislative.history := [] |} sejm_pass_vote eq_refl eq_refl)
    as (_ & enacted & Hrun & Hs & _).
  - split; vm_compute; [discriminate | reflexivity].
  - exists enacted. split; [exact Hrun | exact Hs].
Defined.

(** X15. A vetoed bill is decided by one Sejm vote: if the tally passes
    quorum and THREE_FIFTHS the veto is overridden and [enact] makes the
    bill law; if it does not, the override raises the error of the vote, the
    bill is REJECTED and [enact] is not reached.  With all 460 voting, 276
    in favour override the veto and 275 do not. *)
Theorem veto_is_decided_by_three_fifths
    (self : Legislative.LegislativeProcess) (vote : VoteRecord) :
  Legislative.stage self = Legislative.VETOED ->
  chamber vote = SEJM ->
  (passing vote THREE_FIFTHS ->
   exists enacted,
     run [Legislative.sejm_override_veto vote; Legislative.enact] self
     = (Return tt, enacted)
     /\ Legislative.stage enacted = Legislative.ENACTED)
  /\ (~ passing vote THREE_FIFTHS ->
      exists e rejected,
        vote_failure e
        /\ run [Legislative.sejm_override_veto vote; Legislative.enact] self
           = (Raise e, rejected)
        /\ Legislative.stage rejected = Legislative.REJECTED)
  /\ passing (vote_record SEJM 276 184 0) THREE_FIFTHS
  /\ ~ passing (vote_record SEJM 275 185 0) THREE_FIFTHS.
Proof.
  intros Hs Hc. destruct self as [b s h]. simpl in Hs. subst s.
  split; [| split; [| split]].
  - intros Hp. unfold run. unfold abind at 1. unfold Legislative.sejm_override_veto.
    rewrite guarded_in by left.
    rewrite asserted by (now apply chamber_is).
    rewrite passed_check by exact Hp.
    eexists. split; reflexivity.
  - intros Hp. destruct (passes_vote_failing _ _ Hp) as (e & Hr & Hf & _).
    unfold run. unfold abind at 1. unfold Legislative.sejm_override_veto.
    rewrite guarded_in by left.
    rewrite asserted by (now apply chamber_is).
    rewrite (caught_failure _ _ _ _ _ _ Hr).
    exists e. eexists. split; [exact Hf |]. split; reflexivity.
  - split; vm_compute; [discriminate | discriminate].
  - intros [_ Hm]. vm_compute in Hm. now apply Hm.
Qed.

(** The 280-160-20 override, and the 250-180-10 one that fails. *)
Lemma veto_is_decided_by_three_fifths_witness :
  (exists enacted,
     run [Legislative.sejm_override_veto (vote_record SEJM 280 160 20);
          Legislative.enact]
         {| Legislative.bill := sample_bill;
            Legislative.stage := Legislative.VETOED;
            Legislative.history := [] |}
     = (Return tt, enacted)
     /\ Legislative.stage enacted = Legislative.ENACTED)
  /\ (exists e rejected,
        run [Legislative.sejm_override_veto (vote_record SEJM 250 180 10);
             Legislative.enact]
            {| Legislative.bill := sample_bill;
               Legislative.stage := Legislative.VETOED;
               Legislative.history := [] |}
        = (Raise e, rejected)
        /\ Legislative.stage rejected = Legislative.REJECTED).
Proof.
  split.
  - destruct (veto_is_decided_by_three_fifths
                {| Legislative.bill := sample_bill;
                   Legislative.stage := Legislative.VETOED;
                   Legislative.history := [] |}
                (vote_record SEJM 280 160 20) eq_refl eq_refl) as (H & _).
    apply H. split; vm_compute; discriminate.
  - destruct (veto_is_decided_by_three_fifths
                {| Legislative.bill := sample_bill;
                   Legislative.stage := Legislative.VETOED;
                   Legislative.history := [] |}
                (vote_record SEJM 250 180 10) eq_refl eq_refl) as (_ & H & _).
    destruct H as (e & rejected & _ & Hrun & Hst).
    + intros [_ Hm]. vm_compute in Hm. now apply Hm.
    + now exists e, rejected.
Defined.

(** ** The amendment machine, move by move *)

Section AmendmentMoves.
Import Amendment.
Local Open Scope action_scope.

Lemma amendment_vote_cases house vote kind to self :
  let m := assert (bool_decide (chamber vote = house)) ;;
           try_except (call (Voting.passes_vote vote kind true))
             [QuorumError; MajorityError]
             (fun e => set_stage REJECTED ;; raise e) ;;
           set_stage to in
  (chamber vote ≠ house /\ m self = (Raise AssertionError, self))
  \/ (chamber vote = house /\ passing vote kind
      /\ m self = (Return tt, snd (set_stage to self)))
  \/ (chamber vote = house /\ ~ passing vote kind
      /\ exists e, vote_failure e
           /\ Voting.passes_vote vote kind true = Raise e
           /\ m self = (Raise e, snd (set_stage REJECTED self))).
Proof.
  intros m. subst m. unfold abind at 1, assert.
  destruct (decide (chamber vote = house)) as [Hc | Hc].
  - rewrite bool_decide_eq_true_2 by exact Hc. right.
    unfold aret, abind, try_except, call.
    destruct (passing_dec vote kind) as [Hp | Hp].
    + left. rewrite (passes_vote_passing _ _ Hp). tauto.
    + right. destruct (passes_vote_failing _ _ Hp) as (e & Hr & Hf & Hi).
      rewrite Hr, Hi. split; [exact Hc |]. split; [exact Hp |].
      exists e. tauto.
  - rewrite bool_decide_eq_false_2 by exact Hc. left. tauto.
Qed.

Lemma amendment_guard (s : AmendmentStage) self :
  stage self = s -> bool_decide (stage self ≠ s) = false.
Proof. intros H. apply bool_decide_eq_false_2. intros Hn. exact (Hn H). Qed.

Lemma amendment_call_follows_step m self :
  snd (perform m self) = self
  \/ exists to,
       amendment_step (affected_chapters self) m (stage self) to
       /\ snd (perform m self) = amended self m to.
Proof.
  destruct (decide (stage self ∈ source_stages m)) as [Hin | Hn].
  2: { left. destruct (amendment_illegal_call m self Hn)
         as (msg & art & Hr & _). now rewrite Hr. }
  destruct m; simpl in Hin; unfold perform.
  - apply list_elem_of_singleton in Hin. unfold first_reading.
    rewrite (amendment_guard _ _ Hin). right. eexists.
    split; [rewrite Hin; constructor | reflexivity].
  - apply list_elem_of_singleton in Hin. unfold sejm_vote.
    rewrite (amendment_guard _ _ Hin).
    destruct (amendment_vote_cases SEJM vote TWO_THIRDS SEJM_PASSED self)
      as [(_ & ->) | [(Hc & Hp & ->) | (Hc & Hp & e & _ & _ & ->)]].
    + now left.
    + right. eexists. split; [rewrite Hin; now constructor | reflexivity].
    + right. eexists. split; [rewrite Hin; now constructor | reflexivity].
  - apply list_elem_of_singleton in Hin. unfold senate_vote.
    rewrite (amendment_guard _ _ Hin).
    destruct (amendment_vote_cases SENATE vote ABSOLUTE SENATE_PASSED self)
      as [(_ & ->) | [(Hc & Hp & ->) | (Hc & Hp & e & _ & _ & ->)]].
    + now left.
    + right. eexists. split; [rewrite Hin; now constructor | reflexivity].
    + right. eexists. split; [rewrite Hin; now constructor | reflexivity].
  - apply list_elem_of_singleton in Hin. unfold request_referendum.
    rewrite (amendment_guard _ _ Hin).
    destruct (decide (affected_chapters self ∩ REFERENDUM_CHAPTERS ≠ ∅))
      as [Ht | Ht].
    + rewrite (touches_protected_true _ Ht). right. eexists.
      split; [rewrite Hin; now constructor | reflexivity].
    + rewrite (touches_protected_false _ Ht). now left.
  - apply list_elem_of_singleton in Hin. unfold referendum_result.
    rewrite (amendment_guard _ _ Hin). right.
    destruct approved; eexists;
      (split; [rewrite Hin; constructor | reflexivity]).
  - unfold president_sign. cbv zeta.
    rewrite bool_decide_eq_false_2 by (intros Hn; exact (Hn Hin)).
    right. eexists. split; [| reflexivity].
    constructor. apply elem_of_cons in Hin as [Hin | Hin]; [now left |].
    apply list_elem_of_singleton in Hin. now right.
  - apply list_elem_of_singleton in Hin. unfold complete.
    rewrite (amendment_guard _ _ Hin). right. eexists.
    split; [rewrite Hin; constructor | reflexivity].
Qed.

End AmendmentMoves.

Section AmendmentProperties.
Import Amendment.
Local Open Scope action_scope.

Lemma amendment_step_is_made m self to :
  amendment_step (affected_chapters self) m (stage self) to ->
  snd (perform m self) = amended self m to
  /\ (fst (perform m self) = Return tt
      \/ exists e, vote_failure e /\ fst (perform m self) = Raise e
                   /\ to = REJECTED).
Proof.
  intros Hs. remember (stage self) as from eqn:Hfrom. symmetry in Hfrom.
  destruct Hs; unfold perform.
  - unfold first_reading. rewrite (amendment_guard _ _ Hfrom).
    split; [reflexivity | now left].
  - unfold sejm_vote. rewrite (amendment_guard _ _ Hfrom).
    destruct (amendment_vote_cases SEJM vote TWO_THIRDS SEJM_PASSED self)
      as [(Hc & _) | [(_ & _ & ->) | (_ & Hp & _)]];
      [congruence | split; [reflexivity | now left] | tauto].
  - unfold sejm_vote. rewrite (amendment_guard _ _ Hfrom).
    destruct (amendment_vote_cases SEJM vote TWO_THIRDS SEJM_PASSED self)
      as [(Hc & _) | [(_ & Hp & _) | (_ & _ & e & Hf & _ & ->)]];
      [congruence | tauto |].
    split; [reflexivity |]. right. exists e. tauto.
  - unfold senate_vote. rewrite (amendment_guard _ _ Hfrom).
    destruct (amendment_vote_cases SENATE vote ABSOLUTE SENATE_PASSED self)
      as [(Hc & _) | [(_ & _ & ->) | (_ & Hp & _)]];
      [congruence | split; [reflexivity | now left] | tauto].
  - unfold senate_vote. rewrite (amendment_guard _ _ Hfrom).
    destruct (amendment_vote_cases SENATE vote ABSOLUTE SENATE_PASSED self)
      as [(Hc & _) | [(_ & Hp & _) | (_ & _ & e & Hf & _ & ->)]];
      [congruence | tauto |].
    split; [reflexivity |]. right. exists e. tauto.
  - unfold request_referendum. rewrite (amendment_guard _ _ Hfrom).
    rewrite touches_protected_true by assumption.
    split; [reflexivity | now left].
  - unfold referendum_result. rewrite (amendment_guard _ _ Hfrom).
    split; [reflexivity | now left].
  - unfold referendum_result. rewrite (amendment_guard _ _ Hfrom).
    split; [reflexivity | now left].
  - unfold president_sign. cbv zeta.
    rewrite bool_decide_eq_false_2.
    + split; [reflexivity | now left].
    + intros Hn. apply Hn. rewrite Hfrom.
      destruct H as [-> | ->]; [left | right; left].
  - unfold complete. rewrite (amendment_guard _ _ Hfrom).
    split; [reflexivity | now left].
Qed.

Lemma amendment_step_climbs chapters m a b :
  amendment_step chapters m a b -> (amendment_rank a < amendment_rank b)%nat.
Proof.
  intros Hs. destruct Hs;
    repeat match goal with H : _ \/ _ |- _ => destruct H as [-> | ->] end;
    simpl; lia.
Qed.

Lemma amendment_rank_inj a b : amendment_rank a = amendment_rank b -> a = b.
Proof. destruct a, b; simpl; intros H; (reflexivity || discriminate H). Qed.

Lemma amendment_invariant (I : AmendmentProcess -> Prop) :
  (forall m self to,
     I self -> amendment_step (affected_chapters self) m (stage self) to ->
     I (amended self m to)) ->
  forall calls self, I self -> I (drive perform calls self).
Proof.
  intros Hstep calls. induction calls as [| c calls IH]; intros self HI.
  - exact HI.
  - simpl. apply IH.
    destruct (amendment_call_follows_step c self) as [-> | (to & Hs & ->)].
    + exact HI.
    + now apply Hstep.
Qed.

Lemma amendment_entering (P : AmendmentProcess -> Prop) (Q : method -> Prop) :
  (forall m self to,
     amendment_step (affected_chapters self) m (stage self) to ->
     P (amended self m to) -> P self \/ Q m) ->
  forall calls self,
    P (drive perform calls self) -> P self \/ exists m, m ∈ calls /\ Q m.
Proof.
  intros Hstep calls. induction calls as [| c calls IH]; intros self HP.
  - now left.
  - simpl in HP. destruct (IH _ HP) as [HP' | (m & Hin & HQ)].
    + destruct (amendment_call_follows_step c self)
        as [Hsame | (to & Hs & Hr)].
      * left. now rewrite Hsame in HP'.
      * rewrite Hr in HP'.
        destruct (Hstep _ _ _ Hs HP') as [Ha | Hq]; [now left |].
        right. exists c. split; [left | exact Hq].
    + right. exists m. split; [now right | exact HQ].
Qed.

End AmendmentProperties.

(** X16. The two votes of the amendment machine.  [sejm_vote] at
    FIRST_READING_SEJM with a Sejm tally moves the amendment to SEJM_PASSED
    when quorum and TWO_THIRDS are met, and otherwise to REJECTED while the
    error of the vote is raised again; [senate_vote] at SEJM_PASSED with a
    Senate tally does the same with the ABSOLUTE majority and
    SENATE_PASSED.  A tally of the other chamber raises [AssertionError] and
    changes nothing. *)
Theorem amendment_votes_pass_or_reject
    (self : Amendment.AmendmentProcess) (vote : VoteRecord) :
  (Amendment.stage self = Amendment.FIRST_READING_SEJM ->
   (chamber vote = SEJM -> passing vote TWO_THIRDS ->
    Amendment.sejm_vote vote self
    = (Return tt,
       amended self (Amendment.m_sejm_vote vote) Amendment.SEJM_PASSED))
   /\ (chamber vote = SEJM -> ~ passing vote TWO_THIRDS ->
       exists e,
         vote_failure e
         /\ Voting.passes_vote vote TWO_THIRDS true = Raise e
         /\ Amendment.sejm_vote vote self
            = (Raise e,
               amended self (Amendment.m_sejm_vote vote) Amendment.REJECTED))
   /\ (chamber vote = SENATE ->
       Amendment.sejm_vote vote self = (Raise AssertionError, self)))
  /\ (Amendment.stage self = Amendment.SEJM_PASSED ->
      (chamber vote = SENATE -> passing vote ABSOLUTE ->
       Amendment.senate_vote vote self
       = (Return tt,
          amended self (Amendment.m_senate_vote vote) Amendment.SENATE_PASSED))
      /\ (chamber vote = SENATE -> ~ passing vote ABSOLUTE ->
          exists e,
            vote_failure e
            /\ Voting.passes_vote vote ABSOLUTE true = Raise e
            /\ Amendment.senate_vote vote self
               = (Raise e,
                  amended self (Amendment.m_senate_vote vote)
                    Amendment.REJECTED))
      /\ (chamber vote = SEJM ->
          Amendment.senate_vote vote self = (Raise AssertionError, self))).
Proof.
  split; intros Hs.
  - unfold Amendment.sejm_vote. rewrite (amendment_guard _ _ Hs).
    destruct (amendment_vote_cases SEJM vote TWO_THIRDS Amendment.SEJM_PASSED
                self)
      as [(Hc & ->) | [(Hc & Hp & ->) | (Hc & Hp & e & Hf & Hr & ->)]].
    + split; [congruence |]. split; [congruence | reflexivity].
    + split; [reflexivity |]. split; [tauto | congruence].
    + split; [tauto |]. split; [| congruence].
      intros _ _. exists e. tauto.
  - unfold Amendment.senate_vote. rewrite (amendment_guard _ _ Hs).
    destruct (amendment_vote_cases SENATE vote ABSOLUTE Amendment.SENATE_PASSED
                self)
      as [(Hc & ->) | [(Hc & Hp & ->) | (Hc & Hp & e & Hf & Hr & ->)]].
    + split; [congruence |]. split; [congruence | reflexivity].
    + split; [reflexivity |]. split; [tauto | congruence].
    + split; [tauto |]. split; [| congruence].
      intros _ _. exists e. tauto.
Qed.

(** An amendment in first reading, and a tied Sejm. *)
Lemma amendment_votes_pass_or_reject_witness :
  exists e,
    Amendment.sejm_vote (vote_record SEJM 200 200 30)
      {| Amendment.title := "Zmiana art. 100";
         Amendment.initiator := "Senate";
         Amendment.affected_chapters := {[ 4 ]};
         Amendment.stage := Amendment.FIRST_READING_SEJM;
         Amendment.referendum_requested := false |}
    = (Raise e,
       {| Amendment.title := "Zmiana art. 100";
          Amendment.initiator := "Senate";
          Amendment.affected_chapters := {[ 4 ]};
          Amendment.stage := Amendment.REJECTED;
          Amendment.referendum_requested := false |}).
Proof.
  destruct (amendment_votes_pass_or_reject
              {| Amendment.title := "Zmiana art. 100";
                 Amendment.initiator := "Senate";
                 Amendment.affected_chapters := {[ 4 ]};
                 Amendment.stage := Amendment.FIRST_READING_SEJM;
                 Amendment.referendum_requested := false |}
              (vote_record SEJM 200 200 30)) as (H & _).
  destruct (H eq_refl) as (_ & Hfail & _).
  destruct (Hfail eq_refl) as (e & _ & _ & Hr).
  - intros [_ Hm]. vm_compute in Hm. now apply Hm.
  - exists e. exact Hr.
Defined.

(** X17. The amendment machine makes exactly the moves of
    [amendment_step].  A call either leaves the amendment as it was, or it
    makes a move of the relation from the current stage: the stage is
    assigned, [request_referendum] sets its flag, and title, initiator and
    affected chapters stay.  Every move the relation allows is made by the
    call, which returns normally unless the move is the rejection after a
    failed vote. *)
Theorem amendment_machine_follows_step_relation
    (m : Amendment.method) (self : Amendment.AmendmentProcess) :
  (snd (Amendment.perform m self) = self
   \/ exists to,
        amendment_step (Amendment.affected_chapters self) m
          (Amendment.stage self) to
        /\ snd (Amendment.perform m self) = amended self m to)
  /\ (forall to,
        amendment_step (Amendment.affected_chapters self) m
          (Amendment.stage self) to ->
        snd (Amendment.perform m self) = amended self m to
        /\ (fst (Amendment.perform m self) = Return tt
            \/ exists e, vote_failure e
                 /\ fst (Amendment.perform m self) = Raise e
                 /\ to = Amendment.REJECTED)).
Proof.
  split.
  - apply amendment_call_follows_step.
  - intros to. apply amendment_step_is_made.
Qed.

(** A referendum refused by the voters. *)
Lemma amendment_machine_follows_step_relation_witness :
  snd (Amendment.referendum_result false
         {| Amendment.title := "Zmiana art. 1";
            Amendment.initiator := "President";
            Amendment.affected_chapters := {[ 1 ]};
            Amendment.stage := Amendment.REFERENDUM_REQUESTED;
            Amendment.referendum_requested := true |})
  = {| Amendment.title := "Zmiana art. 1";
       Amendment.initiator := "President";
       Amendment.affected_chapters := {[ 1 ]};
       Amendment.stage := Amendment.REJECTED;
       Amendment.referendum_requested := true |}.
Proof.
  destruct (amendment_machine_follows_step_relation
              (Amendment.m_referendum_result false)
              {| Amendment.title := "Zmiana art. 1";
                 Amendment.initiator := "President";
                 Amendment.affected_chapters := {[ 1 ]};
                 Amendment.stage := Amendment.REFERENDUM_REQUESTED;
                 Amendment.referendum_requested := true |}) as (_ & Hmade).
  destruct (Hmade Amendment.REJECTED) as (Hr & _).
  - apply step_referendum_refused.
  - exact Hr.
Defined.

(** X18. The amendment machine never goes back.  Whatever calls are made,
    the amendment only advances in the order of the procedure, its title,
    initiator and affected chapters stay, and if it is at the same stage
    afterwards then nothing at all has changed.  ADOPTED and REJECTED are
    terminal: no sequence of calls changes such an amendment. *)
Theorem amendment_never_goes_back
    (calls : list Amendment.method) (self : Amendment.AmendmentProcess) :
  (amendment_rank (Amendment.stage self)
   <= amendment_rank (Amendment.stage (drive Amendment.perform calls self)))%nat
  /\ Amendment.title (drive Amendment.perform calls self) = Amendment.title self
  /\ Amendment.initiator (drive Amendment.perform calls self)
     = Amendment.initiator self
  /\ Amendment.affected_chapters (drive Amendment.perform calls self)
     = Amendment.affected_chapters self
  /\ (Amendment.stage (drive Amendment.perform calls self)
      = Amendment.stage self ->
      drive Amendment.perform calls self = self)
  /\ (Amendment.stage self = Amendment.ADOPTED
      \/ Amendment.stage self = Amendment.REJECTED ->
      drive Amendment.perform calls self = self).
Proof.
  assert (Hmono : forall calls self,
            (amendment_rank (Amendment.stage self)
             <= amendment_rank
                  (Amendment.stage (drive Amendment.perform calls self)))%nat).
  { clear. intros calls self.
    apply (amendment_invariant
             (fun a => (amendment_rank (Amendment.stage self)
                        <= amendment_rank (Amendment.stage a))%nat));
      [| lia].
    intros m a to Ha Hs. apply amendment_step_climbs in Hs. simpl. lia. }
  assert (Hsame : forall calls self,
            Amendment.stage (drive Amendment.perform calls self)
            = Amendment.stage self ->
            drive Amendment.perform calls self = self).
  { clear - Hmono. intros calls.
    induction calls as [| c calls IH]; intros self Hs; [reflexivity |].
    simpl in *.
    destruct (amendment_call_follows_step c self) as [Hc | (to & Hstep & Hc)].
    - rewrite Hc in *. now apply IH.
    - exfalso. apply amendment_step_climbs in Hstep.
      pose proof (Hmono calls (snd (Amendment.perform c self))) as Hle.
      rewrite Hs, Hc in Hle. simpl in Hle. lia. }
  split; [apply Hmono |].
  split; [| split; [| split; [| split; [apply Hsame |]]]].
  - apply (amendment_invariant
             (fun a => Amendment.title a = Amendment.title self));
      [| reflexivity].
    intros m a to Ha _. exact Ha.
  - apply (amendment_invariant
             (fun a => Amendment.initiator a = Amendment.initiator self));
      [| reflexivity].
    intros m a to Ha _. exact Ha.
  - apply (amendment_invariant
             (fun a => Amendment.affected_chapters a
                       = Amendment.affected_chapters self));
      [| reflexivity].
    intros m a to Ha _. exact Ha.
  - intros Hterminal. apply drive_fixed. intros c.
    destruct (amendment_call_follows_step c self) as [Hc | (to & Hstep & _)];
      [exact Hc |].
    exfalso. destruct Hterminal as [Ht | Ht]; rewrite Ht in Hstep;
      inversion Hstep;
      repeat match goal with H : _ \/ _ |- _ => destruct H end;
      discriminate.
Qed.

(** An adopted amendment, asked to start over. *)
Lemma amendment_never_goes_back_witness :
  drive Amendment.perform
    [Amendment.m_first_reading; Amendment.m_president_sign;
     Amendment.m_referendum_result false]
    {| Amendment.title := "Zmiana art. 100";
       Amendment.initiator := "Senate";
       Amendment.affected_chapters := {[ 4 ]};
       Amendment.stage := Amendment.ADOPTED;
       Amendment.referendum_requested := false |}
  = {| Amendment.title := "Zmiana art. 100";
       Amendment.initiator := "Senate";
       Amendment.affected_chapters := {[ 4 ]};
       Amendment.stage := Amendment.ADOPTED;
       Amendment.referendum_requested := false |}.
Proof.
  destruct (amendment_never_goes_back
              [Amendment.m_first_reading; Amendment.m_president_sign;
               Amendment.m_referendum_result false]
              {| Amendment.title := "Zmiana art. 100";
                 Amendment.initiator := "Senate";
                 Amendment.affected_chapters := {[ 4 ]};
                 Amendment.stage := Amendment.ADOPTED;
                 Amendment.referendum_requested := false |})
    as (_ & _ & _ & _ & _ & Hterminal).
  apply Hterminal. now left.
Defined.

Lemma new_amendment t i c fresh :
  Amendment.new t i c = Return fresh ->
  i ∈ Amendment.INITIATORS
  /\ fresh = {| Amendment.title := t; Amendment.initiator := i;
                Amendment.affected_chapters := c;
                Amendment.stage := Amendment.INITIATED;
                Amendment.referendum_requested := false |}.
Proof.
  unfold Amendment.new.
  destruct (decide (i ∈ Amendment.INITIATORS)) as [Hin | Hn].
  - rewrite bool_decide_eq_false_2 by (intros H; exact (H Hin)).
    intros [= <-]. split; [exact Hin | reflexivity].
  - rewrite bool_decide_eq_true_2 by exact Hn. discriminate.
Qed.

(** X19. No amendment is adopted without its majorities.  If an amendment
    is constructed and any sequence of calls takes it to ADOPTED, then its
    initiator is one of the three of Art. 235(1), and among the calls there
    are a Sejm vote with a Sejm tally passing quorum and TWO_THIRDS, a
    Senate vote with a Senate tally passing quorum and ABSOLUTE majority,
    the President's signature and [complete]. *)
Theorem adoption_takes_both_majorities
    (t i : string) (c : gset Z) (fresh : Amendment.AmendmentProcess)
    (calls : list Amendment.method) :
  Amendment.new t i c = Return fresh ->
  Amendment.stage (drive Amendment.perform calls fresh) = Amendment.ADOPTED ->
  (i = "1/5 Sejm deputies" \/ i = "Senate" \/ i = "President")
  /\ (exists vote,
        Amendment.m_sejm_vote vote ∈ calls
        /\ chamber vote = SEJM /\ passing vote TWO_THIRDS)
  /\ (exists vote,
        Amendment.m_senate_vote vote ∈ calls
        /\ chamber vote = SENATE /\ passing vote ABSOLUTE)
  /\ Amendment.m_president_sign ∈ calls
  /\ Amendment.m_complete ∈ calls.
Proof.
  intros Hnew Hadopted.
  destruct (new_amendment _ _ _ _ Hnew) as [Hi ->].
  split; [| split; [| split; [| split]]].
  - unfold Amendment.INITIATORS in Hi.
    repeat (apply elem_of_cons in Hi as [Hi | Hi]; [tauto |]).
    apply elem_of_nil in Hi. contradiction.
  - destruct (amendment_entering
                (fun a => amendment_passed_by_sejm (Amendment.stage a))
                (fun m => exists vote, m = Amendment.m_sejm_vote vote
                            /\ chamber vote = SEJM /\ passing vote TWO_THIRDS))
      with (calls := calls)
           (self := {| Amendment.title := t; Amendment.initiator := i;
                       Amendment.affected_chapters := c;
                       Amendment.stage := Amendment.INITIATED;
                       Amendment.referendum_requested := false |})
      as [[] | (m & Hin & vote & -> & Hv)].
    + intros m a to Hs HP. simpl in HP.
      destruct Hs;
        repeat match goal with H : _ \/ _ |- _ => destruct H as [-> | ->] end;
        simpl in *; eauto.
    + now rewrite Hadopted.
    + now exists vote.
  - destruct (amendment_entering
                (fun a => amendment_passed_by_senate (Amendment.stage a))
                (fun m => exists vote, m = Amendment.m_senate_vote vote
                            /\ chamber vote = SENATE /\ passing vote ABSOLUTE))
      with (calls := calls)
           (self := {| Amendment.title := t; Amendment.initiator := i;
                       Amendment.affected_chapters := c;
                       Amendment.stage := Amendment.INITIATED;
                       Amendment.referendum_requested := false |})
      as [[] | (m & Hin & vote & -> & Hv)].
    + intros m a to Hs HP. simpl in HP.
      destruct Hs;
        repeat match goal with H : _ \/ _ |- _ => destruct H as [-> | ->] end;
        simpl in *; eauto.
    + now rewrite Hadopted.
    + now exists vote.
  - destruct (amendment_entering
                (fun a => Amendment.stage a = Amendment.PRESIDENT_SIGNS
                          \/ Amendment.stage a = Amendment.ADOPTED)
                (fun m => m = Amendment.m_president_sign))
      with (calls := calls)
           (self := {| Amendment.title := t; Amendment.initiator := i;
                       Amendment.affected_chapters := c;
                       Amendment.stage := Amendment.INITIATED;
                       Amendment.referendum_requested := false |})
      as [[Hx | Hx] | (m & Hin & ->)]; try discriminate Hx.
    + intros m a to Hs HP. simpl in HP.
      destruct Hs; destruct HP as [HP | HP]; try discriminate HP; auto.
    + now right.
    + exact Hin.
  - destruct (amendment_entering
                (fun a => Amendment.stage a = Amendment.ADOPTED)
                (fun m => m = Amendment.m_complete))
      with (calls := calls)
           (self := {| Amendment.title := t; Amendment.initiator := i;
                       Amendment.affected_chapters := c;
                       Amendment.stage := Amendment.INITIATED;
                       Amendment.referendum_requested := false |})
      as [Hx | (m & Hin & ->)]; try discriminate Hx.
    + intros m a to Hs HP. simpl in HP.
      destruct Hs; try discriminate HP; auto.
    + exact Hadopted.
    + exact Hin.
Qed.

(** The standard amendment of the test-suite, adopted by direct signature. *)
Lemma adoption_takes_both_majorities_witness :
  exists fresh,
    Amendment.new "Zmiana art. 100" "Senate" {[ 4 ]} = Return fresh
    /\ Amendment.stage
         (drive Amendment.perform
            [Amendment.m_first_reading;
             Amendment.m_sejm_vote sejm_two_thirds;
             Amendment.m_senate_vote senate_absolute_majority;
             Amendment.m_president_sign;
             Amendment.m_complete] fresh)
       = Amendment.ADOPTED
    /\ exists vote, chamber vote = SEJM /\ passing vote TWO_THIRDS.
Proof.
  eexists. split; [reflexivity |]. split; [vm_compute; reflexivity |].
  destruct (adoption_takes_both_majorities "Zmiana art. 100" "Senate" {[ 4 ]}
              _ [Amendment.m_first_reading;
                 Amendment.m_sejm_vote sejm_two_thirds;
                 Amendment.m_senate_vote senate_absolute_majority;
                 Amendment.m_president_sign;
                 Amendment.m_complete] eq_refl)
    as (_ & (vote & _ & Hv) & _).
  - vm_compute. reflexivity.
  - now exists vote.
Defined.

(** X20. The referendum on record.  For an amendment constructed and then
    driven by any calls: while a referendum is pending or won the flag
    [referendum_requested] is set; and the flag is only ever set on an
    amendment that affects chapter 1, 2 or 12, by a call of
    [request_referendum], after the Senate has passed it.  A referendum
    that has been won was approved by a call of [referendum_result]. *)
Theorem referendum_only_for_protected_chapters
    (t i : string) (c : gset Z) (fresh : Amendment.AmendmentProcess)
    (calls : list Amendment.method) :
  Amendment.new t i c = Return fresh ->
  (in_referendum (Amendment.stage (drive Amendment.perform calls fresh)) ->
   Amendment.referendum_requested (drive Amendment.perform calls fresh) = true)
  /\ (Amendment.referendum_requested (drive Amendment.perform calls fresh)
      = true ->
      c ∩ Amendment.REFERENDUM_CHAPTERS ≠ ∅
      /\ Amendment.m_request_referendum ∈ calls
      /\ ~ before_referendum
             (Amendment.stage (drive Amendment.perform calls fresh)))
  /\ (Amendment.stage (drive Amendment.perform calls fresh)
      = Amendment.REFERENDUM_PASSED ->
      Amendment.m_referendum_result true ∈ calls).
Proof.
  intros Hnew. destruct (new_amendment _ _ _ _ Hnew) as [_ ->].
  set (fresh := {| Amendment.title := t; Amendment.initiator := i;
                   Amendment.affected_chapters := c;
                   Amendment.stage := Amendment.INITIATED;
                   Amendment.referendum_requested := false |}).
  pose (I := fun a : Amendment.AmendmentProcess =>
          Amendment.affected_chapters a = c
          /\ (in_referendum (Amendment.stage a) ->
              Amendment.referendum_requested a = true)
          /\ (Amendment.referendum_requested a = true ->
              c ∩ Amendment.REFERENDUM_CHAPTERS ≠ ∅
              /\ ~ before_referendum (Amendment.stage a))).
  assert (HI : I (drive Amendment.perform calls fresh)).
  { apply amendment_invariant.
    - intros m a to (Hc & Hpending & Hflag) Hs. unfold I. simpl.
      split; [exact Hc |]. rewrite Hc in Hs. unfold in_referendum.
      destruct Hs;
        repeat match goal with H : _ \/ _ |- _ => destruct H as [-> | ->] end;
        simpl in *;
        (split; [intros [Hx | Hx]; try discriminate Hx; try reflexivity;
                 apply Hpending; unfold in_referendum; tauto |]);
        intros Hf; try (split; [assumption | tauto]);
        destruct (Hflag Hf) as [Hch Hb]; simpl in Hb; tauto.
    - unfold I, in_referendum. simpl. split; [reflexivity |].
      split; [intros [Hx | Hx]; discriminate Hx | discriminate]. }
  destruct HI as (_ & Hpending & Hflag).
  split; [exact Hpending |]. split.
  - intros Hf. destruct (Hflag Hf) as [Hch Hb].
    split; [exact Hch |]. split; [| exact Hb].
    destruct (amendment_entering
                (fun a => Amendment.referendum_requested a = true)
                (fun m => m = Amendment.m_request_referendum))
      with (calls := calls) (self := fresh)
      as [Hx | (m & Hin & ->)]; [| exact Hf | discriminate Hx | exact Hin].
    intros m a to Hs HP. simpl in HP. destruct m; auto.
  - intros Hpassed.
    destruct (amendment_entering
                (fun a => Amendment.stage a = Amendment.REFERENDUM_PASSED)
                (fun m => m = Amendment.m_referendum_result true))
      with (calls := calls) (self := fresh)
      as [Hx | (m & Hin & ->)]; [| exact Hpassed | discriminate Hx | exact Hin].
    intros m a to Hs HP. simpl in HP. destruct Hs; try discriminate HP; auto.
Qed.

(** An amendment to chapter 1 taken to a pending referendum. *)
Lemma referendum_only_for_protected_chapters_witness :
  exists fresh,
    Amendment.new "Zmiana art. 1" "President" {[ 1 ]} = Return fresh
    /\ Amendment.referendum_requested
         (drive Amendment.perform
            [Amendment.m_first_reading;
             Amendment.m_sejm_vote sejm_two_thirds;
             Amendment.m_senate_vote senate_absolute_majority;
             Amendment.m_request_referendum] fresh)
       = true.
Proof.
  eexists. split; [reflexivity |].
  destruct (referendum_only_for_protected_chapters "Zmiana art. 1" "President"
              {[ 1 ]} _
              [Amendment.m_first_reading;
               Amendment.m_sejm_vote sejm_two_thirds;
               Amendment.m_senate_vote senate_absolute_majority;
               Amendment.m_request_referendum] eq_refl) as (Hpending & _).
  apply Hpending. left. vm_compute. reflexivity.
Defined.

(** ** The formation machine, move by move *)

Section FormationMoves.
Import Formation.
Local Open Scope action_scope.

Lemma confidence_vote_cases vote kind other self :
  (passing vote kind
   /\ try_except_Exception
        (call (Voting.passes_vote vote kind true) ;; set_stage APPOINTED)
        (fun _ => set_stage other) self
      = (Return tt, {| stage := APPOINTED |}))
  \/ (~ passing vote kind
      /\ try_except_Exception
           (call (Voting.passes_vote vote kind true) ;; set_stage APPOINTED)
           (fun _ => set_stage other) self
         = (Return tt, {| stage := other |})).
Proof.
  destruct (passing_dec vote kind) as [Hp | Hp].
  - left. split; [exact Hp |]. now apply confidence_vote_passing.
  - right. split; [exact Hp |]. now apply confidence_vote_failing.
Qed.

Lemma formation_call_follows_step m self :
  (snd (perform m self) = self
   /\ exists msg article,
        fst (perform m self)
        = Raise (Raised GovernmentFormationError msg article))
  \/ exists to,
       formation_step m (stage self) to
       /\ perform m self = (Return tt, {| stage := to |}).
Proof.
  destruct (decide (stage self ∈ source_stages m)) as [Hin | Hn].
  2: { left. destruct (formation_illegal_call m) as [Hr _].
       destruct (Hr self Hn) as (msg & art & Hcall & _). rewrite Hcall.
       split; [reflexivity |]. now exists msg, art. }
  right. destruct m; simpl in Hin; unfold perform;
    pose proof Hin as Hs; apply list_elem_of_singleton in Hs; rewrite Hs.
  - exists CONFIDENCE_VOTE. split; [constructor |].
    unfold president_designates. now rewrite formation_guarded_in.
  - unfold sejm_confidence_first_attempt.
    rewrite formation_guarded_in by exact Hin.
    destruct (confidence_vote_cases vote ABSOLUTE SEJM_ELECTS self)
      as [[Hp ->] | [Hp ->]]; eexists; (split; [| reflexivity]);
      now constructor.
  - unfold sejm_elects_pm.
    rewrite formation_guarded_in by exact Hin.
    destruct (confidence_vote_cases vote ABSOLUTE PRESIDENT_APPOINTS_RETRY self)
      as [[Hp ->] | [Hp ->]]; eexists; (split; [| reflexivity]);
      now constructor.
  - unfold president_appoints_third_attempt.
    rewrite formation_guarded_in by exact Hin.
    destruct (confidence_vote_cases vote SIMPLE FAILED self)
      as [[Hp ->] | [Hp ->]]; eexists; (split; [| reflexivity]);
      now constructor.
Qed.

Lemma formation_step_climbs m a b :
  formation_step m a b -> (formation_rank a < formation_rank b)%nat.
Proof. intros Hs. destruct Hs; simpl; lia. Qed.

Lemma formation_entering (P : GovernmentFormationStage -> Prop)
    (Q : method -> Prop) :
  (forall m a b, formation_step m a b -> P b -> P a \/ Q m) ->
  forall calls self,
    P (stage (drive perform calls self)) ->
    P (stage self) \/ exists m, m ∈ calls /\ Q m.
Proof.
  intros Hstep calls. induction calls as [| c calls IH]; intros self HP.
  - now left.
  - simpl in HP. destruct (IH _ HP) as [HP' | (m & Hin & HQ)].
    + destruct (formation_call_follows_step c self)
        as [[Hsame _] | (to & Hs & Hr)].
      * left. now rewrite Hsame in HP'.
      * rewrite Hr in HP'. simpl in HP'.
        destruct (Hstep _ _ _ Hs HP') as [Ha | Hq]; [now left |].
        right. exists c. split; [left | exact Hq].
    + right. exists m. split; [now right | exact HQ].
Qed.

Lemma formation_rank_grows calls self :
  (formation_rank (stage self)
   <= formation_rank (stage (drive perform calls self)))%nat.
Proof.
  revert self. induction calls as [| c calls IH]; intros self; [simpl; lia |].
  simpl. etransitivity; [| apply IH].
  destruct (formation_call_follows_step c self)
    as [[-> _] | (to & Hs & ->)]; [lia |].
  apply formation_step_climbs in Hs. simpl. lia.
Qed.

End FormationMoves.

(** X21. Calls of the formation machine either raise or move.  A call made
    outside its stage raises [GovernmentFormationError] and changes
    nothing; every other call returns normally and makes the move that
    [formation_step] gives for the outcome of the vote, whatever the
    chamber of the tally.  So the machine only advances: it never returns to
    an attempt it has left, and APPOINTED and FAILED are terminal. *)
Theorem formation_calls_raise_or_advance
    (m : Formation.method) (calls : list Formation.method)
    (self : Formation.GovernmentFormation) :
  ((snd (Formation.perform m self) = self
    /\ exists msg article,
         fst (Formation.perform m self)
         = Raise (Raised GovernmentFormationError msg article))
   \/ exists to,
        formation_step m (Formation.stage self) to
        /\ (formation_rank (Formation.stage self) < formation_rank to)%nat
        /\ Formation.perform m self
           = (Return tt, {| Formation.stage := to |}))
  /\ (formation_rank (Formation.stage self)
      <= formation_rank
           (Formation.stage (drive Formation.perform calls self)))%nat
  /\ (Formation.stage self = Formation.APPOINTED
      \/ Formation.stage self = Formation.FAILED ->
      drive Formation.perform calls self = self).
Proof.
  split; [| split].
  - destruct (formation_call_follows_step m self)
      as [Hraise | (to & Hs & Hr)]; [now left |].
    right. exists to. split; [exact Hs |]. split; [| exact Hr].
    now apply formation_step_climbs in Hs.
  - apply formation_rank_grows.
  - intros Hterminal. apply drive_fixed. intros c.
    destruct (formation_call_follows_step c self)
      as [[Hsame _] | (to & Hs & _)]; [exact Hsame |].
    exfalso. destruct Hterminal as [Ht | Ht]; rewrite Ht in Hs; inversion Hs.
Qed.

(** An appointed government, put to another vote. *)
Lemma formation_calls_raise_or_advance_witness :
  drive Formation.perform
    [Formation.m_sejm_elects_pm sejm_200_for;
     Formation.m_president_appoints_third_attempt sejm_200_for]
    {| Formation.stage := Formation.APPOINTED |}
  = {| Formation.stage := Formation.APPOINTED |}.
Proof.
  destruct (formation_calls_raise_or_advance Formation.m_president_designates
              [Formation.m_sejm_elects_pm sejm_200_for;
               Formation.m_president_appoints_third_attempt sejm_200_for]
              {| Formation.stage := Formation.APPOINTED |})
    as (_ & _ & Hterminal).
  apply Hterminal. now left.
Defined.

(** X22. How a formation ends.  If any sequence of calls takes a fresh
    formation to APPOINTED, one of the three attempts was called with a
    tally that passes its vote (quorum and ABSOLUTE majority at the first
    and second attempt, quorum and SIMPLE majority at the third).  If it
    takes it to FAILED, all three attempts were called with tallies that
    fail their votes. *)
Theorem formation_ends_by_its_votes (calls : list Formation.method) :
  (Formation.stage (drive Formation.perform calls Formation.new)
   = Formation.APPOINTED ->
   exists vote,
     (Formation.m_sejm_confidence_first_attempt vote ∈ calls
      /\ passing vote ABSOLUTE)
     \/ (Formation.m_sejm_elects_pm vote ∈ calls /\ passing vote ABSOLUTE)
     \/ (Formation.m_president_appoints_third_attempt vote ∈ calls
         /\ passing vote SIMPLE))
  /\ (Formation.stage (drive Formation.perform calls Formation.new)
      = Formation.FAILED ->
      (exists vote,
         Formation.m_sejm_confidence_first_attempt vote ∈ calls
         /\ ~ passing vote ABSOLUTE)
      /\ (exists vote,
            Formation.m_sejm_elects_pm vote ∈ calls
            /\ ~ passing vote ABSOLUTE)
      /\ (exists vote,
            Formation.m_president_appoints_third_attempt vote ∈ calls
            /\ ~ passing vote SIMPLE)).
Proof.
  split.
  - intros Happointed.
    destruct (formation_entering (fun s => s = Formation.APPOINTED)
                (fun m =>
                   exists vote,
                     (m = Formation.m_sejm_confidence_first_attempt vote
                      /\ passing vote ABSOLUTE)
                     \/ (m = Formation.m_sejm_elects_pm vote
                         /\ passing vote ABSOLUTE)
                     \/ (m = Formation.m_president_appoints_third_attempt vote
                         /\ passing vote SIMPLE)))
      with (calls := calls) (self := Formation.new)
      as [Hx | (m & Hin & vote & [[-> Hp] | [[-> Hp] | [-> Hp]]])];
      [| exact Happointed | discriminate Hx | | |]; try (exists vote; tauto).
    intros m a b Hs HP. destruct Hs; try discriminate HP; right; eauto 6.
  - intros Hfailed.
    assert (Hclass : forall (P : Formation.GovernmentFormationStage -> Prop) Q,
              (forall m a b, formation_step m a b -> P b -> P a \/ Q m) ->
              P Formation.FAILED -> ~ P Formation.PRESIDENT_DESIGNATES ->
              exists m, m ∈ calls /\ Q m).
    { intros P Q Hstep HP Hnew.
      destruct (formation_entering P Q Hstep calls Formation.new)
        as [Hx | Hm]; [now rewrite Hfailed | | exact Hm].
      now apply Hnew in Hx. }
    split; [| split].
    + destruct (Hclass
                  (fun s => (2 <= formation_rank s)%nat
                            /\ s <> Formation.APPOINTED)
                  (fun m => exists vote,
                     m = Formation.m_sejm_confidence_first_attempt vote
                     /\ ~ passing vote ABSOLUTE))
        as (m & Hin & vote & -> & Hp);
        [| simpl; split; [lia | discriminate] | simpl; lia |];
        [| now exists vote].
      intros m a b Hs [Hr Hne]. destruct Hs; simpl in *;
        try (left; split; [lia | discriminate]); try lia;
        try congruence; right; eauto.
    + destruct (Hclass
                  (fun s => (3 <= formation_rank s)%nat
                            /\ s <> Formation.APPOINTED)
                  (fun m => exists vote,
                     m = Formation.m_sejm_elects_pm vote
                     /\ ~ passing vote ABSOLUTE))
        as (m & Hin & vote & -> & Hp);
        [| simpl; split; [lia | discriminate] | simpl; lia |];
        [| now exists vote].
      intros m a b Hs [Hr Hne]. destruct Hs; simpl in *;
        try (left; split; [lia | discriminate]); try lia;
        try congruence; right; eauto.
    + destruct (Hclass
                  (fun s => s = Formation.FAILED)
                  (fun m => exists vote,
                     m = Formation.m_president_appoints_third_attempt vote
                     /\ ~ passing vote SIMPLE))
        as (m & Hin & vote & -> & Hp);
        [| reflexivity | discriminate |]; [| now exists vote].
      intros m a b Hs HP. destruct Hs; try discriminate HP; right; eauto.
Qed.

(** Three times 200 for and 230 against. *)
Lemma formation_ends_by_its_votes_witness :
  Formation.stage
    (drive Formation.perform
       [Formation.m_president_designates;
        Formation.m_sejm_confidence_first_attempt sejm_200_for;
        Formation.m_sejm_elects_pm sejm_200_for;
        Formation.m_president_appoints_third_attempt sejm_200_for]
       Formation.new)
  = Formation.FAILED
  /\ exists vote, ~ passing vote SIMPLE.
Proof.
  split; [reflexivity |].
  destruct (formation_ends_by_its_votes
              [Formation.m_president_designates;
               Formation.m_sejm_confidence_first_attempt sejm_200_for;
               Formation.m_sejm_elects_pm sejm_200_for;
               Formation.m_president_appoints_third_attempt sejm_200_for])
    as (_ & Hfailed).
  destruct (Hfailed eq_refl) as (_ & _ & vote & _ & Hv).
  now exists vote.
Defined.
